(* ===== verification/_CoqProject ===== *)
-Q . S2P
Prelude.v
PyDate.v
PyStr.v
DateText.v
Auth.v
Store.v
StudyRouter.v
Concurrency.v
App.v
