(* ===== verification/Prelude.v ===== *)
(** * A verification of the study-time router

    The program is [src/routers/study_router.py], a FastAPI router with
    two handlers over one SQLAlchemy table [StudyLog]:
    - [add_study_time] (POST /api/study_logs, lines 18-40) verifies the
      bearer token, reads today's row of the user, adds the request's
      minutes to it or inserts a new row, commits, refreshes the row and
      answers the day's total;
    - [get_study_logs_for_week] (GET /api/study_logs, lines 43-83)
      verifies the token, resolves the window start from the optional
      [week_start] (parsed with [datetime.strptime], a [ValueError]
      answered 400) or six days before today, queries the user's rows of
      the seven days, fills a dict keyed by [str(date)] with zeros,
      overwrites it with the rows' minutes and answers it with its sum.
    Both start with the same gate ([verify_token], then the ["sub"]
    claim).  The handlers call [datetime.date] arithmetic, [strptime]
    and [str(date)] from CPython, the session of [db.database] and
    [verify_token] of [utils.security]; the last two are outside [src/]
    and are modelled from the spec.

    ** Files

    - [Prelude] (this file): Python exceptions [exn] and the status
      FastAPI answers for each ([status_of]); [result] for calls that
      raise; the state-and-exception monad [st] in which handlers run
      (state changes made before an exception persist, as in Python);
      [range] and [sum]; shared list and monad lemmas, the hint
      databases [pydb] and [pyrw], and the tactic [invc].
    - [PyDate]: CPython's [datetime.date] as [datetime.py] writes it:
      the ordinal calendar ([_ymd2ord], [_ord2ymd]), the constructor's
      field check, [date + timedelta] with its [OverflowError], and
      [date._cmp].  Theorems: ordinals and dates are inverse bijections
      on the range of [date], adding days adds ordinals, comparison
      is ordinal comparison; the closed-form [_days_before_year] and the
      [_DAYS_BEFORE_MONTH] table compute the same ordinal as counting
      one year and one month at a time ([ref_ordinal]).
    - [PyStr]: Python text as code points.  The [week_start] parameter
      arrives as bytes that Starlette decodes as UTF-8 with
      [errors="replace"]; [utf8_decode] is CPython's decoder (one step
      [decode_one] per character, with the length of the input as
      fuel), and the Unicode 14.0 tables of decimal digits and
      whitespace are what [\d] and [int()] consult.  Lemmas: decoding
      inverts UTF-8 encoding on scalar values, ASCII reads as itself.
    - [DateText]: [str(date)] ([%04d-%02d-%02d]) and
      [datetime.strptime(s, "%Y-%m-%d").date()] as [_strptime.py] does it
      on that [str]: the regular expression built from the format,
      matched with backtracking, the check that no data remains,
      [int()] of the groups and the date constructor.  Theorems:
      parsing the text of a date gives it back, only [ValueError] is
      raised, the text of every date with its month or day unpadded
      (or the day blank-padded) is accepted as that date, and so is a
      year in the decimal digits of any script.
    - [Auth]: the verifier as a class [TokenVerifier] whose law is the
      spec's contract (a rejected token is a 401), with a table-driven
      instance as test double, and the gate [authenticate]
      (lines 24-27 and 49-52), with its contract on every branch: it
      lets through exactly the verified tokens with a string subject,
      and answers every other token with a 401.
    - [Store]: the table as a list of rows in storage order with fresh
      primary keys and the log of SQL statements sent; the session
      operations the handlers use ([query(...).first()], [.all()],
      attribute update, [add], [commit], [refresh]); the invariant
      [db_inv] (one row per (user, day), distinct keys, valid dates)
      and the abstract store [stored_minutes] the spec speaks of.  The
      faults a database can add are fields of the state that no
      statement changes: [schema_unique] (a UNIQUE (user_id, date)
      constraint, the hardening of spec section 9: a violating flush
      raises [IntegrityError]) and [commit_ok] (whether COMMIT
      succeeds, else [OperationalError]) and [int_bits], the width of
      the [Integer] minutes column (32 bits for INTEGER on PostgreSQL
      or MySQL, 64 on SQLite): the flush binds a value only when it
      [fits] the signed range, else raises [range_error] (the driver's
      [DataError] or [OverflowError]) before the statement is sent.  A
      failed commit rolls the rows back, while the primary-key
      sequence stays advanced.
    - [StudyRouter]: both handlers, [add_study_time] as the composition
      of its three statement groups ([add_select], [add_commit],
      [add_refresh]) and [get_study_logs_for_week] with its dict as an
      insertion-ordered association list.  Theorems: each handler
      refines an abstract specification ([spec_record], [spec_week]);
      the error paths of spec section 7 (401 before any statement, 400
      for a malformed start before any statement, the [OverflowError]
      of the last days of year 9999); the default window; additivity;
      an add is visible in the weekly total; and what the code accepts
      that the spec excludes (an empty [week_start] taken as absent,
      negative minutes); a failing COMMIT is a 500 that leaves the rows
      as they were; an add succeeds exactly when the day's new total
      fits the column, and otherwise is a 500 whose rows are rolled
      back ([add_study_time_column_bounds]); the exact bounds at which
      the window start and end overflow; on any table, also one with several rows of a (user,
      day), the weekly view shows the last row of each day
      ([shown_minutes]), which is [stored_minutes] when keys are unique.
    - [Concurrency]: requests in flight between those statement groups,
      interleaved on one table ([cstep]), executable schedules ([run]),
      and the hardened design of spec section 9 where each add is atomic
      ([astep]).  Theorems: on any table, the schedule of spec section
      5 where two adds both read before either commits stores a
      duplicate row for a first add of the day, loses the first
      increment on a day that has a row (the table ends as if only the
      second add had run), and under the UNIQUE constraint answers the
      late request with the constraint's 500 and loses its minutes;
      under every interleaving keys stay distinct and requests fail
      only at the gate or with the column's range error; atomic adds keep one
      row per (user, day) and the sum of all increments, when the stored
      minutes are further from the column's bounds than the sum of the
      increments' absolute values (so that no partial sum overflows).
    - [App]: what FastAPI runs around the handlers (lines 12-16 and the
      handlers' parameters): Starlette's route matching with its 405 and
      slash redirects, the JSON body, the dependency [HTTPBearer()] as
      FastAPI writes it, validation of [StudyTimeRequest] after the
      dependencies, and the exception-to-response conversion, composed
      with the handlers in [app].  The status [HTTPBearer] answers is a
      parameter (403 or 401 depending on the FastAPI release) and
      pydantic's [int] validation an interface [IntValidator].
      Theorems: a well-formed POST and a well-formed GET are answered
      end to end as the handlers' refinements say; what is rejected
      before the handler (a missing header with [HTTPBearer]'s status, a non-JSON or
      invalid body with 422 whatever the token, other methods with
      405), with no statement sent.

    ** Bounds and fuel

    Integers are [Z]: Python's [int] is unbounded.  Two bounds matter
    and both are modelled and reached: the one [date] enforces
    ([MINYEAR] .. [MAXYEAR], ordinals [1] .. [_MAXORDINAL];
    [weekly_end_overflow]) and the signed range of the minutes column,
    [- 2 ^ (int_bits - 1)] .. [2 ^ (int_bits - 1) - 1], checked at the
    flush ([add_study_time_column_bounds], exercised at [2 ^ 31 - 1]
    and [2 ^ 31] on a 32-bit column).  [str_nat] formats with fuel
    [1 + log2 n] digits, enough for every [n] ([str_nat_fuel]).  The
    regular expression matcher recurses on the pattern and needs no
    fuel.  Two facts are finite and checked by evaluation: the month
    lookup of [_ord2ymd] over the day offsets [0 .. 364] it meets
    (the 366th day of a leap year returns early), for a leap and a
    common year ([month_from_offset_all]), and the month/day groups of
    [strptime] over 12 x 31 pairs ([md_all]).  Schedules are lists, so
    [run] is structural; the interleaving's termination is proved.
    The UTF-8 decoding loop takes the length of its input as fuel, which
    is enough because every step consumes a byte
    ([decode_loop_enough]).

    ** Not modelled

    pydantic's lax coercions to [int] (booleans, integral floats,
    numeric strings), on which its releases differ, beyond the laws of
    [IntValidator]; the decoding of JSON text (a body is given decoded
    or as not JSON); middleware, and the 422 error list's contents;
    [get_db] and the connection's lifetime; database isolation levels
    (each statement is atomic and sees the last commit); the Unicode
    tables of Python releases after 3.11 (Unicode 15 adds two runs of
    digits; the proofs use of the tables only that each run of digits
    is made of scalar values that are not whitespace, checked by
    evaluation); raw non-ASCII bytes in a URL, which RFC 3986 does
    not allow and Starlette reads as Latin-1; the directives of [strptime] other than [%Y], [%m], [%d] and literal
    characters; the body of [verify_token] (JWT decoding); faults of the
    database other than a violated constraint, a refused COMMIT and an
    out-of-range value (lost connections in mid-statement, a failing
    [refresh]); MySQL outside strict mode, which clamps an out-of-range
    value to the column's bound with a warning instead of raising; the
    exception class and message of each driver's range error (one
    [range_error] stands for all, answered 500 alike). *)

From stdpp Require Export base list strings decidable sets.
From Stdlib Require Export ZArith Lia.
From Stdlib Require Import Ascii.

Declare Scope py_scope.
Delimit Scope py_scope with py.
Open Scope Z_scope.

(** ** Python exceptions

    The kinds of exception the router can raise or let escape:
    [HTTPException] (FastAPI's, with its status code), [ValueError]
    (raised by [datetime.strptime] and the [date] constructor),
    [OverflowError] (raised by [date + timedelta] out of range) and
    [SQLAlchemyError] (raised by the session, e.g. [refresh] of a row
    that is gone). *)
Inductive exn :=
| HTTPException (status_code : Z) (detail : string)
| ValueError (msg : string)
| OverflowError (msg : string)
| SQLAlchemyError (msg : string).

(** FastAPI's response status for an exception that leaves a handler:
    an [HTTPException] carries its own code, anything else is an
    internal server error. *)
Definition status_of (e : exn) : Z :=
  match e with
  | HTTPException code _ => code
  | ValueError _ | OverflowError _ | SQLAlchemyError _ => 500
  end.

(** A Python call either returns a value or raises. *)
Inductive result (A : Type) :=
| Ok (a : A)
| Raise (e : exn).
Arguments Ok {A} a.
Arguments Raise {A} e.

#[export] Instance result_ret : MRet result := λ A a, Ok a.
#[export] Instance result_bind : MBind result :=
  λ A B f m, match m with Ok a => f a | Raise e => Raise e end.
#[export] Instance result_throw : MThrow exn result := λ A e, Raise e.

(** A statement that reads and writes a state [S] and may raise: the
    state changes made before an exception persist, as in Python. *)
Definition st (S A : Type) : Type := S → S * result A.

#[export] Instance st_ret {S} : MRet (st S) := λ A a s, (s, Ok a).
#[export] Instance st_bind {S} : MBind (st S) :=
  λ A B f m s, match m s with
               | (s', Ok a) => f a s'
               | (s', Raise e) => (s', Raise e)
               end.
#[export] Instance st_throw {S} : MThrow exn (st S) := λ A e s, (s, Raise e).

(** The value of a call that returned. *)
Definition ok_value {A} (r : result A) : option A :=
  match r with Ok a => Some a | Raise _ => None end.

Definition st_get {S} : st S S := λ s, (s, Ok s).
Definition st_put {S} (s : S) : st S unit := λ _, (s, Ok tt).
Definition st_lift {S A} (r : result A) : st S A := λ s, (s, r).

Notation "'raise' e" := (mthrow e) (at level 10) : py_scope.
Open Scope py_scope.

(** ** Python builtins on integers and lists *)

(** [range(n)] as the list of its values. *)
Definition py_range (n : Z) : list Z := Z.of_nat <$> seq 0 (Z.to_nat n).

(** [sum(xs)]: left to right from 0. *)
Definition py_sum (xs : list Z) : Z := foldl Z.add 0 xs.

(** ** Shared lemmas *)

Lemma foldl_add_acc (xs : list Z) (a : Z) : foldl Z.add a xs = a + foldl Z.add 0 xs.
Proof.
  revert a. induction xs as [|x xs IH]; intros a; simpl; [lia|].
  rewrite (IH (a + x)), (IH (0 + x)). lia.
Qed.

Lemma py_sum_nil : py_sum [] = 0.
Proof. reflexivity. Qed.

Lemma py_sum_cons x xs : py_sum (x :: xs) = x + py_sum xs.
Proof. unfold py_sum. simpl. rewrite foldl_add_acc. lia. Qed.

Lemma py_sum_app xs ys : py_sum (xs ++ ys) = py_sum xs + py_sum ys.
Proof.
  induction xs as [|x xs IH]; simpl; [rewrite py_sum_nil; lia|].
  rewrite !py_sum_cons, IH. lia.
Qed.

Lemma py_range_length n : length (py_range n) = Z.to_nat n.
Proof. unfold py_range. by rewrite length_fmap, length_seq. Qed.

Lemma py_range_succ n : 0 <= n → py_range (n + 1) = py_range n ++ [n].
Proof.
  intros Hn. unfold py_range. rewrite Z2Nat.inj_add by lia. rewrite seq_app, fmap_app.
  simpl. by rewrite Z2Nat.id by lia.
Qed.

Lemma elem_of_py_range i n : i ∈ py_range n ↔ 0 <= i < n.
Proof.
  unfold py_range. rewrite list_elem_of_fmap. split.
  - intros (k & -> & Hk). apply list_elem_of_In, in_seq in Hk. lia.
  - intros Hi. exists (Z.to_nat i). split; [lia|].
    apply list_elem_of_In, in_seq. lia.
Qed.

Lemma bind_Ok {A B} (m : result A) (f : A → result B) (b : B) :
  (m ≫= f) = Ok b ↔ ∃ a, m = Ok a ∧ f a = Ok b.
Proof.
  destruct m as [a|e]; simpl; split.
  - eauto.
  - intros (a' & Ha & Hf). by injection Ha as ->.
  - discriminate.
  - intros (a & Ha & _). discriminate.
Qed.

Lemma bind_Raise {A B} (m : result A) (f : A → result B) (e : exn) :
  (m ≫= f) = Raise e ↔ m = Raise e ∨ ∃ a, m = Ok a ∧ f a = Raise e.
Proof.
  destruct m as [a|e']; simpl; split.
  - eauto.
  - intros [H | (a' & Ha & Hf)]; [discriminate|]. by injection Ha as ->.
  - intros H. left. by injection H as ->.
  - intros [H | (a & Ha & _)]; [by injection H as -> | discriminate].
Qed.

Lemma st_bind_run {S A B} (m : st S A) (f : A → st S B) (s : S) :
  (m ≫= f) s = match m s with
               | (s', Ok a) => f a s'
               | (s', Raise e) => (s', Raise e)
               end.
Proof. reflexivity. Qed.

Lemma filter_all_false {A} (P : A → Prop) `{∀ x, Decision (P x)} (l : list A) :
  (∀ x, x ∈ l → ¬ P x) → filter P l = [].
Proof.
  induction l as [|x l IH]; intros Hl; [done|]. rewrite filter_cons.
  rewrite decide_False by (apply Hl; left). apply IH. intros y Hy. apply Hl. by right.
Qed.

(** [filter] only looks at the elements of the list. *)
Lemma list_filter_iff_in {A} (P1 P2 : A → Prop) `{∀ x, Decision (P1 x)} `{∀ x, Decision (P2 x)}
    (l : list A) :
  (∀ x, x ∈ l → P1 x ↔ P2 x) → filter P1 l = filter P2 l.
Proof.
  induction l as [|x l IH]; intros Hl; [done|]. rewrite !filter_cons.
  rewrite IH by (intros y Hy; apply Hl; by right).
  pose proof (Hl x (list_elem_of_here _ _)) as Hx.
  destruct (decide (P1 x)) as [h1|h1], (decide (P2 x)) as [h2|h2]; try done;
    exfalso; [apply h2|apply h1]; by apply Hx.
Qed.

Lemma st_lift_Ok {S A B} (a : A) (f : A → st S B) (s : S) :
  (st_lift (Ok a) ≫= f) s = f a s.
Proof. reflexivity. Qed.


Create HintDb pydb.
Create Rewrite HintDb pyrw.
#[export] Hint Rewrite py_sum_nil py_sum_cons py_sum_app py_range_length : pyrw.

Lemma py_sum_ext {A} (f g : A → Z) (l : list A) :
  (∀ y, y ∈ l → g y = f y) → py_sum (g <$> l) = py_sum (f <$> l).
Proof.
  induction l as [|y l IH]; intros Hg; [done|]. rewrite !fmap_cons. autorewrite with pyrw.
  rewrite (Hg y (list_elem_of_here _ _)), IH; [done|]. intros z Hz. apply Hg. by right.
Qed.

(** Raising the value of one element of a duplicate-free list by [m]
    raises the sum by [m]. *)
Lemma py_sum_bump {A} `{EqDecision A} (f g : A → Z) (l : list A) x m :
  NoDup l → x ∈ l → (∀ y, y ∈ l → g y = if decide (y = x) then f y + m else f y) →
  py_sum (g <$> l) = py_sum (f <$> l) + m.
Proof.
  induction l as [|y l IH]; intros Hnd Hx Hg; [set_solver|].
  apply NoDup_cons in Hnd as [Hy Hnd]. rewrite !fmap_cons. autorewrite with pyrw.
  rewrite (Hg y (list_elem_of_here _ _)). destruct (decide (y = x)) as [->|Hne].
  - rewrite (py_sum_ext f g); [lia|]. intros z Hz. rewrite Hg by (by right).
    rewrite decide_False; [done|]. by intros ->.
  - apply elem_of_cons in Hx as [->|Hx]; [done|].
    rewrite IH; [lia|done..|]. intros z Hz. apply Hg. by right.
Qed.

(** [invc H]: invert a hypothesis and clean up. *)
Ltac invc H := inversion H; subst; clear H.
