(* ===== verification/PyDate.v ===== *)
(** * PyDate: the calendar arithmetic of Python's [datetime.date]

    The router computes its week window with [date.today()],
    [date + timedelta(days=k)], [date - timedelta(days=k)], date
    comparison (in the SQL filter) and [str(date)].  This file models the
    arithmetic part as CPython implements it (the proleptic Gregorian
    ordinal of [datetime.py]: [_is_leap], [_days_before_year],
    [_days_in_month], [_days_before_month], [_ymd2ord], [_ord2ymd],
    [_check_date_fields], [date.toordinal], [date.fromordinal],
    [date.__add__], [date.__sub__], [date._cmp]) and proves it correct:
    ordinal and calendar date are inverse bijections on the range of
    [date], addition of days is addition of ordinals, and the tuple order
    of dates is the order of their ordinals. *)

From S2P Require Import Prelude.

Open Scope Z_scope.
Open Scope py_scope.

Module PyDate.

(** ** Constants and tables *)

Definition MINYEAR : Z := 1.
Definition MAXYEAR : Z := 9999.
Definition _MAXORDINAL : Z := 3652059.

Definition _DAYS_IN_MONTH : list Z :=
  [-1; 31; 28; 31; 30; 31; 30; 31; 31; 30; 31; 30; 31].

(** [for dim in _DAYS_IN_MONTH[1:]: _DAYS_BEFORE_MONTH.append(dbm); dbm += dim] *)
Fixpoint days_before_month_loop (dbm : Z) (dims : list Z) : list Z :=
  match dims with
  | [] => []
  | dim :: rest => dbm :: days_before_month_loop (dbm + dim) rest
  end.

Definition _DAYS_BEFORE_MONTH : list Z :=
  -1 :: days_before_month_loop 0 (drop 1 _DAYS_IN_MONTH).

(** [xs[i]] for an index the callers keep in range (they assert
    [1 <= month <= 12]). *)
Definition py_index (xs : list Z) (i : Z) : Z := nth (Z.to_nat i) xs 0.

(** ** Leap years and ordinals *)

Definition _is_leap (year : Z) : bool :=
  (year mod 4 =? 0) && (negb (year mod 100 =? 0) || (year mod 400 =? 0)).

Definition _days_before_year (year : Z) : Z :=
  let y := year - 1 in
  y * 365 + y / 4 - y / 100 + y / 400.

Definition _days_in_month (year month : Z) : Z :=
  if (month =? 2) && _is_leap year then 29 else py_index _DAYS_IN_MONTH month.

Definition _days_before_month (year month : Z) : Z :=
  py_index _DAYS_BEFORE_MONTH month + Z.b2z ((month >? 2) && _is_leap year).

Definition _ymd2ord (year month day : Z) : Z :=
  _days_before_year year + _days_before_month year month + day.

Definition _DI400Y : Z := _days_before_year 401.
Definition _DI100Y : Z := _days_before_year 101.
Definition _DI4Y : Z := _days_before_year 5.

(** The tail of [_ord2ymd]: from the offset [n] of a day in its year
    and the year's leap flag, the month (estimated, then corrected) and
    the day of the month. *)
Definition month_from_offset (n : Z) (leapyear : bool) : Z * Z :=
  let month := Z.shiftr (n + 50) 5 in
  let preceding := py_index _DAYS_BEFORE_MONTH month
                   + Z.b2z ((month >? 2) && leapyear) in
  let '(month, preceding) :=
    if preceding >? n then
      let month := month - 1 in
      (month, preceding - (py_index _DAYS_IN_MONTH month
                           + Z.b2z ((month =? 2) && leapyear)))
    else (month, preceding) in
  (month, n - preceding + 1).

Definition _ord2ymd (n : Z) : Z * Z * Z :=
  let n := n - 1 in
  let n400 := n / _DI400Y in
  let n := n mod _DI400Y in
  let year := n400 * 400 + 1 in
  let n100 := n / _DI100Y in
  let n := n mod _DI100Y in
  let n4 := n / _DI4Y in
  let n := n mod _DI4Y in
  let n1 := n / 365 in
  let n := n mod 365 in
  let year := year + n100 * 100 + n4 * 4 + n1 in
  if (n1 =? 4) || (n100 =? 4) then (year - 1, 12, 31)
  else
    let leapyear := (n1 =? 3) && (negb (n4 =? 24) || (n100 =? 3)) in
    let '(month, day) := month_from_offset n leapyear in
    (year, month, day).

(** ** The [date] object *)

Record date := mkdate { year : Z; month : Z; day : Z }.

#[export] Instance date_eq_dec : EqDecision date.
Proof. solve_decision. Defined.

Definition _check_date_fields (year month day : Z) : result (Z * Z * Z) :=
  if negb ((MINYEAR <=? year) && (year <=? MAXYEAR)) then
    raise (ValueError "year must be in 1..9999")
  else if negb ((1 <=? month) && (month <=? 12)) then
    raise (ValueError "month must be in 1..12")
  else if negb ((1 <=? day) && (day <=? _days_in_month year month)) then
    raise (ValueError "day is out of range for month")
  else mret (year, month, day).

(** [date(year, month, day)]: [date.__new__] checks the fields. *)
Definition new_date (y m d : Z) : result date :=
  '(y, m, d) ← _check_date_fields y m d; mret (mkdate y m d).

Definition toordinal (d : date) : Z := _ymd2ord (year d) (month d) (day d).

Definition fromordinal (n : Z) : result date :=
  let '(y, m, d) := _ord2ymd n in new_date y m d.

(** [d + timedelta(days=k)] *)
Definition add_days (d : date) (k : Z) : result date :=
  let o := toordinal d + k in
  if (0 <? o) && (o <=? _MAXORDINAL) then fromordinal o
  else raise (OverflowError "result out of range").

(** [d - timedelta(days=k)] is [d + timedelta(-k)]. *)
Definition sub_days (d : date) (k : Z) : result date := add_days d (- k).

(** [date._cmp]: the order of the tuples [(year, month, day)]. *)
Definition date_cmp (x y : date) : comparison :=
  match Z.compare (year x) (year y) with
  | Eq => match Z.compare (month x) (month y) with
          | Eq => Z.compare (day x) (day y)
          | c => c
          end
  | c => c
  end.

Definition date_le (x y : date) : bool :=
  match date_cmp x y with Gt => false | _ => true end.

(** Every [date] object satisfies the constructor's checks. *)
Definition valid_date (d : date) : bool :=
  (MINYEAR <=? year d) && (year d <=? MAXYEAR) &&
  (1 <=? month d) && (month d <=? 12) &&
  (1 <=? day d) && (day d <=? _days_in_month (year d) (month d)).

(** ** A reference count of days

    The ordinal counted one year and one month at a time, as the
    calendar defines it; [_days_before_year] (a closed form) and
    [_DAYS_BEFORE_MONTH] (a table built by a loop, corrected for leap
    years) are proved to compute it. *)
Definition days_in_year (y : Z) : Z := 365 + Z.b2z (_is_leap y).

Definition ref_days_before_year (year : Z) : Z :=
  py_sum ((λ k, days_in_year (k + 1)) <$> py_range (year - 1)).

Definition ref_days_before_month (year month : Z) : Z :=
  py_sum ((λ k, _days_in_month year (k + 1)) <$> py_range (month - 1)).

Definition ref_ordinal (d : date) : Z :=
  ref_days_before_year (year d) + ref_days_before_month (year d) (month d) + day d.

(** ** Proof helpers: the tables at a leap flag *)

Definition dim_of (leap : bool) (m : Z) : Z :=
  if (m =? 2) && leap then 29 else py_index _DAYS_IN_MONTH m.

Definition dbm_of (leap : bool) (m : Z) : Z :=
  py_index _DAYS_BEFORE_MONTH m + Z.b2z ((m >? 2) && leap).

Definition month_from_offset_ok (n : Z) (leap : bool) : bool :=
  let '(m, d) := month_from_offset n leap in
  (1 <=? m) && (m <=? 12) && (1 <=? d) && (d <=? dim_of leap m) &&
  (dbm_of leap m + d =? n + 1).

(** The month tables: months are laid end to end inside a year. *)
Definition months : list Z := [1; 2; 3; 4; 5; 6; 7; 8; 9; 10; 11; 12].

Definition month_tables_ok (leap : bool) : bool :=
  forallb (λ m1, forallb (λ m2,
     negb (m1 <? m2) || (dbm_of leap m1 + dim_of leap m1 <=? dbm_of leap m2)) months) months &&
  forallb (λ m, (0 <=? dbm_of leap m) &&
                (dbm_of leap m + dim_of leap m <=? 365 + Z.b2z leap)) months.

Lemma DI_values : _DI400Y = 146097 ∧ _DI100Y = 36524 ∧ _DI4Y = 1461.
Proof. vm_compute. auto. Qed.

Lemma days_in_month_of y m : _days_in_month y m = dim_of (_is_leap y) m.
Proof. reflexivity. Qed.

Lemma days_before_month_of y m : _days_before_month y m = dbm_of (_is_leap y) m.
Proof. reflexivity. Qed.

(** The month computation is checked on every offset of a year. *)
Lemma month_from_offset_all :
  forallb (λ n, month_from_offset_ok n true && month_from_offset_ok n false)
          (py_range 365) = true.
Proof. vm_compute. reflexivity. Qed.

Lemma month_from_offset_spec n leap :
  0 <= n <= 364 →
  let '(m, d) := month_from_offset n leap in
  1 <= m <= 12 ∧ 1 <= d <= dim_of leap m ∧ dbm_of leap m + d = n + 1.
Proof.
  intros Hn.
  assert (Hin : n ∈ py_range 365) by (apply elem_of_py_range; lia).
  pose proof (proj1 (forallb_forall _ _) month_from_offset_all n
                (proj1 (list_elem_of_In _ _) Hin)) as H.
  assert (Hok : month_from_offset_ok n leap = true) by (destruct leap; apply andb_prop in H; tauto).
  unfold month_from_offset_ok in Hok. destruct (month_from_offset n leap) as [m d].
  repeat rewrite andb_true_iff in Hok. rewrite !Z.leb_le, Z.eqb_eq in Hok. lia.
Qed.

(** ** The 400/100/4/1-year decomposition of a year *)

Section Decomposition.
Context (a c f h : Z) (Hc : 0 <= c <= 3) (Hf : 0 <= f <= 24) (Hh : 0 <= h <= 3).

Lemma days_before_year_decomp :
  _days_before_year (400 * a + 100 * c + 4 * f + h + 1)
  = 146097 * a + 36524 * c + 1461 * f + 365 * h.
Proof. unfold _days_before_year. Z.div_mod_to_equations. lia. Qed.

(** The leap flag [_ord2ymd] computes from the cycle counts is
    [_is_leap] of the year (the assertion in [_ord2ymd]). *)
Lemma is_leap_decomp :
  _is_leap (400 * a + 100 * c + 4 * f + h + 1)
  = (h =? 3) && (negb (f =? 24) || (c =? 3)).
Proof.
  unfold _is_leap.
  destruct (Z.eqb_spec h 3), (Z.eqb_spec f 24), (Z.eqb_spec c 3);
    repeat match goal with
           | |- context [?x mod ?k =? 0] => destruct (Z.eqb_spec (x mod k) 0)
           end; simpl; try reflexivity; exfalso;
    Z.div_mod_to_equations; lia.
Qed.
End Decomposition.

Lemma days_before_year_succ y :
  _days_before_year (y + 1) = _days_before_year y + 365 + Z.b2z (_is_leap y).
Proof.
  unfold _days_before_year, _is_leap. replace (y + 1 - 1) with y by lia.
  destruct (Z.eqb_spec (y mod 4) 0), (Z.eqb_spec (y mod 100) 0),
    (Z.eqb_spec (y mod 400) 0); simpl; Z.div_mod_to_equations; lia.
Qed.

(** [_ord2ymd] in terms of the cycle decomposition of [n - 1]. *)
Lemma ord2ymd_parts n :
  ∃ a c f h r,
    n - 1 = 146097 * a + 36524 * c + 1461 * f + 365 * h + r ∧
    0 <= c <= 4 ∧ 0 <= f <= 24 ∧ 0 <= h <= 4 ∧ 0 <= r <= 364 ∧
    (c = 4 → f = 0 ∧ h = 0 ∧ r = 0) ∧ (h = 4 → f <= 23 ∧ r = 0 ∧ c <= 3) ∧
    _ord2ymd n =
      if (h =? 4) || (c =? 4) then (400 * a + 100 * c + 4 * f + h, 12, 31)
      else let '(m, d) := month_from_offset r ((h =? 3) && (negb (f =? 24) || (c =? 3))) in
           (400 * a + 100 * c + 4 * f + h + 1, m, d).
Proof.
  destruct DI_values as (H400 & H100 & H4).
  remember (n - 1) as x eqn:Hx.
  exists (x / 146097), (x mod 146097 / 36524), (x mod 146097 mod 36524 / 1461),
    (x mod 146097 mod 36524 mod 1461 / 365), (x mod 146097 mod 36524 mod 1461 mod 365).
  split; [|split; [|split; [|split; [|split; [|split; [|split]]]]]];
    [Z.div_mod_to_equations; lia .. |].
  unfold _ord2ymd. rewrite H400, H100, H4, <- Hx. cbv zeta.
  destruct (_ || _); [f_equal; f_equal; lia|].
  destruct (month_from_offset _ _); f_equal; f_equal; lia.
Qed.

(** The last day of a leap year that ends a 4-year cycle. *)
Lemma ymd2ord_dec31 a c f :
  0 <= c <= 3 → 0 <= f <= 24 → f <= 23 ∨ c = 3 →
  _ymd2ord (400 * a + 100 * c + 4 * f + 3 + 1) 12 31
  = 146097 * a + 36524 * c + 1461 * f + 1461.
Proof.
  intros Hc Hf Hleap. unfold _ymd2ord.
  rewrite days_before_year_decomp, days_before_month_of, is_leap_decomp by lia.
  destruct Hleap as [Hleap | ->];
    [rewrite (proj2 (Z.eqb_neq f 24)) by lia | rewrite Z.eqb_refl, orb_true_r];
    rewrite ?orb_true_l; vm_compute dbm_of; lia.
Qed.

(** the ordinal of the date [_ord2ymd] computes is its argument. *)
Theorem ymd2ord_ord2ymd n :
  let '(y, m, d) := _ord2ymd n in _ymd2ord y m d = n.
Proof.
  destruct (ord2ymd_parts n) as (a & c & f & h & r & Hn & Hc & Hf & Hh & Hr & Hc4 & Hh4 & ->).
  destruct (Z.eqb_spec h 4) as [Eh|Eh]; [|destruct (Z.eqb_spec c 4) as [Ec|Ec]]; simpl.
  - destruct (Hh4 Eh) as (? & -> & ?). subst h.
    replace (400 * a + 100 * c + 4 * f + 4) with (400 * a + 100 * c + 4 * f + 3 + 1) by lia.
    rewrite ymd2ord_dec31 by lia. lia.
  - destruct (Hc4 Ec) as (-> & -> & ->). subst c.
    replace (400 * a + 100 * 4 + 4 * 0 + 0) with (400 * a + 100 * 3 + 4 * 24 + 3 + 1) by lia.
    rewrite ymd2ord_dec31 by lia. lia.
  - pose proof (month_from_offset_spec r ((h =? 3) && (negb (f =? 24) || (c =? 3))) Hr) as Hm.
    destruct (month_from_offset _ _) as [m d]. destruct Hm as (_ & _ & Hm).
    unfold _ymd2ord. rewrite days_before_month_of, days_before_year_decomp, is_leap_decomp by lia.
    lia.
Qed.

(** ** Validity and order *)

Lemma valid_date_iff d :
  valid_date d = true ↔
  MINYEAR <= year d <= MAXYEAR ∧ 1 <= month d <= 12 ∧
  1 <= day d <= _days_in_month (year d) (month d).
Proof.
  unfold valid_date. rewrite !andb_true_iff, !Z.leb_le. tauto.
Qed.

(** on the range of [date], [_ord2ymd] returns a date the
    constructor accepts. *)
Theorem ord2ymd_valid n :
  1 <= n <= _MAXORDINAL →
  let '(y, m, d) := _ord2ymd n in valid_date (mkdate y m d) = true.
Proof.
  intros Hn. unfold _MAXORDINAL in Hn.
  destruct (ord2ymd_parts n) as (a & c & f & h & r & Hr0 & Hc & Hf & Hh & Hr & Hc4 & Hh4 & ->).
  unfold MINYEAR, MAXYEAR.
  destruct (Z.eqb_spec h 4) as [Eh|Eh]; [|destruct (Z.eqb_spec c 4) as [Ec|Ec]]; simpl.
  - destruct (Hh4 Eh). apply valid_date_iff; simpl. vm_compute _days_in_month.
    unfold MINYEAR, MAXYEAR; lia.
  - destruct (Hc4 Ec) as (? & ? & ?). apply valid_date_iff; simpl. vm_compute _days_in_month.
    unfold MINYEAR, MAXYEAR; lia.
  - pose proof (month_from_offset_spec r ((h =? 3) && (negb (f =? 24) || (c =? 3))) Hr) as Hm.
    destruct (month_from_offset _ _) as [m d]. apply valid_date_iff; simpl.
    rewrite days_in_month_of, is_leap_decomp by lia. unfold MINYEAR, MAXYEAR. lia.
Qed.

Lemma month_tables_true : month_tables_ok true = true ∧ month_tables_ok false = true.
Proof. split; vm_compute; reflexivity. Qed.

Lemma elem_of_months m : 1 <= m <= 12 → m ∈ months.
Proof. intros Hm. apply list_elem_of_In. simpl. lia. Qed.

Lemma month_tables leap m1 m2 :
  1 <= m1 <= 12 → 1 <= m2 <= 12 →
  (m1 < m2 → dbm_of leap m1 + dim_of leap m1 <= dbm_of leap m2) ∧
  0 <= dbm_of leap m1 ∧ dbm_of leap m1 + dim_of leap m1 <= 365 + Z.b2z leap.
Proof.
  intros H1 H2.
  assert (Hok : month_tables_ok leap = true) by (destruct leap; apply month_tables_true).
  unfold month_tables_ok in Hok. apply andb_prop in Hok as [Hpair Hone].
  rewrite forallb_forall in Hpair, Hone.
  pose proof (Hpair m1 (proj1 (list_elem_of_In _ _) (elem_of_months m1 H1))) as Hp.
  rewrite forallb_forall in Hp.
  specialize (Hp m2 (proj1 (list_elem_of_In _ _) (elem_of_months m2 H2))).
  specialize (Hone m1 (proj1 (list_elem_of_In _ _) (elem_of_months m1 H1))).
  apply andb_prop in Hone as [Hz Hy]. rewrite Z.leb_le in Hz, Hy.
  split; [|lia]. intros Hlt. apply Z.ltb_lt in Hlt. rewrite Hlt in Hp. simpl in Hp.
  by apply Z.leb_le.
Qed.

Lemma days_before_year_mono y1 y2 :
  y1 < y2 → _days_before_year y1 + 365 + Z.b2z (_is_leap y1) <= _days_before_year y2.
Proof.
  intros Hlt. replace y2 with (y1 + 1 + (y2 - y1 - 1)) by lia.
  assert (Hk : 0 <= y2 - y1 - 1) by lia. revert Hk.
  generalize (y2 - y1 - 1). apply natlike_ind.
  - rewrite Z.add_0_r, days_before_year_succ. lia.
  - intros k Hk IH. replace (y1 + 1 + Z.succ k) with (y1 + 1 + k + 1) by lia.
    rewrite days_before_year_succ. destruct (_is_leap (y1 + 1 + k)); simpl; lia.
Qed.

Lemma toordinal_in_year d :
  valid_date d = true →
  _days_before_year (year d) + 1 <= toordinal d
  <= _days_before_year (year d) + 365 + Z.b2z (_is_leap (year d)).
Proof.
  intros (_ & Hm & Hd)%valid_date_iff. rewrite days_in_month_of in Hd.
  destruct (month_tables (_is_leap (year d)) (month d) (month d)) as (_ & ? & ?); [lia..|].
  unfold toordinal, _ymd2ord. rewrite days_before_month_of. lia.
Qed.

Lemma toordinal_lt x y :
  valid_date x = true → valid_date y = true → date_cmp x y = Lt →
  toordinal x < toordinal y.
Proof.
  intros Hx Hy. pose proof (toordinal_in_year x Hx). pose proof (toordinal_in_year y Hy).
  apply valid_date_iff in Hx as (_ & Hmx & Hdx), Hy as (_ & Hmy & Hdy).
  rewrite days_in_month_of in Hdx, Hdy.
  unfold date_cmp. destruct (Z.compare_spec (year x) (year y)) as [Ey|Ey|Ey]; [|intros _|done].
  - destruct (Z.compare_spec (month x) (month y)) as [Em|Em|Em]; [|intros _|done].
    + intros Hd. rewrite Z.compare_lt_iff in Hd. unfold toordinal, _ymd2ord. rewrite Ey, Em. lia.
    + destruct (month_tables (_is_leap (year x)) (month x) (month y)) as (Hlt & _); [lia..|].
      specialize (Hlt Em). unfold toordinal, _ymd2ord. rewrite !days_before_month_of, <- Ey. lia.
  - pose proof (days_before_year_mono _ _ Ey). lia.
Qed.

Lemma date_cmp_antisym x y : date_cmp y x = CompOpp (date_cmp x y).
Proof.
  unfold date_cmp. rewrite (Z.compare_antisym (year x)), (Z.compare_antisym (month x)),
    (Z.compare_antisym (day x)).
  by destruct (year x ?= year y), (month x ?= month y), (day x ?= day y).
Qed.

Lemma date_cmp_Eq x y : date_cmp x y = Eq → x = y.
Proof.
  destruct x as [yx mx dx], y as [yy my dy]. unfold date_cmp; simpl.
  destruct (Z.compare_spec yx yy), (Z.compare_spec mx my), (Z.compare_spec dx dy);
    intros; subst; done.
Qed.

(** [date._cmp] orders dates as their ordinals. *)
Lemma date_cmp_ordinal x y :
  valid_date x = true → valid_date y = true →
  date_cmp x y = Z.compare (toordinal x) (toordinal y).
Proof.
  intros Hx Hy. destruct (date_cmp x y) eqn:E.
  - apply date_cmp_Eq in E as ->. symmetry. apply Z.compare_refl.
  - symmetry. apply Z.compare_lt_iff. by apply toordinal_lt.
  - symmetry. apply Z.compare_gt_iff. apply toordinal_lt; [done..|].
    by rewrite date_cmp_antisym, E.
Qed.

Lemma toordinal_inj x y :
  valid_date x = true → valid_date y = true → toordinal x = toordinal y → x = y.
Proof.
  intros Hx Hy Heq. apply date_cmp_Eq. rewrite date_cmp_ordinal by done.
  by apply Z.compare_eq_iff.
Qed.

Lemma toordinal_range d :
  valid_date d = true → 1 <= toordinal d <= _MAXORDINAL.
Proof.
  intros Hd.
  pose proof (date_cmp_ordinal (mkdate 1 1 1) d eq_refl Hd) as Hlo.
  pose proof (date_cmp_ordinal d (mkdate 9999 12 31) Hd eq_refl) as Hhi.
  change (toordinal (mkdate 1 1 1)) with 1 in Hlo.
  replace (toordinal (mkdate 9999 12 31)) with _MAXORDINAL in Hhi by reflexivity.
  apply valid_date_iff in Hd as (Hyr & Hm & Hdd). unfold MINYEAR, MAXYEAR in Hyr.
  unfold date_cmp in Hlo, Hhi; cbn [year month day] in Hlo, Hhi. split.
  - revert Hlo. destruct (Z.compare_spec 1 (toordinal d)); [lia..|].
    destruct (Z.compare_spec 1 (year d)), (Z.compare_spec 1 (month d)),
      (Z.compare_spec 1 (day d)); discriminate || lia.
  - revert Hhi. destruct (Z.compare_spec (toordinal d) _MAXORDINAL); [lia..|].
    destruct (Z.compare_spec (year d) 9999) as [Ey| |], (Z.compare_spec (month d) 12) as [Em| |],
      (Z.compare_spec (day d) 31); try discriminate; try lia.
    rewrite Ey, Em in Hdd. change (_days_in_month 9999 12) with 31 in Hdd. lia.
Qed.

(** Put the ordinal bounds of every valid date of the context in the
    context, for [lia]. *)
Ltac ord_bounds :=
  repeat match goal with
  | H : valid_date ?d = true |- _ =>
      lazymatch goal with
      | _ : 1 <= toordinal d <= _MAXORDINAL |- _ => fail
      | _ => pose proof (toordinal_range d H)
      end
  end.

Lemma new_date_valid y m d :
  valid_date (mkdate y m d) = true → new_date y m d = Ok (mkdate y m d).
Proof.
  intros (Hy & Hm & Hd)%valid_date_iff; simpl in *.
  unfold new_date, _check_date_fields.
  rewrite (proj2 (Z.leb_le _ _) (proj1 Hy)), (proj2 (Z.leb_le _ _) (proj2 Hy)),
    (proj2 (Z.leb_le _ _) (proj1 Hm)), (proj2 (Z.leb_le _ _) (proj2 Hm)),
    (proj2 (Z.leb_le _ _) (proj1 Hd)), (proj2 (Z.leb_le _ _) (proj2 Hd)).
  reflexivity.
Qed.

(** the constructor [date(y, m, d)] succeeds exactly on valid
    fields and raises [ValueError] otherwise. *)
Theorem new_date_spec y m d :
  (valid_date (mkdate y m d) = true ∧ new_date y m d = Ok (mkdate y m d)) ∨
  (valid_date (mkdate y m d) = false ∧ ∃ msg, new_date y m d = Raise (ValueError msg)).
Proof.
  destruct (valid_date (mkdate y m d)) eqn:Hv; [left; auto using new_date_valid|right].
  split; [done|]. unfold valid_date in Hv; simpl in Hv.
  unfold new_date, _check_date_fields.
  destruct (MINYEAR <=? y), (y <=? MAXYEAR); simpl in *; eauto.
  destruct (1 <=? m), (m <=? 12); simpl in *; eauto.
  destruct (1 <=? d), (d <=? _days_in_month y m); simpl in *; eauto; discriminate.
Qed.

(** C31: [date.fromordinal] inverts [date.toordinal] on every date. *)
Theorem fromordinal_toordinal d :
  valid_date d = true → fromordinal (toordinal d) = Ok d.
Proof.
  intros Hd. pose proof (toordinal_range d Hd) as Hr.
  pose proof (ord2ymd_valid _ Hr) as Hv. pose proof (ymd2ord_ord2ymd (toordinal d)) as Ho.
  unfold fromordinal. destruct (_ord2ymd (toordinal d)) as [[y m] dd].
  rewrite new_date_valid by done. f_equal. by apply toordinal_inj.
Qed.

(** on [1 .. _MAXORDINAL], [date.fromordinal] returns a date whose
    ordinal is its argument. *)
Lemma toordinal_fromordinal n :
  1 <= n <= _MAXORDINAL →
  ∃ d, fromordinal n = Ok d ∧ toordinal d = n ∧ valid_date d = true.
Proof.
  intros Hn. pose proof (ord2ymd_valid _ Hn) as Hv. pose proof (ymd2ord_ord2ymd n) as Ho.
  unfold fromordinal. destruct (_ord2ymd n) as [[y m] dd].
  rewrite new_date_valid by done. eauto.
Qed.

(** C32: on [1 .. _MAXORDINAL], [date.fromordinal] succeeds with a valid
    date whose ordinal is its argument. *)
Theorem fromordinal_ok n :
  1 <= n <= _MAXORDINAL →
  ∃ d, fromordinal n = Ok d ∧ toordinal d = n ∧ valid_date d = true.
Proof. apply toordinal_fromordinal. Qed.

(** ** Adding days *)

(** [d + timedelta(days=k)] succeeds exactly when the ordinal stays
    in [1 .. _MAXORDINAL], with the date of ordinal [toordinal d + k]. *)
Lemma add_days_in_range d k :
  valid_date d = true → 1 <= toordinal d + k <= _MAXORDINAL →
  ∃ d', add_days d k = Ok d' ∧ toordinal d' = toordinal d + k ∧ valid_date d' = true.
Proof.
  intros Hd Hk. unfold add_days.
  rewrite (proj2 (Z.ltb_lt _ _)), (proj2 (Z.leb_le _ _)) by lia.
  by apply toordinal_fromordinal.
Qed.

(** C33: [d + timedelta(days=k)] succeeds exactly when the ordinal stays
    in [1 .. _MAXORDINAL], with the date of ordinal [toordinal d + k]. *)
Theorem add_days_ok d k :
  valid_date d = true → 1 <= toordinal d + k <= _MAXORDINAL →
  ∃ d', add_days d k = Ok d' ∧ toordinal d' = toordinal d + k ∧ valid_date d' = true.
Proof. apply add_days_in_range. Qed.

(** out of range, [date + timedelta] raises [OverflowError]. *)
Lemma add_days_out_of_range d k :
  ¬ (1 <= toordinal d + k <= _MAXORDINAL) →
  add_days d k = Raise (OverflowError "result out of range").
Proof.
  intros Hk. unfold add_days.
  destruct (Z.ltb_spec 0 (toordinal d + k)), (Z.leb_spec (toordinal d + k) _MAXORDINAL);
    [lia|reflexivity..].
Qed.

(** C34: out of range, [date + timedelta] raises [OverflowError]. *)
Theorem add_days_overflow d k :
  ¬ (1 <= toordinal d + k <= _MAXORDINAL) →
  add_days d k = Raise (OverflowError "result out of range").
Proof. apply add_days_out_of_range. Qed.

Lemma add_days_toordinal d k d' :
  valid_date d = true → add_days d k = Ok d' →
  valid_date d' = true ∧ toordinal d' = toordinal d + k.
Proof.
  intros Hd Hadd.
  destruct (decide (1 <= toordinal d + k <= _MAXORDINAL)) as [Hk|Hk].
  - destruct (add_days_in_range d k Hd Hk) as (d'' & E & ? & ?). rewrite E in Hadd. by invc Hadd.
  - by rewrite add_days_out_of_range in Hadd.
Qed.

Lemma add_days_0 d : valid_date d = true → add_days d 0 = Ok d.
Proof.
  intros Hd. ord_bounds.
  destruct (add_days_in_range d 0 Hd) as (d' & E & Ho & Hv); [lia|].
  rewrite E. f_equal. apply toordinal_inj; [done..|lia].
Qed.

(** adding [a] then [b] days is adding [a + b] days. *)
Lemma add_days_compose d a b d1 :
  valid_date d = true → add_days d a = Ok d1 → add_days d1 b = add_days d (a + b).
Proof.
  intros Hd H1. destruct (add_days_toordinal d a d1 Hd H1) as (Hv1 & Ho1).
  unfold add_days. rewrite Ho1, Z.add_assoc. reflexivity.
Qed.

Lemma add_days_inj d a b da db :
  valid_date d = true → add_days d a = Ok da → add_days d b = Ok db → da = db → a = b.
Proof.
  intros Hd Ha Hb ->.
  destruct (add_days_toordinal d a db Hd Ha), (add_days_toordinal d b db Hd Hb). lia.
Qed.

Lemma date_le_toordinal x y :
  valid_date x = true → valid_date y = true →
  date_le x y = (toordinal x <=? toordinal y).
Proof.
  intros Hx Hy. unfold date_le. rewrite date_cmp_ordinal by done.
  destruct (Z.compare_spec (toordinal x) (toordinal y)); symmetry;
    [apply Z.leb_le | apply Z.leb_le | apply Z.leb_gt]; lia.
Qed.


(** ** Every date the operations produce is valid *)

Lemma new_date_result y m d x : new_date y m d = Ok x → valid_date x = true.
Proof.
  destruct (new_date_spec y m d) as [[Hv E]|[_ [msg E]]]; rewrite E; [by intros [= <-] | discriminate].
Qed.

Lemma fromordinal_result n x : fromordinal n = Ok x → valid_date x = true.
Proof. unfold fromordinal. destruct (_ord2ymd n) as [[y m] d]. apply new_date_result. Qed.

(** Whatever the date it starts from, [date + timedelta] returns a valid
    date or raises. *)
Lemma add_days_result d k x : add_days d k = Ok x → valid_date x = true.
Proof. unfold add_days. destruct (_ && _); [apply fromordinal_result | discriminate]. Qed.

(** ** The closed forms against the reference count *)

Lemma ref_days_before_year_succ y :
  1 <= y → ref_days_before_year (y + 1) = ref_days_before_year y + days_in_year y.
Proof.
  intros Hy. unfold ref_days_before_year. replace (y + 1 - 1) with (y - 1 + 1) by lia.
  rewrite py_range_succ, fmap_app, py_sum_app by lia. simpl.
  rewrite py_sum_cons, py_sum_nil. replace (y - 1 + 1) with y by lia. lia.
Qed.

Lemma days_before_year_ref y : 1 <= y → _days_before_year y = ref_days_before_year y.
Proof.
  intros Hy. replace y with (y - 1 + 1) by lia.
  assert (Hk : 0 <= y - 1) by lia. revert Hk. generalize (y - 1). clear y Hy.
  apply natlike_ind; [reflexivity|].
  intros k Hk IH. replace (Z.succ k + 1) with (k + 1 + 1) by lia.
  rewrite days_before_year_succ, ref_days_before_year_succ, <- IH by lia.
  unfold days_in_year. lia.
Qed.

(** The month table, checked against the month lengths for a leap and
    a common year. *)
Lemma days_before_month_table :
  forallb (λ leap, forallb (λ m,
    dbm_of leap m =? py_sum ((λ k, dim_of leap (k + 1)) <$> py_range (m - 1))) months)
    [true; false] = true.
Proof. vm_compute. reflexivity. Qed.

Lemma days_before_month_ref y m :
  1 <= m <= 12 → _days_before_month y m = ref_days_before_month y m.
Proof.
  intros Hm. pose proof days_before_month_table as H. rewrite forallb_forall in H.
  assert (Hl : _is_leap y ∈ [true; false]) by (destruct (_is_leap y); [left | right; left]).
  specialize (H _ (proj1 (list_elem_of_In _ _) Hl)). rewrite forallb_forall in H.
  specialize (H m (proj1 (list_elem_of_In _ _) (elem_of_months m Hm))).
  apply Z.eqb_eq in H. rewrite days_before_month_of, H. reflexivity.
Qed.

(** C30: CPython's ordinal is the reference count of days: the closed form
    of [_days_before_year] and the [_DAYS_BEFORE_MONTH] table compute
    the days of the years before, one year at a time, and of the months
    before, one month at a time. *)
Theorem toordinal_ref d :
  1 <= year d → 1 <= month d <= 12 → toordinal d = ref_ordinal d.
Proof.
  intros Hy Hm. unfold toordinal, _ymd2ord, ref_ordinal.
  by rewrite days_before_year_ref, days_before_month_ref.
Qed.

(** ** Witnesses *)

Lemma toordinal_ref_witness : toordinal (mkdate 2024 3 10) = ref_ordinal (mkdate 2024 3 10).
Proof. apply toordinal_ref; simpl; lia. Defined.

Lemma add_days_ok_witness :
  valid_date (mkdate 2024 3 10) = true ∧ 1 <= toordinal (mkdate 2024 3 10) + 6 <= _MAXORDINAL ∧
  ∃ d', add_days (mkdate 2024 3 10) 6 = Ok d' ∧ toordinal d' = toordinal (mkdate 2024 3 10) + 6 ∧
        valid_date d' = true.
Proof.
  assert (H1 : valid_date (mkdate 2024 3 10) = true) by reflexivity.
  assert (H2 : 1 <= toordinal (mkdate 2024 3 10) + 6 <= _MAXORDINAL) by (vm_compute; split; discriminate).
  split; [exact H1|]. split; [exact H2|]. exact (add_days_ok _ _ H1 H2).
Defined.

Lemma add_days_overflow_witness :
  ¬ (1 <= toordinal (mkdate 9999 12 26) + 6 <= _MAXORDINAL) ∧
  add_days (mkdate 9999 12 26) 6 = Raise (OverflowError "result out of range").
Proof.
  assert (H : ¬ (1 <= toordinal (mkdate 9999 12 26) + 6 <= _MAXORDINAL))
    by (vm_compute; intros [_ H]; apply H; reflexivity).
  split; [exact H|]. exact (add_days_overflow _ _ H).
Defined.

Lemma fromordinal_ok_witness :
  ∃ d, fromordinal 738957 = Ok d ∧ toordinal d = 738957 ∧ valid_date d = true.
Proof. apply fromordinal_ok. vm_compute. split; discriminate. Defined.

Lemma fromordinal_toordinal_witness :
  fromordinal (toordinal (mkdate 2000 2 29)) = Ok (mkdate 2000 2 29).
Proof. apply fromordinal_toordinal. reflexivity. Defined.

End PyDate.
