(* ===== verification/PyStr.v ===== *)
(** * PyStr: Python text as code points

    A Python [str] is a sequence of Unicode code points.  The router
    receives its [week_start] as bytes of the URL, which Starlette turns
    into a [str] with [urllib.parse.parse_qsl]: percent escapes become
    bytes, and the bytes are decoded as UTF-8 with [errors="replace"].
    A Rocq [string] here is such a byte sequence; [str_of_bytes] is the
    [str] Python sees.  The decoder is CPython's ([Objects/stringlib/
    codecs.h]): a well-formed sequence gives its code point, computed as
    the C code does, and each maximal ill-formed subpart gives one
    U+FFFD.  The character properties [re] and [int()] consult are
    tables of Unicode 14.0 (the database of Python 3.11): the decimal
    digits (category Nd, which come in runs of ten) and the characters
    for which [str.isspace()] holds. *)

From S2P Require Import Prelude.
From Stdlib Require Import Ascii.

Open Scope Z_scope.

Module PyStr.

Definition pystr := list Z.

Definition cp (c : ascii) : Z := Z.of_nat (nat_of_ascii c).

Definition cps (s : list ascii) : pystr := cp <$> s.

Definition bytes_of_string (s : string) : list Z := cps (String.list_ascii_of_string s).

Definition string_of_bytes (bs : list Z) : string :=
  String.string_of_list_ascii ((λ b, ascii_of_nat (Z.to_nat b)) <$> bs).

Definition REPLACEMENT_CHARACTER : Z := 0xFFFD.

Definition in_range (lo hi b : Z) : bool := (lo <=? b) && (b <=? hi).

(** The range of the second byte after a lead byte of a three- or
    four-byte sequence (overlong forms, surrogates and code points past
    U+10FFFF excluded). *)
Definition second_lo (b : Z) : Z :=
  if b =? 0xE0 then 0xA0 else if b =? 0xF0 then 0x90 else 0x80.

Definition second_hi (b : Z) : Z :=
  if b =? 0xED then 0x9F else if b =? 0xF4 then 0x8F else 0xBF.

Definition cont (c : Z) : bool := in_range 0x80 0xBF c.

(** One step of [bytes.decode("utf-8", "replace")]: the code point of
    the sequence starting with byte [b], or U+FFFD for its maximal
    ill-formed subpart, and the bytes after it. *)
Definition decode_one (b : Z) (bs1 : list Z) : Z * list Z :=
  if b <? 0x80 then (b, bs1)
  else if in_range 0xC2 0xDF b then
    match bs1 with
    | c :: bs2 =>
        if cont c then (Z.shiftl b 6 + c - (Z.shiftl 0xC0 6 + 0x80), bs2)
        else (REPLACEMENT_CHARACTER, bs1)
    | [] => (REPLACEMENT_CHARACTER, [])
    end
  else if in_range 0xE0 0xEF b then
    match bs1 with
    | c :: bs2 =>
        if in_range (second_lo b) (second_hi b) c then
          match bs2 with
          | d :: bs3 =>
              if cont d then
                (Z.shiftl b 12 + Z.shiftl c 6 + d - (Z.shiftl 0xE0 12 + Z.shiftl 0x80 6 + 0x80), bs3)
              else (REPLACEMENT_CHARACTER, bs2)
          | [] => (REPLACEMENT_CHARACTER, [])
          end
        else (REPLACEMENT_CHARACTER, bs1)
    | [] => (REPLACEMENT_CHARACTER, [])
    end
  else if in_range 0xF0 0xF4 b then
    match bs1 with
    | c :: bs2 =>
        if in_range (second_lo b) (second_hi b) c then
          match bs2 with
          | d :: bs3 =>
              if cont d then
                match bs3 with
                | e :: bs4 =>
                    if cont e then
                      (Z.shiftl b 18 + Z.shiftl c 12 + Z.shiftl d 6 + e
                       - (Z.shiftl 0xF0 18 + Z.shiftl 0x80 12 + Z.shiftl 0x80 6 + 0x80), bs4)
                    else (REPLACEMENT_CHARACTER, bs3)
                | [] => (REPLACEMENT_CHARACTER, [])
                end
              else (REPLACEMENT_CHARACTER, bs2)
          | [] => (REPLACEMENT_CHARACTER, [])
          end
        else (REPLACEMENT_CHARACTER, bs1)
    | [] => (REPLACEMENT_CHARACTER, [])
    end
  else (REPLACEMENT_CHARACTER, bs1).

(** The decoding loop; each step consumes at least one byte, so the
    length of the input is enough fuel ([utf8_decode_cons]). *)
Fixpoint decode_loop (fuel : nat) (bs : list Z) : pystr :=
  match fuel, bs with
  | S fuel', b :: bs1 => let '(c, rest) := decode_one b bs1 in c :: decode_loop fuel' rest
  | _, _ => []
  end.

(** [bytes.decode("utf-8", "replace")]. *)
Definition utf8_decode (bs : list Z) : pystr := decode_loop (length bs) bs.

(** The [str] a byte string of the request stands for. *)
Definition str_of_bytes (s : string) : pystr := utf8_decode (bytes_of_string s).

(** [str.encode("utf-8")] of one code point, as a client sends it. *)
Definition utf8_encode_char (c : Z) : list Z :=
  if c <? 0x80 then [c]
  else if c <? 0x800 then [0xC0 + Z.shiftr c 6; 0x80 + Z.land c 63]
  else if c <? 0x10000 then
    [0xE0 + Z.shiftr c 12; 0x80 + Z.land (Z.shiftr c 6) 63; 0x80 + Z.land c 63]
  else [0xF0 + Z.shiftr c 18; 0x80 + Z.land (Z.shiftr c 12) 63;
        0x80 + Z.land (Z.shiftr c 6) 63; 0x80 + Z.land c 63].

Definition utf8_encode (s : pystr) : list Z := s ≫= utf8_encode_char.

(** A Unicode scalar value: a code point that is not a surrogate. *)
Definition scalar (c : Z) : Prop := 0 <= c <= 0x10FFFF ∧ ¬ (0xD800 <= c <= 0xDFFF).

(** ** Character properties *)

(** The first code point of each run of ten decimal digits (Nd). *)
Definition nd_zeros : list Z :=
  [0x30; 0x660; 0x6f0; 0x7c0; 0x966; 0x9e6; 0xa66; 0xae6; 0xb66; 0xbe6; 0xc66;
   0xce6; 0xd66; 0xde6; 0xe50; 0xed0; 0xf20; 0x1040; 0x1090; 0x17e0; 0x1810;
   0x1946; 0x19d0; 0x1a80; 0x1a90; 0x1b50; 0x1bb0; 0x1c40; 0x1c50; 0xa620;
   0xa8d0; 0xa900; 0xa9d0; 0xa9f0; 0xaa50; 0xabf0; 0xff10; 0x104a0; 0x10d30;
   0x11066; 0x110f0; 0x11136; 0x111d0; 0x112f0; 0x11450; 0x114d0; 0x11650;
   0x116c0; 0x11730; 0x118e0; 0x11950; 0x11c50; 0x11d50; 0x11da0; 0x16a60;
   0x16ac0; 0x16b50; 0x1d7ce; 0x1d7d8; 0x1d7e2; 0x1d7ec; 0x1d7f6; 0x1e140;
   0x1e2f0; 0x1e950; 0x1fbf0].

(** [unicodedata.decimal(c)]: the value of a decimal digit. *)
Definition nd_value (c : Z) : option Z :=
  (λ '(_, z), c - z) <$> list_find (λ z, z <= c < z + 10) nd_zeros.

(** [\d] of a [str] pattern: Unicode category Nd. *)
Definition is_decimal (c : Z) : bool := bool_decide (is_Some (nd_value c)).

(** [str.isspace()] on one character. *)
Definition space_chars : list Z :=
  [0x9; 0xa; 0xb; 0xc; 0xd; 0x1c; 0x1d; 0x1e; 0x1f; 0x20; 0x85; 0xa0; 0x1680;
   0x2000; 0x2001; 0x2002; 0x2003; 0x2004; 0x2005; 0x2006; 0x2007; 0x2008;
   0x2009; 0x200a; 0x2028; 0x2029; 0x202f; 0x205f; 0x3000].

Definition py_isspace (c : Z) : bool := bool_decide (c ∈ space_chars).

(** ** Lemmas *)

(** Every test of a byte against a bound, decided by [lia]. *)
Ltac byte_tests :=
  unfold cont, second_lo, second_hi, in_range;
  repeat (cbn [andb]; match goal with
  | |- context [?a =? ?b] => destruct (Z.eqb_spec a b); try (exfalso; lia)
  | |- context [?a <? ?b] => destruct (Z.ltb_spec a b); try (exfalso; lia)
  | |- context [?a <=? ?b] => destruct (Z.leb_spec a b); try (exfalso; lia)
  end); cbn [andb].

Lemma decode_one_suffix b bs : (length (decode_one b bs).2 <= length bs)%nat.
Proof. unfold decode_one. repeat (case_match; simpl in *; try lia). Qed.

Lemma decode_loop_enough n bs : (length bs <= n)%nat → decode_loop n bs = utf8_decode bs.
Proof.
  unfold utf8_decode. revert n. induction bs as [bs IH] using (induction_ltof1 _ (@length Z)).
  intros [|n] Hn; destruct bs as [|b bs]; simpl in *; try done; try lia.
  pose proof (decode_one_suffix b bs). destruct (decode_one b bs) as [c r] eqn:E.
  simpl in *. f_equal. rewrite (IH r) by (unfold ltof; simpl; lia).
  symmetry. apply IH; unfold ltof; simpl; lia.
Qed.

(** The loop: one step, then the rest. *)
Lemma utf8_decode_cons b bs :
  utf8_decode (b :: bs) = let '(c, r) := decode_one b bs in c :: utf8_decode r.
Proof.
  unfold utf8_decode at 1. simpl. pose proof (decode_one_suffix b bs).
  destruct (decode_one b bs) as [c r]. simpl in *. by rewrite decode_loop_enough by lia.
Qed.

Lemma utf8_decode_ascii bs : Forall (λ b, 0 <= b < 0x80) bs → utf8_decode bs = bs.
Proof.
  induction 1 as [|b bs Hb _ IH]; [done|]. rewrite utf8_decode_cons. unfold decode_one.
  rewrite (proj2 (Z.ltb_lt b 0x80)) by lia. by rewrite IH.
Qed.

Lemma land_63 a : Z.land a 63 = a mod 64.
Proof. change 63 with (Z.ones 6). by rewrite Z.land_ones. Qed.

Lemma decode_2 x y rest :
  2 <= x <= 31 → 0 <= y < 64 → decode_one (0xC0 + x) ((0x80 + y) :: rest) = (64 * x + y, rest).
Proof.
  intros. unfold decode_one. rewrite !Z.shiftl_mul_pow2 by lia. change (2 ^ 6) with 64.
  byte_tests; f_equal; lia.
Qed.

Lemma decode_3 x y z rest :
  0 <= x <= 15 → 0 <= y < 64 → 0 <= z < 64 → (x = 0 → 32 <= y) → (x = 13 → y < 32) →
  decode_one (0xE0 + x) ((0x80 + y) :: (0x80 + z) :: rest) = (4096 * x + 64 * y + z, rest).
Proof.
  intros. unfold decode_one. rewrite !Z.shiftl_mul_pow2 by lia.
  change (2 ^ 6) with 64. change (2 ^ 12) with 4096.
  byte_tests; f_equal; lia.
Qed.

Lemma decode_4 w x y z rest :
  0 <= w <= 4 → 0 <= x < 64 → 0 <= y < 64 → 0 <= z < 64 → (w = 0 → 16 <= x) → (w = 4 → x < 16) →
  decode_one (0xF0 + w) ((0x80 + x) :: (0x80 + y) :: (0x80 + z) :: rest)
  = (262144 * w + 4096 * x + 64 * y + z, rest).
Proof.
  intros. unfold decode_one. rewrite !Z.shiftl_mul_pow2 by lia.
  change (2 ^ 6) with 64. change (2 ^ 12) with 4096. change (2 ^ 18) with 262144.
  byte_tests; f_equal; lia.
Qed.

Lemma utf8_decode_encode_char c rest :
  scalar c → utf8_decode (utf8_encode_char c ++ rest) = c :: utf8_decode rest.
Proof.
  intros [Hc Hs]. unfold utf8_encode_char.
  rewrite !land_63, !Z.shiftr_div_pow2 by lia.
  change (2 ^ 6) with 64. change (2 ^ 12) with (64 * 64). change (2 ^ 18) with (64 * 64 * 64).
  rewrite <- !Z.div_div by lia.
  pose proof (Z.div_mod c 64 ltac:(lia)). pose proof (Z.mod_pos_bound c 64 ltac:(lia)).
  set (c1 := c / 64) in *. set (d1 := c mod 64) in *.
  pose proof (Z.div_mod c1 64 ltac:(lia)). pose proof (Z.mod_pos_bound c1 64 ltac:(lia)).
  set (c2 := c1 / 64) in *. set (d2 := c1 mod 64) in *.
  pose proof (Z.div_mod c2 64 ltac:(lia)). pose proof (Z.mod_pos_bound c2 64 ltac:(lia)).
  set (c3 := c2 / 64) in *. set (d3 := c2 mod 64) in *.
  clearbody c1 d1 c2 d2 c3 d3.
  destruct (Z.ltb_spec c 0x80).
  { cbn [app]. rewrite utf8_decode_cons. unfold decode_one. by rewrite (proj2 (Z.ltb_lt c 0x80)). }
  destruct (Z.ltb_spec c 0x800); [|destruct (Z.ltb_spec c 0x10000)]; cbn [app];
    rewrite utf8_decode_cons.
  - rewrite decode_2 by lia. do 2 f_equal. lia.
  - rewrite decode_3 by lia. do 2 f_equal. lia.
  - rewrite decode_4 by lia. do 2 f_equal. lia.
Qed.

Lemma utf8_decode_encode s : Forall scalar s → utf8_decode (utf8_encode s) = s.
Proof.
  induction 1 as [|c s Hc _ IH]; [done|].
  unfold utf8_encode. rewrite bind_cons. fold (utf8_encode s).
  by rewrite utf8_decode_encode_char, IH.
Qed.

Lemma ascii_of_nat_byte b : 0 <= b < 256 → cp (ascii_of_nat (Z.to_nat b)) = b.
Proof. intros Hb. unfold cp. rewrite nat_ascii_embedding by lia. lia. Qed.

Lemma bytes_of_string_of_bytes bs :
  Forall (λ b, 0 <= b < 256) bs → bytes_of_string (string_of_bytes bs) = bs.
Proof.
  intros Hbs. unfold bytes_of_string, string_of_bytes, cps.
  rewrite String.list_ascii_of_string_of_list_ascii.
  induction Hbs as [|b bs Hb _ IH]; [done|]. by rewrite !fmap_cons, ascii_of_nat_byte, IH.
Qed.

Lemma utf8_encode_char_bytes c : scalar c → Forall (λ b, 0 <= b < 256) (utf8_encode_char c).
Proof.
  intros [Hc _]. unfold utf8_encode_char. rewrite !land_63, !Z.shiftr_div_pow2 by lia.
  change (2 ^ 6) with 64. change (2 ^ 12) with 4096. change (2 ^ 18) with 262144.
  repeat case_match; repeat constructor; Z.div_mod_to_equations; lia.
Qed.

(** What a client sends for a [str] is what Python reads back. *)
Lemma str_of_bytes_encode s : Forall scalar s → str_of_bytes (string_of_bytes (utf8_encode s)) = s.
Proof.
  intros Hs. unfold str_of_bytes. rewrite bytes_of_string_of_bytes; [by apply utf8_decode_encode|].
  unfold utf8_encode. apply Forall_bind. eapply Forall_impl; [exact Hs|]. apply utf8_encode_char_bytes.
Qed.

Lemma cp_bound c : 0 <= cp c < 256.
Proof. unfold cp. pose proof (nat_ascii_bounded c). lia. Qed.

Lemma bytes_of_string_bound s : Forall (λ b, 0 <= b < 256) (bytes_of_string s).
Proof.
  unfold bytes_of_string, cps. apply Forall_fmap, Forall_forall. intros c _. apply cp_bound.
Qed.

Lemma cps_scalar s : Forall scalar (cps s).
Proof.
  unfold cps. apply Forall_fmap, Forall_forall. intros c _. pose proof (cp_bound c).
  unfold scalar. simpl. lia.
Qed.

(** An ASCII text is read as itself. *)
Lemma str_of_bytes_ascii s :
  Forall (λ b, b < 0x80) (bytes_of_string s) → str_of_bytes s = bytes_of_string s.
Proof.
  intros H. unfold str_of_bytes. apply utf8_decode_ascii.
  pose proof (proj2 (Forall_and _ _) (conj H (bytes_of_string_bound s))) as Hb.
  eapply Forall_impl; [exact Hb|]. simpl. lia.
Qed.

Lemma nd_value_some c v :
  nd_value c = Some v → ∃ z, z ∈ nd_zeros ∧ z <= c < z + 10 ∧ v = c - z.
Proof.
  unfold nd_value. intros ([i z] & Hf & ->)%fmap_Some.
  apply list_find_Some in Hf as (Hi & Hz & _). exists z. split; [|done].
  by eapply list_elem_of_lookup_2.
Qed.

Lemma nd_value_bound c v : nd_value c = Some v → 0 <= v <= 9.
Proof. intros (z & _ & Hz & ->)%nd_value_some. lia. Qed.

Lemma nd_zeros_scalar : Forall (λ z, 0 <= z ∧ z + 9 < 0xD800 ∨ 0xE000 <= z ∧ z + 9 <= 0x10FFFF) nd_zeros.
Proof. apply (bool_decide_unpack _). vm_compute. exact I. Qed.

Lemma is_decimal_scalar c : is_decimal c = true → scalar c.
Proof.
  unfold is_decimal. rewrite bool_decide_eq_true. intros [v (z & Hz & Hc & _)%nd_value_some].
  pose proof (proj1 (Forall_forall _ _) nd_zeros_scalar z Hz). unfold scalar. simpl in *. lia.
Qed.

Lemma space_chars_not_decimal : Forall (λ c, nd_value c = None) space_chars.
Proof. apply (bool_decide_unpack _). vm_compute. exact I. Qed.

Lemma decimal_not_space c : is_decimal c = true → py_isspace c = false.
Proof.
  unfold is_decimal, py_isspace. rewrite bool_decide_eq_true. intros [v Hv].
  apply bool_decide_eq_false. intros Hs.
  pose proof (proj1 (Forall_forall _ _) space_chars_not_decimal c Hs). congruence.
Qed.

Lemma nd_value_ascii k : 0 <= k <= 9 → nd_value (48 + k) = Some k.
Proof.
  intros Hk. unfold nd_value, nd_zeros. cbn [list_find]. rewrite decide_True by lia.
  simpl. f_equal. lia.
Qed.

End PyStr.
