(* ===== verification/DateText.v ===== *)
(** * DateText: dates as text, [str(date)] and [datetime.strptime]

    The router turns dates into the keys of its response with
    [str(d)] ([date.isoformat], the format ["%04d-%02d-%02d"]) and
    parses the [week_start] query parameter with
    [datetime.strptime(week_start, "%Y-%m-%d")].  This file models both
    as CPython's [datetime.py] and [_strptime.py] implement them:
    [%0Nd] formatting of an integer, the regular expression [_strptime]
    compiles from the format (a backtracking match whose first match
    [re.match] returns), the "unconverted data remains" check, [int()] of
    the groups and the date constructor's check.  [str(d)] is ASCII
    text; [strptime] reads the Python [str] of [PyStr] (code points),
    where [\d] is any Unicode decimal digit and [int()] reads every
    such digit and strips Python's whitespace. *)

From S2P Require Import Prelude PyDate PyStr.
From Stdlib Require Import Ascii.
Import PyDate PyStr.

Open Scope Z_scope.
Open Scope py_scope.

Module DateText.

(** ** Integers as decimal text *)

Definition digit_char (k : Z) : ascii := ascii_of_nat (48 + Z.to_nat k).

(** The decimal digits of [n >= 0], least significant first; the fuel
    [1 + log2 n] bounds the number of digits. *)
Fixpoint digits_rev (fuel : nat) (n : Z) : list ascii :=
  match fuel with
  | O => []
  | S f => digit_char (n mod 10) :: (if n <? 10 then [] else digits_rev f (n / 10))
  end.

(** [str(n)] of a non-negative integer. *)
Definition str_nat (n : Z) : list ascii := rev (digits_rev (S (Z.to_nat (Z.log2 n))) n).

Definition zfill (w : nat) (s : list ascii) : list ascii :=
  replicate (w - length s) "0"%char ++ s.

(** ["%0wd" % v]: the sign, then the digits padded with zeros to width
    [w]. *)
Definition format_0d (w : nat) (v : Z) : list ascii :=
  if v <? 0 then "-"%char :: zfill (w - 1) (str_nat (- v)) else zfill w (str_nat v).

(** [date.isoformat]: ["%04d-%02d-%02d" % (year, month, day)];
    [str(d)] is [d.isoformat()]. *)
Definition isoformat (d : date) : string :=
  String.string_of_list_ascii
    (format_0d 4 (year d) ++ "-"%char :: format_0d 2 (month d) ++ "-"%char :: format_0d 2 (day d)).

(** [int(s)] of the text of a group: surrounding whitespace is
    stripped and the decimal digits of any script are read.  A group
    holds only digits and blanks, so [int()] never fails on it. *)
Fixpoint lstrip_space (s : pystr) : pystr :=
  match s with
  | c :: s' => if py_isspace c then lstrip_space s' else s
  | [] => []
  end.

Definition strip_space (s : pystr) : pystr := rev (lstrip_space (rev (lstrip_space s))).

Definition digits_value (s : pystr) : Z :=
  foldl (λ acc c, acc * 10 + default 0 (nd_value c)) 0 s.

Definition py_int (s : pystr) : Z := digits_value (strip_space s).

(** ** The regular expression [_strptime] compiles *)

(** A character class of the [TimeRE] directives: [\d], a range
    [[lo-hi]] or one character, on code points. *)
Inductive cclass :=
| CDigit
| CRange (lo hi : Z)
| CChar (c : Z).

Definition class_match (k : cclass) (c : Z) : bool :=
  match k with
  | CDigit => is_decimal c
  | CRange lo hi => (lo <=? c) && (c <=? hi)
  | CChar c' => bool_decide (c = c')
  end.

(** One alternative of a group: a fixed sequence of classes. *)
Definition alternative := list cclass.

Inductive rnode :=
| RGroup (name : Z) (alts : list alternative)   (** [(?P<name>a1|a2|...)] *)
| RLit (c : Z).

Fixpoint match_alt (a : alternative) (s : pystr) : option (pystr * pystr) :=
  match a, s with
  | [], _ => Some ([], s)
  | k :: a', c :: s' =>
      if class_match k c then '(g, r) ← match_alt a' s'; Some (c :: g, r) else None
  | _ :: _, [] => None
  end.

Definition groups := list (Z * pystr).

(** Every match of a pattern at the start of [s], in the order the
    backtracking matcher of [re] finds them: the alternatives of a group
    are tried left to right, and a later part of the pattern that fails
    sends the matcher back to the next alternative. *)
Fixpoint match_nodes (p : list rnode) (s : pystr) : list (groups * pystr) :=
  match p with
  | [] => [([], s)]
  | RLit c :: p' =>
      match s with
      | c' :: s' => if bool_decide (c = c') then match_nodes p' s' else []
      | [] => []
      end
  | RGroup g alts :: p' =>
      alts ≫= (λ a, match match_alt a s with
                   | Some (m, rest) => (λ '(gs, r), ((g, m) :: gs, r)) <$> match_nodes p' rest
                   | None => []
                   end)
  end.

(** [format_regex.match(data_string)]: the first match, anchored at the
    start. *)
Definition re_match (p : list rnode) (s : pystr) : option (groups * pystr) :=
  head (match_nodes p s).

(** The entries of [TimeRE] for the directives the router uses:
    ['d': r"(?P<d>3[0-1]|[1-2]\d|0[1-9]|[1-9]| [1-9])"],
    ['m': r"(?P<m>1[0-2]|0[1-9]|[1-9])"], ['Y': r"(?P<Y>\d\d\d\d)"]. *)
Definition time_re (directive : Z) : option rnode :=
  if decide (directive = cp "d") then
    Some (RGroup (cp "d") [[CChar (cp "3"); CRange (cp "0") (cp "1")];
                           [CRange (cp "1") (cp "2"); CDigit];
                           [CChar (cp "0"); CRange (cp "1") (cp "9")]; [CRange (cp "1") (cp "9")];
                           [CChar (cp " "); CRange (cp "1") (cp "9")]])
  else if decide (directive = cp "m") then
    Some (RGroup (cp "m") [[CChar (cp "1"); CRange (cp "0") (cp "2")];
                           [CChar (cp "0"); CRange (cp "1") (cp "9")]; [CRange (cp "1") (cp "9")]])
  else if decide (directive = cp "Y") then
    Some (RGroup (cp "Y") [[CDigit; CDigit; CDigit; CDigit]])
  else None.

(** [TimeRE.pattern(format)]: each [%x] becomes its group, any other
    character matches itself. *)
Fixpoint pattern (format : pystr) : option (list rnode) :=
  match format with
  | [] => Some []
  | c :: rest =>
      if decide (c = cp "%") then
        match rest with
        | x :: rest' => r ← time_re x; p ← pattern rest'; Some (r :: p)
        | [] => None
        end
      else p ← pattern rest; Some (RLit c :: p)
  end.

Fixpoint group_value (gs : groups) (g : Z) : option pystr :=
  match gs with
  | [] => None
  | (g', v) :: gs' => if decide (g = g') then Some v else group_value gs' g
  end.

(** [_strptime(data_string, format)] for the directives above: match,
    reject unconverted data, convert the groups with [int()] (a missing
    year is 1900, with the leap-year fix for February 29), and check the
    date with [datetime_date(year, month, day)]. *)
Definition _strptime (data_string format : pystr) : result (Z * Z * Z) :=
  match pattern format with
  | None => raise (ValueError "bad directive in format")
  | Some p =>
      match re_match p data_string with
      | None => raise (ValueError "time data does not match format")
      | Some (found, rest) =>
          if bool_decide (rest ≠ []) then raise (ValueError "unconverted data remains")
          else
            let month := default 1 (py_int <$> group_value found (cp "m")) in
            let day := default 1 (py_int <$> group_value found (cp "d")) in
            let year_for_check :=
              match group_value found (cp "Y") with
              | Some y => py_int y
              | None => if bool_decide (month = 2 ∧ day = 29) then 1904 else 1900
              end in
            let year := default 1900 (py_int <$> group_value found (cp "Y")) in
            _ ← new_date year_for_check month day;
            mret (year, month, day)
      end
  end.

(** [datetime.strptime(s, format).date()] on the [str] of the request's
    bytes: the [datetime] constructor checks the fields again. *)
Definition strptime_date (s format : string) : result date :=
  '(y, m, d) ← _strptime (str_of_bytes s) (str_of_bytes format);
  new_date y m d.

Definition week_start_format : string := "%Y-%m-%d".

(** ** Proof helpers: fixed-width digit strings and the router's pattern *)

Fixpoint fixed_digits (w : nat) (n : Z) : list ascii :=
  match w with
  | O => []
  | S w' => fixed_digits w' (n / 10) ++ [digit_char (n mod 10)]
  end.

Definition Y_group : rnode := RGroup (cp "Y") [[CDigit; CDigit; CDigit; CDigit]].

Definition ymd_pattern : list rnode :=
  default [] (pattern (str_of_bytes week_start_format)).

(** The text [-mm-dd] after the year. *)
Definition md_text (m d : Z) : pystr :=
  cp "-" :: cps (fixed_digits 2 m) ++ cp "-" :: cps (fixed_digits 2 d).

(** The month and day groups, checked on every month and every day
    number the calendar uses. *)
Definition md_ok (m d : Z) : bool :=
  bool_decide (re_match (tail ymd_pattern) (md_text m d)
               = Some ([(cp "m", cps (fixed_digits 2 m)); (cp "d", cps (fixed_digits 2 d))], [])).

(** The other spellings of a month and of a day the groups accept:
    without the leading zero ([%m] and [%d]), and for a day below 10
    with a blank in its place ([%d]'s alternative [ [1-9]]). *)
Definition m_spellings (m : Z) : list (list ascii) := [fixed_digits 2 m; str_nat m].

Definition d_spellings (d : Z) : list (list ascii) :=
  [fixed_digits 2 d; str_nat d] ++ (if d <? 10 then [" "%char :: str_nat d] else []).

(** The month and day groups match the text [-sm-sd] whole, [int()]
    reads back [m] and [d], and the text is ASCII. *)
Definition spelling_ok (m d : Z) (sm sd : list ascii) : bool :=
  bool_decide (re_match (tail ymd_pattern) (cp "-" :: cps sm ++ cp "-" :: cps sd)
               = Some ([(cp "m", cps sm); (cp "d", cps sd)], [])) &&
  bool_decide (py_int (cps sm) = m) && bool_decide (py_int (cps sd) = d) &&
  bool_decide (Forall (λ b, b < 0x80) (cps sm ++ cps sd)).

Definition md_spellings_ok (m d : Z) : bool :=
  forallb (λ sm, forallb (spelling_ok m d sm) (d_spellings d)) (m_spellings m).

Lemma cp_digit_char k : 0 <= k <= 9 → cp (digit_char k) = 48 + k.
Proof. intros Hk. unfold cp, digit_char. rewrite nat_ascii_embedding by lia. lia. Qed.

Lemma digit_char_value k : 0 <= k <= 9 → nd_value (cp (digit_char k)) = Some k.
Proof. intros Hk. rewrite cp_digit_char by done. by apply nd_value_ascii. Qed.

Lemma digit_class k : 0 <= k <= 9 → class_match CDigit (cp (digit_char k)) = true.
Proof.
  intros Hk. cbn [class_match]. unfold is_decimal. rewrite digit_char_value by done.
  by apply bool_decide_eq_true.
Qed.

Lemma pow2_succ_nat f : 2 ^ Z.of_nat (S f) = 2 * 2 ^ Z.of_nat f.
Proof. rewrite Nat2Z.inj_succ, Z.pow_succ_r; lia. Qed.
Lemma digits_rev_fuel f g n :
  (1 <= f)%nat → (1 <= g)%nat → 0 <= n < 2 ^ Z.of_nat f → n < 2 ^ Z.of_nat g →
  digits_rev f n = digits_rev g n.
Proof.
  revert g n. induction f as [|f IH]; intros [|g] n Hf1 Hg1 Hf Hg; try lia.
  cbn [digits_rev]. f_equal. destruct (Z.ltb_spec n 10); [done|].
  rewrite pow2_succ_nat in Hf, Hg.
  assert (f ≠ 0%nat) by (intros ->; simpl in Hf; lia).
  assert (g ≠ 0%nat) by (intros ->; simpl in Hg; lia).
  pose proof (Z.pow_pos_nonneg 2 (Z.of_nat f)). pose proof (Z.pow_pos_nonneg 2 (Z.of_nat g)).
  apply IH; [lia | lia | Z.div_mod_to_equations; lia | Z.div_mod_to_equations; lia].
Qed.

Lemma str_nat_fuel n : 0 <= n → n < 2 ^ Z.of_nat (S (Z.to_nat (Z.log2 n))).
Proof.
  intros Hn. destruct (Z.eq_dec n 0) as [->|Hn0]; [reflexivity|].
  destruct (Z.log2_spec n) as [_ Hlt]; [lia|].
  rewrite Nat2Z.inj_succ, Z2Nat.id by apply Z.log2_nonneg. lia.
Qed.

Lemma str_nat_small n : 0 <= n < 10 → str_nat n = [digit_char n].
Proof.
  intros Hn. unfold str_nat. simpl.
  rewrite (proj2 (Z.ltb_lt n 10)), Z.mod_small by lia. reflexivity.
Qed.

Lemma str_nat_step n :
  10 <= n → str_nat n = str_nat (n / 10) ++ [digit_char (n mod 10)].
Proof.
  intros Hn. unfold str_nat at 1. pose proof (str_nat_fuel n) as Hf.
  remember (Z.to_nat (Z.log2 n)) as k eqn:Hk. simpl.
  rewrite (proj2 (Z.ltb_ge n 10)) by lia. simpl. f_equal.
  unfold str_nat. f_equal. rewrite pow2_succ_nat in Hf.
  pose proof (Z.pow_pos_nonneg 2 (Z.of_nat k)).
  assert (k ≠ 0%nat) by (intros ->; simpl in Hf; lia).
  apply digits_rev_fuel; [lia | lia | Z.div_mod_to_equations; lia |].
  apply str_nat_fuel. apply Z.div_pos; lia.
Qed.

Lemma fixed_digits_0 w : fixed_digits w 0 = replicate w "0"%char.
Proof.
  induction w as [|w IH]; [done|]. cbn [fixed_digits].
  rewrite Z.div_0_l, Z.mod_0_l, IH by lia.
  by rewrite <- replicate_S_end.
Qed.

Lemma zfill_snoc w s c : zfill (S w) (s ++ [c]) = zfill w s ++ [c].
Proof.
  unfold zfill. rewrite length_app. simpl.
  replace (S w - (length s + 1))%nat with (w - length s)%nat by lia.
  by rewrite app_assoc.
Qed.

Lemma zfill_str_nat w n :
  (1 <= w)%nat → 0 <= n < 10 ^ Z.of_nat w → zfill w (str_nat n) = fixed_digits w n.
Proof.
  revert n. induction w as [|w IH]; intros n Hw Hn; [lia|].
  destruct (Z.ltb_spec n 10).
  - rewrite str_nat_small by lia. simpl.
    rewrite Z.div_small, Z.mod_small, fixed_digits_0 by lia.
    unfold zfill. simpl. by rewrite Nat.sub_0_r.
  - rewrite str_nat_step by lia. rewrite zfill_snoc. simpl. f_equal.
    rewrite Nat2Z.inj_succ, Z.pow_succ_r in Hn by lia.
    apply IH; [destruct w; simpl in *; lia|]. Z.div_mod_to_equations. lia.
Qed.

Lemma cps_app a b : cps (a ++ b) = cps a ++ cps b.
Proof. apply fmap_app. Qed.

Lemma digits_value_snoc s c : digits_value (s ++ [c]) = digits_value s * 10 + default 0 (nd_value c).
Proof. unfold digits_value. by rewrite foldl_app. Qed.

Lemma mod10_digit n : 0 <= n mod 10 <= 9.
Proof. pose proof (Z.mod_pos_bound n 10). lia. Qed.

Lemma digits_value_fixed w n : digits_value (cps (fixed_digits w n)) = n mod 10 ^ Z.of_nat w.
Proof.
  revert n. induction w as [|w IH]; intros n; [simpl; by rewrite Z.mod_1_r|].
  cbn [fixed_digits]. rewrite cps_app. change (cps [?x]) with [cp x].
  rewrite digits_value_snoc, IH, digit_char_value by apply mod10_digit. simpl.
  rewrite Nat2Z.inj_succ, Z.pow_succ_r, Z.rem_mul_r by lia. lia.
Qed.

Lemma fixed_digits_decimal w n : Forall (λ c, is_decimal c = true) (cps (fixed_digits w n)).
Proof.
  revert n. induction w as [|w IH]; intros n; [constructor|]. cbn [fixed_digits].
  rewrite cps_app. apply Forall_app. split; [apply IH|]. constructor; [|constructor].
  apply (digit_class (n mod 10)), mod10_digit.
Qed.

Lemma fixed_digits_ascii w n : Forall (λ b, b < 0x80) (cps (fixed_digits w n)).
Proof.
  revert n. induction w as [|w IH]; intros n; [constructor|]. cbn [fixed_digits].
  rewrite cps_app. apply Forall_app. split; [apply IH|]. constructor; [|constructor].
  rewrite cp_digit_char by apply mod10_digit. pose proof (mod10_digit n). lia.
Qed.

Lemma strip_space_id s : Forall (λ c, py_isspace c = false) s → strip_space s = s.
Proof.
  assert (Hl : ∀ t, Forall (λ c, py_isspace c = false) t → lstrip_space t = t).
  { intros [|c t] Ht; [done|]. apply Forall_cons in Ht as [Hc _]. simpl. by rewrite Hc. }
  intros Hs. unfold strip_space. rewrite (Hl s Hs), Hl, rev_involutive; [done|].
  by apply Forall_rev.
Qed.

(** [int()] of a group of decimal digits is their value. *)
Lemma py_int_decimals s : Forall (λ c, is_decimal c = true) s → py_int s = digits_value s.
Proof.
  intros Hs. unfold py_int. rewrite strip_space_id; [done|].
  eapply Forall_impl; [exact Hs|]. apply decimal_not_space.
Qed.

Lemma py_int_fixed w n : 0 <= n < 10 ^ Z.of_nat w → py_int (cps (fixed_digits w n)) = n.
Proof.
  intros Hn. rewrite py_int_decimals by apply fixed_digits_decimal.
  rewrite digits_value_fixed. by apply Z.mod_small.
Qed.

Lemma group_Y ys ms ds : group_value [(cp "Y", ys); (cp "m", ms); (cp "d", ds)] (cp "Y") = Some ys.
Proof. reflexivity. Qed.

Lemma group_m ys ms ds : group_value [(cp "Y", ys); (cp "m", ms); (cp "d", ds)] (cp "m") = Some ms.
Proof. reflexivity. Qed.

Lemma group_d ys ms ds : group_value [(cp "Y", ys); (cp "m", ms); (cp "d", ds)] (cp "d") = Some ds.
Proof. reflexivity. Qed.

Lemma pattern_week_start :
  pattern (str_of_bytes week_start_format) = Some (Y_group :: tail ymd_pattern).
Proof. reflexivity. Qed.

(** [\d\d\d\d] takes four decimal digits of any script. *)
Lemma match_Y_group ys rest :
  length ys = 4%nat → Forall (λ c, is_decimal c = true) ys →
  match_alt [CDigit; CDigit; CDigit; CDigit] (ys ++ rest) = Some (ys, rest).
Proof.
  intros Hl Hd. destruct ys as [|a [|b [|c [|d [|]]]]]; try discriminate.
  repeat match goal with H : Forall _ (_ :: _) |- _ => apply Forall_cons in H as [? H] end.
  cbn [app match_alt class_match]. by repeat match goal with H : is_decimal _ = true |- _ => rewrite H end.
Qed.

Lemma md_all : forallb (λ m, forallb (λ d, md_ok m d) (Z.add 1 <$> py_range 31)) months = true.
Proof. vm_compute. reflexivity. Qed.

Lemma md_spellings_all :
  forallb (λ m, forallb (λ d, md_spellings_ok m d) (Z.add 1 <$> py_range 31)) months = true.
Proof. vm_compute. reflexivity. Qed.

(** A table checked over the months and the day numbers [1 .. 31]
    holds of every month and day. *)
Lemma forall_md (f : Z → Z → bool) m d :
  forallb (λ m, forallb (λ d, f m d) (Z.add 1 <$> py_range 31)) months = true →
  1 <= m <= 12 → 1 <= d <= 31 → f m d = true.
Proof.
  intros H Hm Hd. rewrite forallb_forall in H.
  specialize (H m (proj1 (list_elem_of_In _ _) (elem_of_months m Hm))).
  rewrite forallb_forall in H. apply H, list_elem_of_In, list_elem_of_fmap.
  exists (d - 1). split; [lia|]. apply elem_of_py_range. lia.
Qed.

Lemma md_spec m d : 1 <= m <= 12 → 1 <= d <= 31 → md_ok m d = true.
Proof. apply forall_md, md_all. Qed.

Lemma days_in_month_le_31 y m : 1 <= m <= 12 → _days_in_month y m <= 31.
Proof.
  intros Hm. rewrite days_in_month_of. apply elem_of_months, list_elem_of_In in Hm.
  destruct (_is_leap y); repeat destruct Hm as [<-|Hm]; vm_compute; try discriminate; done.
Qed.

Lemma isoformat_digits d :
  valid_date d = true →
  String.list_ascii_of_string (isoformat d) =
  fixed_digits 4 (year d) ++ "-"%char :: fixed_digits 2 (month d) ++ "-"%char
    :: fixed_digits 2 (day d).
Proof.
  intros Hd. pose proof Hd as (Hy & Hm & Hdd)%valid_date_iff.
  pose proof (days_in_month_le_31 (year d) (month d) Hm). unfold MINYEAR, MAXYEAR in Hy.
  unfold isoformat, format_0d. rewrite String.list_ascii_of_string_of_list_ascii.
  rewrite !(proj2 (Z.ltb_ge _ 0)) by lia.
  rewrite !zfill_str_nat by (simpl; lia). reflexivity.
Qed.

(** The [str] of [str(d)]: ASCII digits and dashes. *)
Lemma str_of_bytes_isoformat d :
  valid_date d = true →
  str_of_bytes (isoformat d) = cps (fixed_digits 4 (year d)) ++ md_text (month d) (day d).
Proof.
  intros Hd. unfold md_text.
  assert (E : bytes_of_string (isoformat d)
              = cps (fixed_digits 4 (year d)) ++ cp "-" :: cps (fixed_digits 2 (month d))
                ++ cp "-" :: cps (fixed_digits 2 (day d))).
  { unfold bytes_of_string. rewrite isoformat_digits by done. by rewrite !cps_app. }
  rewrite str_of_bytes_ascii, E; [done|]. rewrite E.
  repeat (apply Forall_app; split; [apply fixed_digits_ascii|]; constructor; [reflexivity|]).
  apply fixed_digits_ascii.
Qed.

(** [strptime] with the router's format on four decimal digits of any
    script, then [-], a month, [-] and a day that the groups match. *)
Lemma strptime_parts_text (ys ms ds : pystr) m d :
  length ys = 4%nat → Forall (λ c, is_decimal c = true) ys →
  re_match (tail ymd_pattern) (cp "-" :: ms ++ cp "-" :: ds) = Some ([(cp "m", ms); (cp "d", ds)], []) →
  py_int ms = m → py_int ds = d →
  _strptime (ys ++ cp "-" :: ms ++ cp "-" :: ds) (str_of_bytes week_start_format)
  = (_ ← new_date (digits_value ys) m d; mret (digits_value ys, m, d)).
Proof.
  intros Hl Hys Hmd Pm Pd. unfold re_match in Hmd. unfold _strptime. rewrite pattern_week_start.
  unfold re_match, Y_group. cbn [match_nodes]. rewrite bind_singleton, match_Y_group by done.
  destruct (match_nodes (tail ymd_pattern) _) as [|[gs r] l]; [discriminate|].
  injection Hmd as -> ->. cbn [head fmap list_fmap].
  rewrite !(group_Y ys ms ds), !(group_m ys ms ds), !(group_d ys ms ds).
  cbn [fmap option_fmap option_map default]. rewrite (py_int_decimals ys Hys), Pm, Pd.
  reflexivity.
Qed.

(** The same with [-mm-dd]. *)
Lemma strptime_parts ys m d :
  length ys = 4%nat → Forall (λ c, is_decimal c = true) ys → 1 <= m <= 12 → 1 <= d <= 31 →
  _strptime (ys ++ md_text m d) (str_of_bytes week_start_format)
  = (_ ← new_date (digits_value ys) m d; mret (digits_value ys, m, d)).
Proof.
  intros Hl Hys Hm Hd. pose proof (md_spec m d Hm Hd) as Hmd.
  unfold md_ok in Hmd. apply bool_decide_eq_true in Hmd.
  apply strptime_parts_text; [done..| |]; apply py_int_fixed; simpl; lia.
Qed.

(** parsing the text of a date with the router's format gives the
    date back: [datetime.strptime(str(d), "%Y-%m-%d").date() == d]. *)
Lemma strptime_isoformat_id d :
  valid_date d = true → strptime_date (isoformat d) week_start_format = Ok d.
Proof.
  intros Hd. pose proof Hd as (Hy & Hm & Hdd)%valid_date_iff.
  pose proof (days_in_month_le_31 (year d) (month d) Hm). unfold MINYEAR, MAXYEAR in Hy.
  unfold strptime_date. rewrite str_of_bytes_isoformat, strptime_parts by
    (done || apply fixed_digits_decimal || lia).
  rewrite digits_value_fixed, Z.mod_small by (simpl; lia).
  destruct d as [y m dd]; simpl in *.
  rewrite new_date_valid by done. simpl. by rewrite new_date_valid.
Qed.

(** C25: parsing the text of a date with the router's format gives the
    date back: [datetime.strptime(str(d), "%Y-%m-%d").date() == d]. *)
Theorem strptime_isoformat d :
  valid_date d = true → strptime_date (isoformat d) week_start_format = Ok d.
Proof. apply strptime_isoformat_id. Qed.

(** [datetime.strptime(s, fmt).date()] raises nothing but
    [ValueError], whatever the input. *)
Lemma strptime_only_ValueError s fmt e :
  strptime_date s fmt = Raise e → ∃ msg, e = ValueError msg.
Proof.
  unfold strptime_date, _strptime.
  destruct (pattern _) as [p|]; [|simpl; intros [=]; eauto].
  destruct (re_match p _) as [[found rest]|]; [|simpl; intros [=]; eauto].
  destruct (bool_decide (rest ≠ [])); [simpl; intros [=]; eauto|].
  intros H. apply bind_Raise in H as [H | ([[y m] d] & H1 & H2)].
  - apply bind_Raise in H as [H | (x & _ & H)]; [|discriminate].
    match type of H with new_date ?a ?b ?c = _ =>
      destruct (new_date_spec a b c) as [[_ E] | [_ [msg E]]] end;
      rewrite E in H; [discriminate | injection H as <-; eauto].
  - destruct (new_date_spec y m d) as [[_ E] | [_ [msg E]]];
      rewrite E in H2; [discriminate | injection H2 as <-; eauto].
Qed.

(** C26: [datetime.strptime(s, fmt).date()] raises nothing but
    [ValueError], whatever the input. *)
Theorem strptime_raises_ValueError s fmt e :
  strptime_date s fmt = Raise e → ∃ msg, e = ValueError msg.
Proof. apply strptime_only_ValueError. Qed.

(** distinct dates have distinct texts, so [str(d)] is a faithful
    dictionary key. *)
Lemma isoformat_injective x y :
  valid_date x = true → valid_date y = true → isoformat x = isoformat y → x = y.
Proof.
  intros Hx Hy E. pose proof (strptime_isoformat_id x Hx) as Px.
  rewrite E, strptime_isoformat_id in Px by done. by injection Px.
Qed.

Lemma isoformat_length d : valid_date d = true → length (String.list_ascii_of_string (isoformat d)) = 10%nat.
Proof.
  intros Hd. rewrite isoformat_digits by done. reflexivity.
Qed.

(** C27: the format is not strict: for every valid date, its text
    with the month written without its leading zero, and the day
    without its leading zero or with a blank in its place, is parsed as
    that date, so [week_start] values other than [YYYY-MM-DD] are
    accepted (and the response echoes the normalised [str(start)]). *)
Theorem strptime_accepts_unpadded d sm sd :
  valid_date d = true → sm ∈ m_spellings (month d) → sd ∈ d_spellings (day d) →
  strptime_date (String.string_of_list_ascii (fixed_digits 4 (year d) ++ "-"%char :: sm ++ "-"%char :: sd))
                week_start_format = Ok d.
Proof.
  intros Hd Hsm Hsd. pose proof Hd as (Hy & Hm & Hdd)%valid_date_iff.
  pose proof (days_in_month_le_31 (year d) (month d) Hm). unfold MINYEAR, MAXYEAR in Hy.
  pose proof (forall_md _ (month d) (day d) md_spellings_all ltac:(lia) ltac:(lia)) as Hok.
  unfold md_spellings_ok in Hok. rewrite forallb_forall in Hok.
  specialize (Hok sm (proj1 (list_elem_of_In _ _) Hsm)). rewrite forallb_forall in Hok.
  specialize (Hok sd (proj1 (list_elem_of_In _ _) Hsd)).
  apply andb_prop in Hok as [[[Hre Pm]%andb_prop Pd]%andb_prop Ha].
  apply bool_decide_eq_true in Hre, Pm, Pd, Ha. apply Forall_app in Ha as [Ham Had].
  assert (E : bytes_of_string (String.string_of_list_ascii
                (fixed_digits 4 (year d) ++ "-"%char :: sm ++ "-"%char :: sd))
              = cps (fixed_digits 4 (year d)) ++ cp "-" :: cps sm ++ cp "-" :: cps sd).
  { unfold bytes_of_string. rewrite String.list_ascii_of_string_of_list_ascii. unfold cps.
    by rewrite fmap_app, fmap_cons, fmap_app, fmap_cons. }
  unfold strptime_date. rewrite str_of_bytes_ascii, E.
  2: { rewrite E. apply Forall_app. split; [apply fixed_digits_ascii|].
       constructor; [reflexivity|]. apply Forall_app. split; [done|]. by constructor. }
  rewrite (strptime_parts_text _ _ _ (month d) (day d)) by (done || apply fixed_digits_decimal).
  rewrite digits_value_fixed, Z.mod_small by (simpl; lia).
  destruct d as [y m dd]; simpl in *.
  rewrite new_date_valid by done. simpl. by rewrite new_date_valid.
Qed.

(** C28: [\d] and [int()] read the decimal digits of every script: a
    [week_start] whose year is written in any four Unicode decimal digits
    (fullwidth, Arabic-Indic, Devanagari, ...), sent UTF-8 encoded, is
    accepted as that year. *)
Theorem strptime_accepts_decimal_digits ys m d :
  length ys = 4%nat → Forall (λ c, is_decimal c = true) ys →
  valid_date (mkdate (digits_value ys) m d) = true →
  strptime_date (string_of_bytes (utf8_encode (ys ++ md_text m d))) week_start_format
  = Ok (mkdate (digits_value ys) m d).
Proof.
  intros Hl Hys Hv. pose proof Hv as (Hy & Hm & Hd)%valid_date_iff. simpl in *.
  pose proof (days_in_month_le_31 (digits_value ys) m Hm). unfold strptime_date.
  rewrite str_of_bytes_encode.
  - rewrite strptime_parts by (done || lia). rewrite new_date_valid by done. simpl.
    by rewrite new_date_valid.
  - apply Forall_app. split; [eapply Forall_impl; [exact Hys|]; apply is_decimal_scalar|].
    unfold md_text. pose proof (cps_scalar ["-"%char]) as Hc. inversion Hc.
    constructor; [done|]. apply Forall_app. split; [apply cps_scalar|]. constructor; [done|].
    apply cps_scalar.
Qed.

(** ** Witnesses *)

Lemma strptime_isoformat_witness :
  strptime_date (isoformat (mkdate 2024 3 10)) week_start_format = Ok (mkdate 2024 3 10).
Proof. apply strptime_isoformat. reflexivity. Defined.

Lemma strptime_raises_ValueError_witness :
  strptime_date "not-a-date" week_start_format = Raise (ValueError "time data does not match format") ∧
  ∃ msg, ValueError "time data does not match format" = ValueError msg.
Proof.
  assert (H : strptime_date "not-a-date" week_start_format
              = Raise (ValueError "time data does not match format")) by reflexivity.
  split; [exact H|]. exact (strptime_raises_ValueError _ _ _ H).
Defined.

Lemma strptime_accepts_unpadded_witness :
  strptime_date "2024-3- 5" week_start_format = Ok (mkdate 2024 3 5).
Proof.
  assert (E : String.string_of_list_ascii
                (fixed_digits 4 2024 ++ "-"%char :: str_nat 3 ++ "-"%char :: " "%char :: str_nat 5)
              = "2024-3- 5"%string) by reflexivity.
  rewrite <- E. apply (strptime_accepts_unpadded (mkdate 2024 3 5)); [reflexivity| |];
    apply (bool_decide_unpack _); vm_compute; exact I.
Defined.

Lemma strptime_accepts_decimal_digits_witness :
  strptime_date "２０２４-03-10" week_start_format = Ok (mkdate 2024 3 10) ∧
  strptime_date "2024-03-1٥" week_start_format = Ok (mkdate 2024 3 15).
Proof.
  split; [|vm_compute; reflexivity].
  assert (E : string_of_bytes (utf8_encode ([0xFF12; 0xFF10; 0xFF12; 0xFF14] ++ md_text 3 10))
              = "２０２４-03-10"%string) by (vm_compute; reflexivity).
  rewrite <- E. apply (strptime_accepts_decimal_digits [0xFF12; 0xFF10; 0xFF12; 0xFF14] 3 10);
    [reflexivity | repeat constructor | reflexivity].
Defined.

End DateText.
