(* ===== verification/Auth.v ===== *)
(** * Auth: the bearer-token gate of both handlers

    Both handlers of [src/routers/study_router.py] start with the same
    four lines: [payload = verify_token(credentials.credentials)], then
    [user_id = payload.get("sub")] and a 401 [HTTPException] when it is
    [None].  The verifier lives in [utils/security.py], outside [src/]:
    it is an interface here, a [Class] whose law is the spec's contract
    (a token it rejects yields a 401), with a table-driven instance as
    the test double the spec mentions.  The gate [authenticate] is proved
    against the interface. *)

From S2P Require Import Prelude.
From stdpp Require Import gmap.

Open Scope Z_scope.
Open Scope py_scope.

Module Auth.

(** The claims of a verified token, as the JSON object's members; a
    member whose value is [null] is [None]. *)
Definition claims := list (string * option string).

(** [payload.get(key)]: [None] when the key is absent. *)
Fixpoint claims_get (payload : claims) (key : string) : option (option string) :=
  match payload with
  | [] => None
  | (k, v) :: rest => if decide (k = key) then Some v else claims_get rest key
  end.

(** [utils.security.verify_token]: returns the claims of a valid token;
    any failure is an exception answered with status 401. *)
Class TokenVerifier := {
  verify_token : string → result claims;
  verify_token_unauthorized : ∀ t e, verify_token t = Raise e → status_of e = 401
}.

Section Gate.
Context `{V : TokenVerifier}.

(** Lines 24-27 (and 49-52): verify, read ["sub"], reject a missing
    or [null] subject. *)
Definition authenticate (token : string) : result string :=
  payload ← verify_token token;
  match claims_get payload "sub" with
  | Some (Some user_id) => mret user_id
  | _ => raise (HTTPException 401 "Invalid token")
  end.

Lemma authenticate_Ok token u :
  authenticate token = Ok u ↔
  ∃ payload, verify_token token = Ok payload ∧ claims_get payload "sub" = Some (Some u).
Proof.
  unfold authenticate. rewrite bind_Ok. split.
  - intros (payload & E & H). exists payload. split; [done|].
    destruct (claims_get payload "sub") as [[s|]|]; simpl in H; by inversion H.
  - intros (payload & E & H). exists payload. rewrite H. auto.
Qed.

(** every failure of the gate is answered with status 401: a token
    the verifier rejects, and a verified token without a subject. *)
Lemma authenticate_401 token e :
  authenticate token = Raise e → status_of e = 401.
Proof.
  unfold authenticate. intros H. apply bind_Raise in H as [H | (payload & _ & H)].
  - by eapply verify_token_unauthorized.
  - destruct (claims_get payload "sub") as [[s|]|]; simpl in H; by inversion H.
Qed.

(** C29: the gate's contract on every branch of lines 24-27: it lets
    through exactly the tokens the verifier accepts whose claims carry a
    string ["sub"], answering that subject; a token the verifier rejects
    gets the verifier's own exception, a 401; and a verified token whose
    ["sub"] is missing or [null] gets [HTTPException(401, "Invalid
    token")]. *)
Theorem authenticate_contract token :
  (∀ u, authenticate token = Ok u ↔
        ∃ payload, verify_token token = Ok payload ∧ claims_get payload "sub" = Some (Some u)) ∧
  (∀ e, verify_token token = Raise e → authenticate token = Raise e ∧ status_of e = 401) ∧
  (∀ payload, verify_token token = Ok payload →
     claims_get payload "sub" = None ∨ claims_get payload "sub" = Some None →
     authenticate token = Raise (HTTPException 401 "Invalid token")).
Proof.
  unfold authenticate. split; [|split].
  - intros u. destruct (verify_token token) as [p|e]; simpl.
    + destruct (claims_get p "sub") as [[s|]|] eqn:Hs; simpl; split;
        try discriminate; intros H; try (destruct H as (p' & [= <-] & H); rewrite Hs in H).
      * injection H as <-. exists p. split; [done|by rewrite Hs].
      * by injection H as ->.
      * discriminate.
      * discriminate.
    + split; [discriminate|]. by intros (? & ? & _).
  - intros e E. rewrite E. split; [done|]. by eapply verify_token_unauthorized.
  - intros p E [Hs|Hs]; by rewrite E; simpl; rewrite Hs.
Qed.
End Gate.

(** A verifier given by a table of issued tokens: the substitutable test
    double of the verifier. *)
Definition table_verify (tokens : gmap string claims) (t : string) : result claims :=
  match tokens !! t with
  | Some c => Ok c
  | None => Raise (HTTPException 401 "Could not validate credentials")
  end.

Definition table_verifier (tokens : gmap string claims) : TokenVerifier.
Proof.
  refine {| verify_token := table_verify tokens |}.
  intros t e. unfold table_verify. destruct (_ !! t); intros H; by inversion H.
Defined.

Lemma authenticate_contract_witness :
  @authenticate (table_verifier {["tok-nosub" := [("name", Some "alice")]]}) "tok-nosub"
  = Raise (HTTPException 401 "Invalid token").
Proof.
  apply (proj2 (proj2 (@authenticate_contract (table_verifier {["tok-nosub" := [("name", Some "alice")]]})
                         "tok-nosub")) [("name", Some "alice")]); [reflexivity | by left].
Defined.

End Auth.
