(* ===== verification/Store.v ===== *)
(** * Store: the StudyLog table and the SQLAlchemy session

    The handlers reach the database through a SQLAlchemy [Session]:
    [db.query(StudyLog).filter(...).first()] and [.all()], attribute
    assignment on a loaded row, [db.add], [db.commit()] and
    [db.refresh(log)].  The table is a list of rows in storage order
    (a query without [ORDER BY] returns rows in that order here), the
    database assigns fresh primary keys, and every statement sent is
    appended to [sql_log], so that "no database interaction" is a
    statement about the log.  [db.models.StudyLog] is outside [src/]
    and is modelled from the spec: a row has an id, a user id, a date
    and a number of minutes.  The spec leaves open whether
    [(user_id, date)] is a database constraint: [schema_unique] says
    whether it is, and an [INSERT] of an existing key then fails with an
    [IntegrityError].  [commit_ok] says whether the database accepts
    commits: when it does not, [COMMIT] fails (spec section 7, storage
    failure).  [int_bits] is the width of the [Integer] minutes column
    (32 on PostgreSQL or MySQL, 64 on SQLite): binding a value outside
    its signed range ([fits]) raises [range_error] at the flush, before
    the statement is sent.  A failed flush or commit rolls the transaction back: the
    rows are those before it, the primary-key sequence stays advanced
    (as a database sequence does), and the exception propagates. *)

From S2P Require Import Prelude PyDate.
Import PyDate.

Open Scope Z_scope.
Open Scope py_scope.

Module Store.

Record StudyLog := mkLog { log_id : Z; user_id : string; log_date : date; minutes : Z }.

#[export] Instance StudyLog_eq_dec : EqDecision StudyLog.
Proof. solve_decision. Defined.

(** The statements the session sends, in order. *)
Inductive stmt :=
| SelectFirst (user : string) (d : date)
| SelectRange (user : string) (lo hi : date)
| Insert (id : Z)
| Update (id : Z)
| SelectById (id : Z)
| CommitTx
| RollbackTx.

(** The table, the next primary key, the statements sent, and the
    properties of the database that no statement changes: the UNIQUE
    constraint, whether commits succeed, and the width in bits of the
    [minutes] column (SQLAlchemy's [Integer] is a 64-bit INTEGER in
    SQLite, a 32-bit INTEGER in PostgreSQL and MySQL). *)
Record Db := mkDb {
  rows : list StudyLog; next_id : Z; sql_log : list stmt;
  schema_unique : bool; commit_ok : bool; int_bits : Z
}.

Definition emit (s : stmt) (db : Db) : Db :=
  mkDb (rows db) (next_id db) (sql_log db ++ [s]) (schema_unique db) (commit_ok db) (int_bits db).

Definition st_emit (s : stmt) : st Db unit := λ db, (emit s db, Ok ()).

(** The filter [StudyLog.user_id == u, StudyLog.date == d]. *)
Definition is_key (u : string) (d : date) (r : StudyLog) : Prop := user_id r = u ∧ log_date r = d.

#[export] Instance is_key_dec u d r : Decision (is_key u d r).
Proof. unfold is_key. apply _. Defined.

(** [db.query(StudyLog).filter(StudyLog.user_id == u, StudyLog.date == d).first()] *)
Definition query_first (u : string) (d : date) : st Db (option StudyLog) :=
  λ db, (emit (SelectFirst u d) db, Ok (head (filter (is_key u d) (rows db)))).

Definition in_window (lo hi : date) (r : StudyLog) : bool :=
  date_le lo (log_date r) && date_le (log_date r) hi.

(** [db.query(StudyLog).filter(StudyLog.user_id == u,
    StudyLog.date >= lo, StudyLog.date <= hi).all()] *)
Definition query_range (u : string) (lo hi : date) : st Db (list StudyLog) :=
  λ db, (emit (SelectRange u lo hi) db,
         Ok (filter (λ r, user_id r = u ∧ in_window lo hi r = true) (rows db))).

(** The session's unit of work. *)
Inductive change :=
| Dirty (id : Z) (new_minutes : Z)           (** a loaded row whose [minutes] was set *)
| Pending (user : string) (d : date) (m : Z). (** [db.add(StudyLog(user_id=.., date=.., minutes=..))] *)

Definition set_minutes (id m : Z) (r : StudyLog) : StudyLog :=
  if decide (log_id r = id) then mkLog (log_id r) (user_id r) (log_date r) m else r.

(** [UPDATE study_logs SET minutes = m WHERE id = id] *)
Definition db_set_minutes (id m : Z) (db : Db) : Db :=
  mkDb (set_minutes id m <$> rows db) (next_id db) (sql_log db) (schema_unique db) (commit_ok db) (int_bits db).

(** [INSERT INTO study_logs ...] under the next primary key. *)
Definition db_insert (u : string) (d : date) (m : Z) (db : Db) : Db :=
  mkDb (rows db ++ [mkLog (next_id db) u d m]) (next_id db + 1) (sql_log db)
       (schema_unique db) (commit_ok db) (int_bits db).

Definition key (r : StudyLog) : string * date := (user_id r, log_date r).

(** The [INSERT] of [(u, d)] violates the constraint. *)
Definition violates (u : string) (d : date) (db : Db) : bool :=
  schema_unique db && bool_decide ((u, d) ∈ key <$> rows db).

Definition integrity_error : exn :=
  SQLAlchemyError "IntegrityError: UNIQUE constraint failed: study_logs.user_id, study_logs.date".

Definition commit_error : exn := SQLAlchemyError "OperationalError: COMMIT failed".

(** The column holds the value: a signed integer of [int_bits db] bits. *)
Definition fits (db : Db) (v : Z) : bool :=
  (- 2 ^ (int_bits db - 1) <=? v) && (v <? 2 ^ (int_bits db - 1)).

(** The driver refuses a value the column cannot hold (PostgreSQL's
    [DataError]; SQLite's driver raises [OverflowError], also a 500). *)
Definition range_error : exn := SQLAlchemyError "DataError: integer out of range".

(** Flush one change: an [UPDATE] of the row, or an [INSERT] under a
    fresh key; the object's primary key is returned.  A [minutes] value
    the column cannot hold is refused when it is bound, before the
    statement is sent.  The sequence value is consumed even when the
    [INSERT] violates the constraint. *)
Definition flush_change (c : change) : st Db Z :=
  λ db, match c with
        | Dirty id m =>
            if fits db m then (emit (Update id) (db_set_minutes id m db), Ok id)
            else (db, Raise range_error)
        | Pending u d m =>
            if negb (fits db m) then (db, Raise range_error)
            else if violates u d db
            then (emit (Insert (next_id db))
                    (mkDb (rows db) (next_id db + 1) (sql_log db) (schema_unique db) (commit_ok db) (int_bits db)),
                  Raise integrity_error)
            else (emit (Insert (next_id db)) (db_insert u d m db), Ok (next_id db))
        end.

Fixpoint flush (cs : list change) : st Db (list Z) :=
  match cs with
  | [] => mret []
  | c :: cs' => id ← flush_change c; ids ← flush cs'; mret (id :: ids)
  end.

(** The transaction is rolled back: the rows of [db0], before it. *)
Definition rollback (db0 db : Db) : Db :=
  mkDb (rows db0) (next_id db) (sql_log db ++ [RollbackTx]) (schema_unique db) (commit_ok db) (int_bits db).

(** [db.commit()]: flush the unit of work in order, then commit; a
    failure of either rolls back and re-raises. *)
Definition commit (cs : list change) : st Db (list Z) :=
  λ db0, match flush cs db0 with
         | (db1, Ok ids) =>
             if commit_ok db1 then (emit CommitTx db1, Ok ids)
             else (rollback db0 (emit CommitTx db1), Raise commit_error)
         | (db1, Raise e) => (rollback db0 db1, Raise e)
         end.

(** [db.refresh(obj)]: reload the row by primary key. *)
Definition refresh (id : Z) : st Db StudyLog :=
  λ db, match head (filter (λ r, log_id r = id) (rows db)) with
        | Some r => (emit (SelectById id) db, Ok r)
        | None => (emit (SelectById id) db, Raise (SQLAlchemyError "Could not refresh instance"))
        end.

(** ** The session's commit *)

(** The schema fields are never changed by a statement. *)
Definition same_schema (db db' : Db) : Prop :=
  schema_unique db' = schema_unique db ∧ commit_ok db' = commit_ok db ∧ int_bits db' = int_bits db.

Lemma same_schema_refl db : same_schema db db.
Proof. by repeat split. Qed.

Lemma same_schema_trans db1 db2 db3 : same_schema db1 db2 → same_schema db2 db3 → same_schema db1 db3.
Proof. unfold same_schema. intros (? & ? & ?) (? & ? & ?). repeat split; congruence. Qed.

Lemma flush_change_schema c db : same_schema db (flush_change c db).1.
Proof. destruct c as [id m|u d m]; simpl; repeat case_match; by repeat split. Qed.

Lemma flush_schema cs db : same_schema db (flush cs db).1.
Proof.
  revert db. induction cs as [|c cs IH]; intros db; [apply same_schema_refl|]. cbn [flush].
  rewrite st_bind_run. pose proof (flush_change_schema c db) as H1.
  destruct (flush_change c db) as [db1 [id|e]]; [|done].
  rewrite st_bind_run. pose proof (IH db1) as H2.
  destruct (flush cs db1) as [db2 [ids|e]]; eapply same_schema_trans; eauto.
Qed.

Lemma commit_schema cs db : same_schema db (commit cs db).1.
Proof.
  unfold commit. pose proof (flush_schema cs db) as (H1 & H2 & H3).
  destruct (flush cs db) as [db1 [ids|e]]; [destruct (commit_ok db1)|];
    repeat split; simpl in *; done.
Qed.

Lemma fits_emit s db v : fits (emit s db) v = fits db v.
Proof. reflexivity. Qed.

Lemma fits_spec db v : fits db v = true ↔ - 2 ^ (int_bits db - 1) <= v < 2 ^ (int_bits db - 1).
Proof. unfold fits. rewrite andb_true_iff, Z.leb_le, Z.ltb_lt. done. Qed.

Lemma fits_same_schema db db' v : same_schema db db' → fits db' v = fits db v.
Proof. intros (_ & _ & Hb). unfold fits. by rewrite Hb. Qed.

Lemma commit_dirty id m db :
  commit_ok db = true → fits db m = true →
  commit [Dirty id m] db = (emit CommitTx (emit (Update id) (db_set_minutes id m db)), Ok [id]).
Proof.
  intros H Hf. unfold commit. cbn [flush]. rewrite st_bind_run. unfold flush_change at 1.
  rewrite Hf. simpl. by rewrite H.
Qed.

Lemma commit_pending u d m db :
  commit_ok db = true → fits db m = true → violates u d db = false →
  commit [Pending u d m] db
  = (emit CommitTx (emit (Insert (next_id db)) (db_insert u d m db)), Ok [next_id db]).
Proof.
  intros H Hf Hv. unfold commit. cbn [flush]. rewrite st_bind_run. unfold flush_change at 1.
  rewrite Hf, Hv. simpl. by rewrite H.
Qed.

(** A refused [COMMIT] after the [UPDATE]: rolled back. *)
Lemma commit_dirty_refused id m db :
  commit_ok db = false → fits db m = true →
  commit [Dirty id m] db
  = (rollback db (emit CommitTx (emit (Update id) (db_set_minutes id m db))), Raise commit_error).
Proof.
  intros H Hf. unfold commit. cbn [flush]. rewrite st_bind_run. unfold flush_change at 1.
  rewrite Hf. simpl. by rewrite H.
Qed.

(** A refused [COMMIT] after the [INSERT]: rolled back. *)
Lemma commit_pending_refused u d m db :
  commit_ok db = false → fits db m = true → violates u d db = false →
  commit [Pending u d m] db
  = (rollback db (emit CommitTx (emit (Insert (next_id db)) (db_insert u d m db))), Raise commit_error).
Proof.
  intros H Hf Hv. unfold commit. cbn [flush]. rewrite st_bind_run. unfold flush_change at 1.
  rewrite Hf, Hv. simpl. by rewrite H.
Qed.

(** A value the column cannot hold: nothing is written, the
    transaction is rolled back. *)
Lemma commit_range_dirty id m db :
  fits db m = false → commit [Dirty id m] db = (rollback db db, Raise range_error).
Proof. intros Hf. unfold commit. cbn [flush]. rewrite st_bind_run. unfold flush_change at 1. by rewrite Hf. Qed.

Lemma commit_range_pending u d m db :
  fits db m = false → commit [Pending u d m] db = (rollback db db, Raise range_error).
Proof. intros Hf. unfold commit. cbn [flush]. rewrite st_bind_run. unfold flush_change at 1. by rewrite Hf. Qed.

(** An [INSERT] of an existing key under the constraint: the flush
    fails, the transaction is rolled back. *)
Lemma commit_violation u d m db :
  fits db m = true → violates u d db = true →
  commit [Pending u d m] db
  = (rollback db (emit (Insert (next_id db))
                    (mkDb (rows db) (next_id db + 1) (sql_log db) (schema_unique db) (commit_ok db) (int_bits db))),
     Raise integrity_error).
Proof. intros Hf Hv. unfold commit. cbn [flush]. rewrite st_bind_run. unfold flush_change at 1. by rewrite Hf, Hv. Qed.

Lemma head_filter_key_None u d rs : head (filter (is_key u d) rs) = None → (u, d) ∉ key <$> rs.
Proof.
  intros H (r & Hk & Hr)%list_elem_of_fmap.
  assert (Hf : r ∈ filter (is_key u d) rs)
    by (apply list_elem_of_filter; split; [unfold key in Hk; by injection Hk as -> -> | done]).
  destruct (filter (is_key u d) rs); [set_solver | discriminate].
Qed.

Lemma violates_absent u d db : (u, d) ∉ key <$> rows db → violates u d db = false.
Proof. intros Hn. unfold violates. rewrite bool_decide_eq_false_2 by done. apply andb_false_r. Qed.

Lemma violates_false_unique u d db :
  schema_unique db = true → violates u d db = false → (u, d) ∉ key <$> rows db.
Proof. unfold violates. intros -> Hv. simpl in Hv. by apply bool_decide_eq_false in Hv. Qed.

(** A flush raises nothing but the constraint's [IntegrityError] or the
    column's range error. *)
Lemma flush_raises cs db e : (flush cs db).2 = Raise e → e = integrity_error ∨ e = range_error.
Proof.
  revert db. induction cs as [|c cs IH]; intros db; [discriminate|]. cbn [flush].
  rewrite st_bind_run. destruct (flush_change c db) as [db1 [id|e1]] eqn:E.
  - rewrite st_bind_run. specialize (IH db1).
    destruct (flush cs db1) as [db2 [ids|e2]]; simpl; [discriminate|]. by intros [= <-]; apply IH.
  - simpl. intros [= <-]. destruct c as [id m|u d m]; simpl in E; repeat case_match;
      simplify_eq; auto.
Qed.

(** A database that refuses commits: [db.commit()] raises, with status
    500, and the rows are those before it. *)
Lemma commit_refused cs db :
  commit_ok db = false →
  ∃ db' e, commit cs db = (db', Raise e) ∧ rows db' = rows db ∧ status_of e = 500.
Proof.
  intros H. unfold commit. pose proof (flush_schema cs db) as (H1 & H2 & H3).
  pose proof (flush_raises cs db) as Hr.
  destruct (flush cs db) as [db1 [ids|e]]; simpl in *.
  - rewrite H2, H. by eexists _, _.
  - destruct (Hr e eq_refl) as [-> | ->]; by eexists _, _.
Qed.

(** ** The table invariant *)

(** At most one row per (user, date), distinct primary keys below the
    next one, and valid dates. *)
Record db_inv (db : Db) : Prop := {
  inv_keys : NoDup (key <$> rows db);
  inv_ids : NoDup (log_id <$> rows db);
  inv_fresh : Forall (λ r, log_id r < next_id db) (rows db);
  inv_dates : Forall (λ r, valid_date (log_date r) = true) (rows db)
}.

(** The abstract store the spec describes: minutes per user and day. *)
Definition stored_minutes (db : Db) (u : string) (d : date) : Z :=
  match head (filter (is_key u d) (rows db)) with
  | Some r => minutes r
  | None => 0
  end.

(** ** Lemmas *)

Lemma is_key_iff u d r : is_key u d r ↔ key r = (u, d).
Proof. unfold is_key, key. split; [intros [-> ->]; done | intros [= -> ->]; done]. Qed.

Lemma fmap_inj_elem {A B} (f : A → B) (l : list A) x y :
  NoDup (f <$> l) → x ∈ l → y ∈ l → f x = f y → x = y.
Proof.
  induction l as [|z l IH]; intros Hnd Hx Hy E; [set_solver|].
  rewrite fmap_cons in Hnd. apply NoDup_cons in Hnd as [Hz Hnd].
  apply elem_of_cons in Hx as [->|Hx], Hy as [->|Hy]; [done| | |by apply IH].
  - exfalso. apply Hz. rewrite E. by apply list_elem_of_fmap_2.
  - exfalso. apply Hz. rewrite <- E. by apply list_elem_of_fmap_2.
Qed.

Lemma filter_key_unique (rs : list StudyLog) r u d :
  NoDup (key <$> rs) → r ∈ rs → key r = (u, d) → filter (is_key u d) rs = [r].
Proof.
  induction rs as [|r' rs IH]; intros Hnd Hr Hk; [set_solver|].
  rewrite fmap_cons in Hnd. apply NoDup_cons in Hnd as [Hr' Hnd].
  rewrite filter_cons. apply elem_of_cons in Hr as [<-|Hr].
  - rewrite decide_True by (by apply is_key_iff). f_equal.
    apply filter_all_false. intros x Hx Hkx%is_key_iff. apply Hr'.
    rewrite Hk, <- Hkx. by apply list_elem_of_fmap_2.
  - rewrite decide_False; [by apply IH|]. intros Hk'%is_key_iff. apply Hr'.
    rewrite Hk', <- Hk. by apply list_elem_of_fmap_2.
Qed.

Lemma filter_key_none (rs : list StudyLog) u d :
  (u, d) ∉ key <$> rs → filter (is_key u d) rs = [].
Proof.
  intros Hn. apply filter_all_false. intros x Hx Hk%is_key_iff. apply Hn.
  rewrite <- Hk. by apply list_elem_of_fmap_2.
Qed.

Lemma key_set_minutes id m r : key (set_minutes id m r) = key r.
Proof. unfold set_minutes. by case_decide. Qed.

Lemma log_id_set_minutes id m r : log_id (set_minutes id m r) = log_id r.
Proof. unfold set_minutes. by case_decide. Qed.

Lemma filter_set_minutes u d id m (rs : list StudyLog) :
  filter (is_key u d) (set_minutes id m <$> rs) = set_minutes id m <$> filter (is_key u d) rs.
Proof.
  induction rs as [|r rs IH]; [done|]. rewrite fmap_cons, !filter_cons.
  destruct (decide (is_key u d r)) as [Hk|Hk].
  - rewrite decide_True; [by rewrite IH|].
    apply is_key_iff. rewrite key_set_minutes. by apply is_key_iff.
  - rewrite decide_False; [by rewrite IH|].
    intros Hk'%is_key_iff. rewrite key_set_minutes in Hk'. by apply Hk, is_key_iff.
Qed.

Lemma stored_minutes_emit s db u d : stored_minutes (emit s db) u d = stored_minutes db u d.
Proof. reflexivity. Qed.

Lemma db_inv_emit s db : db_inv (emit s db) ↔ db_inv db.
Proof. split; intros []; constructor; assumption. Qed.

Lemma db_inv_emit_2 s db : db_inv db → db_inv (emit s db).
Proof. by rewrite db_inv_emit. Qed.

Lemma stored_minutes_row db r :
  db_inv db → r ∈ rows db → stored_minutes db (user_id r) (log_date r) = minutes r.
Proof.
  intros Hinv Hr. unfold stored_minutes.
  by rewrite (filter_key_unique _ r) by (done || apply (inv_keys _ Hinv)).
Qed.

Lemma stored_minutes_absent db u d :
  (u, d) ∉ key <$> rows db → stored_minutes db u d = 0.
Proof. intros Hn. unfold stored_minutes. by rewrite filter_key_none. Qed.

(** An [UPDATE] of the row [r] changes the minutes of its key only. *)
Lemma stored_set_minutes db r m u d :
  db_inv db → r ∈ rows db →
  stored_minutes (db_set_minutes (log_id r) m db) u d =
  if decide (key r = (u, d)) then m else stored_minutes db u d.
Proof.
  intros Hinv Hr. unfold stored_minutes, db_set_minutes; simpl.
  rewrite filter_set_minutes. case_decide as Hk.
  - rewrite (filter_key_unique _ r) by (done || apply (inv_keys _ Hinv)). simpl.
    unfold set_minutes. by rewrite decide_True.
  - destruct (filter (is_key u d) (rows db)) as [|r' l] eqn:E; [done|]. simpl.
    assert (Hr' : is_key u d r' ∧ r' ∈ rows db).
    { apply (list_elem_of_filter (is_key u d)). rewrite E. left. }
    destruct Hr' as [Hk'%is_key_iff Hr']. unfold set_minutes. rewrite decide_False; [done|].
    intros Hid. apply Hk. rewrite <- Hk'. f_equal.
    symmetry. eapply (fmap_inj_elem log_id); [apply (inv_ids _ Hinv) | done..].
Qed.

(** An [INSERT] of a new key sets the minutes of that key only. *)
Lemma stored_insert db u' d' m u d :
  (u', d') ∉ key <$> rows db →
  stored_minutes (db_insert u' d' m db) u d =
  if decide ((u', d') = (u, d)) then m else stored_minutes db u d.
Proof.
  intros Hn. unfold stored_minutes, db_insert; simpl. rewrite filter_app, filter_cons, filter_nil.
  destruct (decide ((u', d') = (u, d))) as [E|E].
  - injection E as <- <-. rewrite filter_key_none, decide_True by done. done.
  - rewrite decide_False by (intros [Hu Hd]; simpl in *; subst; done).
    by rewrite app_nil_r.
Qed.

Lemma db_inv_set_minutes db id m : db_inv db → db_inv (db_set_minutes id m db).
Proof.
  intros [Hk Hi Hf Hd]. unfold db_set_minutes. constructor; simpl.
  - rewrite <- list_fmap_compose. erewrite list_fmap_ext; [exact Hk|]. intros ? ? ?. apply key_set_minutes.
  - rewrite <- list_fmap_compose. erewrite list_fmap_ext; [exact Hi|]. intros ? ? ?. apply log_id_set_minutes.
  - apply Forall_fmap. eapply Forall_impl; [exact Hf|]. intros r. simpl. by rewrite log_id_set_minutes.
  - apply Forall_fmap. eapply Forall_impl; [exact Hd|]. intros r. simpl. unfold set_minutes. by case_decide.
Qed.

Lemma db_inv_insert db u d m :
  db_inv db → (u, d) ∉ key <$> rows db → valid_date d = true → db_inv (db_insert u d m db).
Proof.
  intros [Hk Hi Hf Hd] Hn Hv. unfold db_insert. constructor; simpl.
  - rewrite fmap_app. apply NoDup_app. split; [done|]. split; [|apply NoDup_singleton].
    intros x Hx ->%list_elem_of_singleton. by apply Hn.
  - rewrite fmap_app. apply NoDup_app. split; [done|]. split; [|apply NoDup_singleton].
    intros x Hx ->%list_elem_of_singleton. apply list_elem_of_fmap in Hx as (r & Hr & Hin).
    rewrite Forall_forall in Hf. specialize (Hf r Hin). simpl in Hr. lia.
  - apply Forall_app. split; [|constructor; [simpl; lia|constructor]].
    eapply Forall_impl; [exact Hf|]. intros r; simpl; lia.
  - apply Forall_app. split; [done|]. by constructor.
Qed.

Lemma filter_proj_unique {K} (f : StudyLog → K) (rs : list StudyLog) r
    `{∀ x, Decision (f x = f r)} :
  NoDup (f <$> rs) → r ∈ rs → filter (λ x, f x = f r) rs = [r].
Proof.
  induction rs as [|r' rs IH]; intros Hnd Hr; [set_solver|].
  rewrite fmap_cons in Hnd. apply NoDup_cons in Hnd as [Hr' Hnd].
  rewrite filter_cons. apply elem_of_cons in Hr as [<-|Hr].
  - rewrite decide_True by done. f_equal. apply filter_all_false.
    intros x Hx Ef. apply Hr'. rewrite <- Ef. by apply list_elem_of_fmap_2.
  - rewrite decide_False; [by apply IH|]. intros Ef. apply Hr'. rewrite Ef.
    by apply list_elem_of_fmap_2.
Qed.

(** [db.refresh] of a stored row reads that row. *)
Lemma refresh_row db r :
  NoDup (log_id <$> rows db) → r ∈ rows db →
  refresh (log_id r) db = (emit (SelectById (log_id r)) db, Ok r).
Proof. intros Hnd Hr. unfold refresh. by rewrite (filter_proj_unique log_id _ r). Qed.

Lemma query_first_row db u d r :
  db_inv db → r ∈ rows db → key r = (u, d) →
  query_first u d db = (emit (SelectFirst u d) db, Ok (Some r)).
Proof.
  intros Hinv Hr Hk. unfold query_first.
  by rewrite (filter_key_unique _ r) by (done || apply (inv_keys _ Hinv)).
Qed.

Lemma query_first_none db u d :
  (u, d) ∉ key <$> rows db → query_first u d db = (emit (SelectFirst u d) db, Ok None).
Proof. intros Hn. unfold query_first. by rewrite filter_key_none. Qed.

Lemma row_of_key db u d :
  {r | r ∈ rows db ∧ key r = (u, d)} + {(u, d) ∉ key <$> rows db}.
Proof.
  destruct (decide ((u, d) ∈ key <$> rows db)) as [Hin|Hn]; [left|by right].
  apply list_elem_of_fmap in Hin. destruct (list_find (λ r, key r = (u, d)) (rows db))
    as [[i r]|] eqn:E.
  - apply list_find_Some in E as (Hi & Hk & _). exists r. split; [|done].
    by apply list_elem_of_lookup_2 with i.
  - exfalso. apply list_find_None in E. destruct Hin as (r & Hk & Hr).
    rewrite Forall_forall in E. by apply (E r).
Qed.

Lemma set_minutes_self id m r : log_id r = id → set_minutes id m r = mkLog (log_id r) (user_id r) (log_date r) m.
Proof. intros <-. unfold set_minutes. by rewrite decide_True. Qed.

Lemma set_minutes_elem db r m :
  r ∈ rows db → set_minutes (log_id r) m r ∈ rows (db_set_minutes (log_id r) m db).
Proof. intros Hr. unfold db_set_minutes; simpl. by apply list_elem_of_fmap_2. Qed.

Lemma inserted_elem db u d m :
  mkLog (next_id db) u d m ∈ rows (db_insert u d m db).
Proof. unfold db_insert; simpl. apply elem_of_app. right. by left. Qed.

Lemma keys_set_minutes id m db : key <$> rows (db_set_minutes id m db) = key <$> rows db.
Proof.
  unfold db_set_minutes; simpl. rewrite <- list_fmap_compose.
  apply list_fmap_ext. intros i x _. apply key_set_minutes.
Qed.

#[export] Hint Resolve db_inv_emit_2 db_inv_set_minutes : pydb.

End Store.
