(* ===== verification/StudyRouter.v ===== *)
(** * StudyRouter: the two handlers of [src/routers/study_router.py]

    [add_study_time] (POST /api/study_logs) and
    [get_study_logs_for_week] (GET /api/study_logs), as state-passing
    programs over the database of [Store] that may raise.  The server's
    clock [date.today()] is an input [today]; the bearer credential is
    the string FastAPI's [HTTPBearer] extracted; the verifier is the
    [TokenVerifier] interface of [Auth].  [add_study_time] is written as
    the composition of its three database phases (select, commit,
    refresh) so that [Concurrency] can interleave them. *)

From S2P Require Import Prelude PyDate DateText Auth Store.
From stdpp Require Import gmap.
Import PyDate DateText Auth Store.

Open Scope Z_scope.
Open Scope py_scope.

Module StudyRouter.

Record AddResponse := mkAddResponse {
  add_message : string; add_date : string; add_minutes : Z }.

Record WeekResponse := mkWeekResponse {
  week_start : string; logs : list (string * Z); total_minutes : Z }.

(** [d[k] = v] on a Python dict as the list of its items in insertion
    order: an existing key keeps its place. *)
Fixpoint dict_set (k : string) (v : Z) (d : list (string * Z)) : list (string * Z) :=
  match d with
  | [] => [(k, v)]
  | (k', v') :: d' => if decide (k' = k) then (k, v) :: d' else (k', v') :: dict_set k v d'
  end.

(** [if week_start:]: [None] and the empty string are false. *)
Definition truthy (ws : option string) : option string :=
  match ws with
  | Some s => if decide (s = ""%string) then None else Some s
  | None => None
  end.

Section Handlers.
Context `{V : TokenVerifier}.

(** Lines 24-30: authenticate, then [db.query(...).first()] for
    today's row of the user. *)
Definition add_select (today : date) (token : string) : st Db (string * option StudyLog) :=
  user_id ← st_lift (authenticate token);
  log ← query_first user_id today;
  mret (user_id, log).

(** Lines 32-38: add to the loaded row, or [db.add] a new one; then
    [db.commit()].  Returns the primary key of the object. *)
Definition add_commit (today : date) (req_minutes : Z) (sel : string * option StudyLog) : st Db Z :=
  let '(user_id, log) := sel in
  let c := match log with
           | Some l => Dirty (log_id l) (minutes l + req_minutes)
           | None => Pending user_id today req_minutes
           end in
  ids ← commit [c];
  mret (default 0 (head ids)).

(** Lines 39-40: [db.refresh(log)] and the response. *)
Definition add_refresh (today : date) (id : Z) : st Db AddResponse :=
  log ← refresh id;
  mret (mkAddResponse "Study time added" (isoformat today) (minutes log)).

(** [add_study_time] *)
Definition add_study_time (today : date) (token : string) (req_minutes : Z) : st Db AddResponse :=
  sel ← add_select today token;
  id ← add_commit today req_minutes sel;
  add_refresh today id.

(** Lines 54-62: the first day of the window, parsed from
    [week_start] (a [ValueError] becomes a 400) or six days before
    today. *)
Definition resolve_start (today : date) (ws : option string) : result date :=
  match truthy ws with
  | Some s =>
      match strptime_date s week_start_format with
      | Ok d => mret d
      | Raise (ValueError _) =>
          raise (HTTPException 400 "Invalid week_start format. Use YYYY-MM-DD.")
      | Raise e => Raise e
      end
  | None => sub_days today 6
  end.

(** Lines 73-76: [for i in range(7): d = start_date + timedelta(days=i);
    result[str(d)] = 0]. *)
Fixpoint zero_fill (start : date) (offsets : list Z) (res : list (string * Z)) :
    result (list (string * Z)) :=
  match offsets with
  | [] => mret res
  | i :: offsets' => d ← add_days start i; zero_fill start offsets' (dict_set (isoformat d) 0 res)
  end.

(** Lines 78-79: [for l in logs: result[str(l.date)] = l.minutes]. *)
Definition overwrite_logs (logs : list StudyLog) (res : list (string * Z)) : list (string * Z) :=
  foldl (λ r l, dict_set (isoformat (log_date l)) (minutes l) r) res logs.

(** [get_study_logs_for_week] *)
Definition get_study_logs_for_week (today : date) (token : string) (ws : option string) :
    st Db WeekResponse :=
  user_id ← st_lift (authenticate token);
  start_date ← st_lift (resolve_start today ws);
  end_date ← st_lift (add_days start_date 6);
  logs ← query_range user_id start_date end_date;
  res ← st_lift (zero_fill start_date (py_range 7) []);
  let res := overwrite_logs logs res in
  mret (mkWeekResponse (isoformat start_date) res (py_sum (snd <$> res))).

End Handlers.

(** ** Abstract specifications *)

(** What the spec promises of one call: the user's minutes for the day
    grow by [m]; every other (user, day) is unchanged. *)
Definition spec_record (A : string → date → Z) (u : string) (d : date) (m : Z) :
    string → date → Z :=
  λ u' d', if decide ((u, d) = (u', d')) then A u d + m else A u' d'.

(** The seven days [start + timedelta(days=i)], [i] in [range(7)]. *)
Definition window (start : date) : list date :=
  omap (λ i, ok_value (add_days start i)) (py_range 7).

(** What the spec promises: one entry per day of the window, in order,
    with the stored minutes of that day. *)
Definition spec_week (A : string → date → Z) (u : string) (start : date) : list (string * Z) :=
  (λ d, (isoformat d, A u d)) <$> window start.

(** What the weekly view shows for a day on a table that may hold
    several rows of one (user, day): the minutes of the last such row in
    storage order (each overwrites the dict entry), or 0.  With one row
    per key it is [stored_minutes] ([shown_stored]). *)
Definition shown_minutes (db : Db) (u : string) (d : date) : Z :=
  match last (filter (is_key u d) (rows db)) with
  | Some r => minutes r
  | None => 0
  end.

(** [result[str(l.date)] = l.minutes] over the logs, on a dict whose
    keys are the days of the window. *)
Definition upd_minutes (g : date → Z) (l : StudyLog) : date → Z :=
  λ d, if decide (isoformat d = isoformat (log_date l)) then minutes l else g d.

(** ** Concrete instances *)

(** A verifier that knows two tokens: one for user "alice", one whose
    claims have no subject. *)
Definition demo_verifier : TokenVerifier :=
  table_verifier (<["tok-alice" := [("sub"%string, Some "alice"%string)]]>
                  (<["tok-nosub" := [("name"%string, Some "x"%string)]]> ∅)).

(** An empty table without the constraint, on a database that accepts commits. *)
Definition empty_db : Db := mkDb [] 1 [] false true 64.

Definition day_2024_03_12 : date := mkdate 2024 3 12.

(** A table with rows of "alice" inside and after the week, and a row
    of another user inside it. *)
Definition sample_db : Db :=
  mkDb [mkLog 1 "alice" (mkdate 2024 3 11) 40; mkLog 2 "bob" (mkdate 2024 3 12) 99;
        mkLog 3 "alice" (mkdate 2024 3 17) 5; mkLog 4 "alice" (mkdate 2024 3 16) 20] 5 [] false true 64.

(** Two rows for alice on 2024-03-12, as the race leaves them. *)
Definition dup_db : Db :=
  mkDb [mkLog 1 "alice" day_2024_03_12 30; mkLog 2 "alice" day_2024_03_12 15] 3 [] false true 64.


(** ** Error paths: authentication first, validation before the database *)

Section ErrorPaths.
Context `{V : TokenVerifier}.

(** C14: an add request whose credential fails the gate is answered
    with status 401 and sends no statement to the database. *)
Theorem add_study_time_unauthorized today token m db e :
  authenticate token = Raise e →
  add_study_time today token m db = (db, Raise e) ∧ status_of e = 401.
Proof.
  intros H. split; [|by eapply authenticate_401].
  unfold add_study_time, add_select. rewrite !st_bind_run, H. reflexivity.
Qed.

(** C15: a weekly request whose credential fails the gate is answered
    with status 401 and sends no statement to the database. *)
Theorem weekly_unauthorized today token ws db e :
  authenticate token = Raise e →
  get_study_logs_for_week today token ws db = (db, Raise e) ∧ status_of e = 401.
Proof.
  intros H. split; [|by eapply authenticate_401].
  unfold get_study_logs_for_week. rewrite H. reflexivity.
Qed.

(** C16: an authenticated weekly request whose [week_start] is a
    non-empty string [strptime] rejects is answered with status 400,
    before any database statement. *)
Theorem weekly_bad_request today token ws s u db e :
  authenticate token = Ok u → truthy ws = Some s →
  strptime_date s week_start_format = Raise e →
  get_study_logs_for_week today token ws db
  = (db, Raise (HTTPException 400 "Invalid week_start format. Use YYYY-MM-DD.")).
Proof.
  intros Ha Ht Hp. destruct (strptime_only_ValueError _ _ _ Hp) as [msg ->].
  unfold get_study_logs_for_week. rewrite Ha, st_lift_Ok.
  unfold resolve_start. rewrite Ht, Hp. reflexivity.
Qed.

(** C17: a [week_start] that parses to one of the last six days of the
    calendar makes [start_date + timedelta(days=6)] overflow: the
    request fails with [OverflowError] (status 500, not 400), before
    any database statement. *)
Theorem weekly_end_overflow today token ws s d u db :
  authenticate token = Ok u → truthy ws = Some s →
  strptime_date s week_start_format = Ok d → _MAXORDINAL < toordinal d + 6 →
  get_study_logs_for_week today token ws db = (db, Raise (OverflowError "result out of range")) ∧
  status_of (OverflowError "result out of range") = 500.
Proof.
  intros Ha Ht Hp Ho. split; [|reflexivity].
  unfold get_study_logs_for_week. rewrite Ha, st_lift_Ok.
  unfold resolve_start. rewrite Ht, Hp, st_lift_Ok.
  rewrite add_days_out_of_range by lia. reflexivity.
Qed.
End ErrorPaths.

(** ** RecordStudyTime: the abstract operation and the refinement *)

Section AddSpec.
Context `{V : TokenVerifier}.

Lemma add_select_run today token u db :
  authenticate token = Ok u →
  add_select today token db
  = (emit (SelectFirst u today) db, Ok (u, head (filter (is_key u today) (rows db)))).
Proof. intros Ha. unfold add_select. rewrite st_bind_run, Ha. reflexivity. Qed.

Lemma add_commit_dirty_run today m u l db :
  commit_ok db = true → fits db (minutes l + m) = true →
  add_commit today m (u, Some l) db
  = (emit CommitTx (emit (Update (log_id l)) (db_set_minutes (log_id l) (minutes l + m) db)),
     Ok (log_id l)).
Proof. intros H Hf. unfold add_commit. cbn -[commit]. by rewrite st_bind_run, commit_dirty. Qed.

Lemma add_commit_new_run today m u db :
  commit_ok db = true → fits db m = true → violates u today db = false →
  add_commit today m (u, None) db
  = (emit CommitTx (emit (Insert (next_id db)) (db_insert u today m db)), Ok (next_id db)).
Proof. intros H Hf Hv. unfold add_commit. cbn -[commit]. by rewrite st_bind_run, commit_pending. Qed.

Lemma add_commit_dirty_refused today m u l db :
  commit_ok db = false → fits db (minutes l + m) = true →
  add_commit today m (u, Some l) db
  = (rollback db (emit CommitTx (emit (Update (log_id l))
                                   (db_set_minutes (log_id l) (minutes l + m) db))),
     Raise commit_error).
Proof. intros H Hf. unfold add_commit. cbn -[commit]. by rewrite st_bind_run, commit_dirty_refused. Qed.

Lemma add_commit_new_refused today m u db :
  commit_ok db = false → fits db m = true → violates u today db = false →
  add_commit today m (u, None) db
  = (rollback db (emit CommitTx (emit (Insert (next_id db)) (db_insert u today m db))),
     Raise commit_error).
Proof. intros H Hf Hv. unfold add_commit. cbn -[commit]. by rewrite st_bind_run, commit_pending_refused. Qed.

Lemma add_commit_violation today m u db :
  fits db m = true → violates u today db = true →
  add_commit today m (u, None) db
  = (rollback db (emit (Insert (next_id db))
                    (mkDb (rows db) (next_id db + 1) (sql_log db) (schema_unique db) (commit_ok db) (int_bits db))),
     Raise integrity_error).
Proof. intros Hf Hv. unfold add_commit. cbn -[commit]. by rewrite st_bind_run, commit_violation. Qed.

(** The value written: the loaded row's minutes plus the request's, or
    the request's on a new row. *)
Lemma add_commit_range today m u o db :
  fits db (match o with Some l => minutes l + m | None => m end) = false →
  add_commit today m (u, o) db = (rollback db db, Raise range_error).
Proof.
  intros Hf. unfold add_commit. destruct o; cbn -[commit];
    by rewrite st_bind_run, ?commit_range_dirty, ?commit_range_pending.
Qed.

(** Every outcome of the commit phase: the update, the insert, or a
    rolled-back failure that leaves the rows as they were. *)
Lemma add_commit_cases today m u o db :
  let p := add_commit today m (u, o) db in
  (∃ l, o = Some l ∧ commit_ok db = true ∧ fits db (minutes l + m) = true ∧ p.2 = Ok (log_id l) ∧
        p.1 = emit CommitTx (emit (Update (log_id l)) (db_set_minutes (log_id l) (minutes l + m) db))) ∨
  (o = None ∧ commit_ok db = true ∧ fits db m = true ∧ violates u today db = false ∧
   p.2 = Ok (next_id db) ∧ p.1 = emit CommitTx (emit (Insert (next_id db)) (db_insert u today m db))) ∨
  (rows p.1 = rows db ∧ (next_id db <= next_id p.1)%Z ∧
   ((commit_ok db = false ∧ p.2 = Raise commit_error) ∨
    (violates u today db = true ∧ p.2 = Raise integrity_error) ∨ p.2 = Raise range_error)).
Proof.
  destruct (fits db (match o with Some l => minutes l + m | None => m end)) eqn:Hf.
  2: { right; right. rewrite add_commit_range by done. simpl. split; [done|]. split; [lia|]. by right; right. }
  destruct o as [l|].
  - destruct (commit_ok db) eqn:Hok.
    + left. exists l. by rewrite add_commit_dirty_run.
    + right; right. rewrite add_commit_dirty_refused by done. simpl. split; [done|]. split; [lia|]. by left.
  - destruct (violates u today db) eqn:Hv.
    + right; right. rewrite add_commit_violation by done. simpl. split; [done|]. split; [lia|]. by right; left.
    + destruct (commit_ok db) eqn:Hok.
      * right; left. by rewrite add_commit_new_run.
      * right; right. rewrite add_commit_new_refused by done. simpl. split; [done|]. split; [lia|]. by left.
Qed.

Lemma add_refresh_row today db r :
  NoDup (log_id <$> rows db) → r ∈ rows db →
  add_refresh today (log_id r) db
  = (emit (SelectById (log_id r)) db, Ok (mkAddResponse "Study time added" (isoformat today) (minutes r))).
Proof. intros Hnd Hr. unfold add_refresh. rewrite st_bind_run, refresh_row by done. reflexivity. Qed.

Lemma add_study_time_run today token m db :
  add_study_time today token m db =
  match add_select today token db with
  | (db1, Ok sel) =>
      match add_commit today m sel db1 with
      | (db2, Ok id) => add_refresh today id db2
      | (db2, Raise e) => (db2, Raise e)
      end
  | (db1, Raise e) => (db1, Raise e)
  end.
Proof.
  unfold add_study_time. rewrite st_bind_run.
  destruct (add_select today token db) as [db1 [sel|e]]; [|done].
  rewrite st_bind_run. by destruct (add_commit today m sel db1) as [db2 [id|e]].
Qed.

Lemma add_select_schema today token db : same_schema db (add_select today token db).1.
Proof. unfold add_select. rewrite st_bind_run. by destruct (authenticate token). Qed.

Lemma add_commit_schema today m sel db : same_schema db (add_commit today m sel db).1.
Proof.
  destruct sel as [u l]. unfold add_commit. cbn -[commit]. rewrite st_bind_run.
  match goal with |- context [commit ?cs db] => pose proof (commit_schema cs db) as Hs;
    destruct (commit cs db) as [db' [ids|e]] end; done.
Qed.

Lemma add_refresh_schema today id db : same_schema db (add_refresh today id db).1.
Proof. unfold add_refresh, refresh. rewrite st_bind_run. by destruct (head _). Qed.

Lemma add_select_rows today token db : rows (add_select today token db).1 = rows db.
Proof. unfold add_select. rewrite st_bind_run. by destruct (authenticate token). Qed.

Lemma add_refresh_rows today id db : rows (add_refresh today id db).1 = rows db.
Proof. unfold add_refresh, refresh. rewrite st_bind_run. by destruct (head _). Qed.

(** The handler never changes the schema fields. *)
Lemma add_study_time_schema today token m db : same_schema db (add_study_time today token m db).1.
Proof.
  rewrite add_study_time_run. pose proof (add_select_schema today token db) as H1.
  destruct (add_select today token db) as [db1 [sel|e]]; [|done].
  pose proof (add_commit_schema today m sel db1) as H2.
  destruct (add_commit today m sel db1) as [db2 [id|e]]; [|by eapply same_schema_trans].
  pose proof (add_refresh_schema today id db2) as H3.
  eapply same_schema_trans; [exact H1|]. by eapply same_schema_trans.
Qed.

(** on a table with at most one row per (user, day), an
    authenticated [add_study_time] succeeds, answers the day's new
    total, keeps the table invariant, and changes the stored minutes
    exactly as the abstract operation [spec_record] says: the user's
    minutes for [today] grow by [m], nothing else changes. *)
Lemma add_study_time_step today token m u db :
  db_inv db → commit_ok db = true → fits db (stored_minutes db u today + m) = true →
  valid_date today = true → authenticate token = Ok u →
  ∃ db', add_study_time today token m db
         = (db', Ok (mkAddResponse "Study time added" (isoformat today)
                                   (stored_minutes db u today + m))) ∧
    db_inv db' ∧
    ∀ u' d', stored_minutes db' u' d' = spec_record (stored_minutes db) u today m u' d'.
Proof.
  intros Hinv Hok Hfit Hv Ha. rewrite add_study_time_run, (add_select_run today token u db Ha).
  unfold spec_record. destruct (row_of_key db u today) as [[r [Hr Hk]]|Hn].
  - assert (Hs : stored_minutes db u today = minutes r).
    { unfold key in Hk. injection Hk as <- <-. by apply stored_minutes_row. }
    rewrite (filter_key_unique (rows db) r u today) by (done || apply (inv_keys _ Hinv)).
    rewrite Hs in Hfit. cbn [head]. rewrite add_commit_dirty_run by (exact Hok || exact Hfit).
    set (db1 := db_set_minutes (log_id r) (minutes r + m) (emit (SelectFirst u today) db)).
    assert (Hinv1 : db_inv db1) by (subst db1; auto with pydb).
    assert (Hr1 : set_minutes (log_id r) (minutes r + m) r ∈ rows db1)
      by (apply set_minutes_elem; exact Hr).
    pose proof (add_refresh_row today (emit CommitTx (emit (Update (log_id r)) db1)) _
                  (inv_ids _ Hinv1) Hr1) as Hrf.
    rewrite log_id_set_minutes in Hrf. rewrite Hrf.
    eexists. split; [|split].
    + rewrite set_minutes_self by done. simpl. by rewrite Hs.
    + subst db1; auto with pydb.
    + intros u' d'. rewrite !stored_minutes_emit. subst db1.
      rewrite stored_set_minutes by (done || by apply db_inv_emit).
      rewrite Hk, Hs, stored_minutes_emit. done.
  - rewrite filter_key_none by done. cbn [head].
    rewrite stored_minutes_absent, Z.add_0_l in Hfit by done.
    rewrite add_commit_new_run by (exact Hok || exact Hfit || by apply violates_absent).
    set (db1 := db_insert u today m (emit (SelectFirst u today) db)).
    assert (Hinv1 : db_inv db1) by (apply db_inv_insert; [by apply db_inv_emit | done..]).
    set (id := next_id (emit (SelectFirst u today) db)).
    pose proof (add_refresh_row today (emit CommitTx (emit (Insert id) db1))
                  (mkLog id u today m) (inv_ids _ Hinv1) (inserted_elem _ _ _ _)) as Hrf.
    cbn [log_id] in Hrf. rewrite Hrf.
    eexists. split; [|split].
    + by rewrite stored_minutes_absent by done.
    + auto with pydb.
    + intros u' d'. rewrite !stored_minutes_emit. subst db1.
      rewrite stored_insert by done. rewrite (stored_minutes_absent db u today) by done.
      case_decide; [lia|done].
Qed.

(** A day total the column cannot hold: the commit is refused, nothing
    is written. *)
Lemma add_study_time_range today token m u db :
  authenticate token = Ok u → fits db (stored_minutes db u today + m) = false →
  ∃ db', add_study_time today token m db = (db', Raise range_error) ∧ rows db' = rows db.
Proof.
  intros Ha Hf. rewrite add_study_time_run, (add_select_run today token u db Ha).
  unfold stored_minutes in Hf.
  rewrite add_commit_range by (destruct (head _); exact Hf). by eexists.
Qed.

(** C1: on a table with at most one row per (user, day), an
    authenticated [add_study_time] succeeds, answers the day's new
    total, keeps the table invariant, and changes the stored minutes
    exactly as the abstract operation [spec_record] says: the user's
    minutes for [today] grow by [m], nothing else changes. *)
Theorem add_study_time_refines today token m u db :
  db_inv db → commit_ok db = true → fits db (stored_minutes db u today + m) = true →
  valid_date today = true → authenticate token = Ok u →
  ∃ db', add_study_time today token m db
         = (db', Ok (mkAddResponse "Study time added" (isoformat today)
                                   (stored_minutes db u today + m))) ∧
    db_inv db' ∧
    ∀ u' d', stored_minutes db' u' d' = spec_record (stored_minutes db) u today m u' d'.
Proof. apply add_study_time_step. Qed.
End AddSpec.


(** ** GetWeeklyLogs: the window and the response *)

Lemma dict_set_fresh k v (d : list (string * Z)) :
  k ∉ fst <$> d → dict_set k v d = d ++ [(k, v)].
Proof.
  induction d as [|[k' v'] d IH]; intros Hk; [done|]. simpl in *.
  rewrite decide_False by (intros ->; apply Hk; left).
  f_equal. apply IH. intros Hin. apply Hk. by right.
Qed.

(** Setting a key that is there replaces its value in place. *)
Lemma dict_set_map {D} (ks : list D) (key : D → string) (g : D → Z) x v :
  NoDup (key <$> ks) → x ∈ ks →
  dict_set (key x) v ((λ d, (key d, g d)) <$> ks)
  = (λ d, (key d, if decide (key d = key x) then v else g d)) <$> ks.
Proof.
  induction ks as [|y ks IH]; intros Hnd Hx; [set_solver|].
  rewrite fmap_cons in Hnd. apply NoDup_cons in Hnd as [Hy Hnd].
  rewrite !fmap_cons. cbn [dict_set]. destruct (decide (key y = key x)) as [E|E].
  - rewrite E. f_equal. apply list_fmap_ext. intros i z Hz.
    rewrite decide_False; [done|]. intros Ez. apply Hy. rewrite E, <- Ez.
    apply list_elem_of_fmap_2. by apply list_elem_of_lookup_2 with i.
  - f_equal. apply elem_of_cons in Hx as [->|Hx]; [done|]. by apply IH.
Qed.

Lemma py_range_7 : py_range 7 = [0; 1; 2; 3; 4; 5; 6].
Proof. reflexivity. Qed.

Section Window.
Context (start : date) (Hstart : valid_date start = true)
        (Hend : toordinal start + 6 <= _MAXORDINAL).

Lemma add_days_in_window i :
  0 <= i <= 6 → ∃ d, add_days start i = Ok d ∧ toordinal d = toordinal start + i ∧ valid_date d = true.
Proof. intros Hi. ord_bounds. apply add_days_in_range; [done|lia]. Qed.

Lemma elem_of_window d :
  d ∈ window start ↔ valid_date d = true ∧ toordinal start <= toordinal d <= toordinal start + 6.
Proof.
  unfold window. rewrite list_elem_of_omap. split.
  - intros (i & Hi & Hd). apply elem_of_py_range in Hi.
    destruct (add_days_in_window i ltac:(lia)) as (d' & E & Ho & Hv). rewrite E in Hd. injection Hd as <-.
    split; [done|lia].
  - intros [Hv Hr]. exists (toordinal d - toordinal start). split; [apply elem_of_py_range; lia|].
    destruct (add_days_in_window (toordinal d - toordinal start)) as (d' & E & Ho & Hv'); [lia|].
    rewrite E. simpl. f_equal. apply toordinal_inj; [done..|lia].
Qed.

Lemma window_NoDup : NoDup (isoformat <$> window start).
Proof.
  unfold window. rewrite py_range_7.
  destruct (add_days_in_window 0) as (d0 & E0 & O0 & V0); [lia|].
  destruct (add_days_in_window 1) as (d1 & E1 & O1 & V1); [lia|].
  destruct (add_days_in_window 2) as (d2 & E2 & O2 & V2); [lia|].
  destruct (add_days_in_window 3) as (d3 & E3 & O3 & V3); [lia|].
  destruct (add_days_in_window 4) as (d4 & E4 & O4 & V4); [lia|].
  destruct (add_days_in_window 5) as (d5 & E5 & O5 & V5); [lia|].
  destruct (add_days_in_window 6) as (d6 & E6 & O6 & V6); [lia|].
  cbn [omap list_omap]. rewrite E0, E1, E2, E3, E4, E5, E6. cbn [ok_value fmap list_fmap].
  repeat constructor; rewrite ?elem_of_cons, ?elem_of_nil;
    intros ?; repeat match goal with H : _ ∨ _ |- _ => destruct H end;
    try contradiction;
    match goal with H : isoformat _ = isoformat _ |- _ => apply isoformat_injective in H; [|done..] end;
    subst; lia.
Qed.
End Window.


Lemma zero_fill_fresh start os acc :
  (∀ i, i ∈ os → ∃ d, add_days start i = Ok d) →
  NoDup ((fst <$> acc) ++ (isoformat <$> omap (λ i, ok_value (add_days start i)) os)) →
  zero_fill start os acc
  = Ok (acc ++ ((λ d, (isoformat d, 0)) <$> omap (λ i, ok_value (add_days start i)) os)).
Proof.
  revert acc. induction os as [|i os IH]; intros acc Hok Hnd; simpl.
  - by rewrite app_nil_r.
  - destruct (Hok i (list_elem_of_here i os)) as [d Ed]. rewrite Ed. simpl. simpl in Hnd. rewrite Ed in Hnd.
    simpl in Hnd. rewrite dict_set_fresh.
    + rewrite IH.
      * by rewrite <- app_assoc.
      * intros j Hj. apply Hok. by apply list_elem_of_further.
      * by rewrite fmap_app, <- app_assoc.
    + intros Hin. apply NoDup_app in Hnd as (_ & Hdis & _). apply (Hdis _ Hin). left.
Qed.

Lemma zero_fill_window start :
  valid_date start = true → toordinal start + 6 <= _MAXORDINAL →
  zero_fill start (py_range 7) [] = Ok ((λ d, (isoformat d, 0)) <$> window start).
Proof.
  intros Hs He. rewrite zero_fill_fresh; [done| |by apply window_NoDup].
  intros i Hi%elem_of_py_range. destruct (add_days_in_window start Hs He i) as (d & E & _); [lia|eauto].
Qed.

Lemma overwrite_logs_map (days : list date) (g : date → Z) ls :
  NoDup (isoformat <$> days) → Forall (λ l, log_date l ∈ days) ls →
  overwrite_logs ls ((λ d, (isoformat d, g d)) <$> days)
  = (λ d, (isoformat d, foldl upd_minutes g ls d)) <$> days.
Proof.
  revert g. induction ls as [|l ls IH]; intros g Hnd Hls; [done|].
  apply Forall_cons in Hls as [Hl Hls]. unfold overwrite_logs. simpl.
  rewrite dict_set_map by done. apply IH; done.
Qed.



Lemma in_window_iff start e r :
  valid_date start = true → valid_date e = true → valid_date (log_date r) = true →
  in_window start e r = true ↔ toordinal start <= toordinal (log_date r) <= toordinal e.
Proof.
  intros Hs He Hr. unfold in_window. rewrite !date_le_toordinal by done.
  rewrite andb_true_iff, !Z.leb_le. done.
Qed.

(** The dict after the loop of lines 78-79: the last log of a day wins. *)
Lemma foldl_upd_last g ls d :
  foldl upd_minutes g ls d
  = match last (filter (λ l, isoformat d = isoformat (log_date l)) ls) with
    | Some l => minutes l
    | None => g d
    end.
Proof.
  revert g. induction ls as [|l ls IH]; intros g; [done|]. cbn [foldl]. rewrite IH, filter_cons.
  destruct (last (filter _ ls)) eqn:E; unfold upd_minutes;
    case_decide; rewrite ?last_cons, ?E; done.
Qed.

Lemma shown_stored db u d : NoDup (key <$> rows db) → shown_minutes db u d = stored_minutes db u d.
Proof.
  intros Hnd. unfold shown_minutes, stored_minutes.
  destruct (row_of_key db u d) as [[r [Hr Hk]]|Hn].
  - by rewrite (filter_key_unique _ r u d).
  - by rewrite filter_key_none.
Qed.

Section Week.
Context (db : Db) (Hdates : Forall (λ r, valid_date (log_date r) = true) (rows db))
        (u : string) (start e : date)
        (Hs : valid_date start = true) (He : valid_date e = true)
        (Hend : toordinal e = toordinal start + 6) (Hmax : toordinal e <= _MAXORDINAL).

Let ls := filter (λ r, user_id r = u ∧ in_window start e r = true) (rows db).

Lemma week_logs_in_window : Forall (λ l, log_date l ∈ window start) ls.
Proof.
  apply Forall_forall. intros l (Hl & Hin)%list_elem_of_filter. destruct Hl as [_ Hw].
  pose proof (proj1 (Forall_forall _ _) Hdates l Hin) as Hv.
  apply in_window_iff in Hw; [|done..]. apply elem_of_window; [done|lia|]. split; [done|lia].
Qed.

Lemma week_value d : d ∈ window start → foldl upd_minutes (λ _, 0) ls d = shown_minutes db u d.
Proof.
  intros Hd. apply elem_of_window in Hd as [Hvd Hrd]; [|done|lia].
  rewrite foldl_upd_last. unfold shown_minutes, ls. rewrite list_filter_filter.
  rewrite (list_filter_iff_in _ (is_key u d)); [done|].
  intros r Hr. pose proof (proj1 (Forall_forall _ _) Hdates r Hr) as Hv. unfold is_key. split.
  - intros (E & Hu & _). split; [done|]. symmetry. by apply isoformat_injective.
  - intros [Hu <-]. split; [done|]. split; [done|]. apply in_window_iff; [done..|lia].
Qed.

Lemma week_result :
  overwrite_logs ls ((λ d, (isoformat d, 0)) <$> window start)
  = spec_week (shown_minutes db) u start.
Proof.
  rewrite (overwrite_logs_map _ (λ _, 0)); [|apply window_NoDup; [done|lia]|apply week_logs_in_window].
  apply list_fmap_ext. intros i d Hd. f_equal. apply week_value.
  by apply list_elem_of_lookup_2 with i.
Qed.
End Week.

Lemma resolve_start_valid today ws start :
  valid_date today = true → resolve_start today ws = Ok start → valid_date start = true.
Proof.
  intros Ht. unfold resolve_start. destruct (truthy ws) as [s|].
  - destruct (strptime_date s week_start_format) as [d|[]] eqn:E; intros H; try discriminate.
    injection H as <-. unfold strptime_date in E. apply bind_Ok in E as ([[y m] dd] & _ & E).
    destruct (new_date_spec y m dd) as [[Hv E'] | [_ [msg E']]]; rewrite E' in E; [|discriminate].
    by injection E as <-.
  - intros H. by destruct (add_days_toordinal today (-6) start Ht H).
Qed.

Section WeekSpec.
Context `{V : TokenVerifier}.

(** The weekly handler on a window inside the calendar. *)
Lemma weekly_run_shown today token ws u db start :
  Forall (λ r, valid_date (log_date r) = true) (rows db) → valid_date today = true →
  authenticate token = Ok u →
  resolve_start today ws = Ok start → toordinal start + 6 <= _MAXORDINAL →
  ∃ end_date, add_days start 6 = Ok end_date ∧
    get_study_logs_for_week today token ws db =
    (emit (SelectRange u start end_date) db,
     Ok (mkWeekResponse (isoformat start) (spec_week (shown_minutes db) u start)
                        (py_sum ((λ d, shown_minutes db u d) <$> window start)))).
Proof.
  intros Hdates Ht Ha Hr Hmax. pose proof (resolve_start_valid _ _ _ Ht Hr) as Hs.
  pose proof (toordinal_range _ Hs).
  destruct (add_days_in_range start 6 Hs) as (e & Ee & Oe & Ve); [lia|].
  exists e. split; [done|].
  unfold get_study_logs_for_week. rewrite Ha, st_lift_Ok, Hr, st_lift_Ok, Ee, st_lift_Ok.
  rewrite st_bind_run. cbn [query_range]. rewrite st_bind_run.
  rewrite (zero_fill_window start Hs Hmax). cbn [st_lift].
  rewrite week_result by (done || lia).
  unfold spec_week. rewrite <- list_fmap_compose. reflexivity.
Qed.

Lemma weekly_run today token ws u db start :
  db_inv db → valid_date today = true → authenticate token = Ok u →
  resolve_start today ws = Ok start → toordinal start + 6 <= _MAXORDINAL →
  ∃ end_date, add_days start 6 = Ok end_date ∧
    get_study_logs_for_week today token ws db =
    (emit (SelectRange u start end_date) db,
     Ok (mkWeekResponse (isoformat start) (spec_week (stored_minutes db) u start)
                        (py_sum ((λ d, stored_minutes db u d) <$> window start)))).
Proof.
  intros Hinv Ht Ha Hr Hmax.
  destruct (weekly_run_shown today token ws u db start (inv_dates _ Hinv) Ht Ha Hr Hmax)
    as (e & Ee & Hrun).
  exists e. split; [done|]. rewrite Hrun.
  assert (Hsh : ∀ d, shown_minutes db u d = stored_minutes db u d)
    by (intros d; apply shown_stored, (inv_keys _ Hinv)).
  unfold spec_week.
  rewrite (list_fmap_ext (λ d, (isoformat d, shown_minutes db u d)) (λ d, (isoformat d, stored_minutes db u d)))
    by (intros; by rewrite Hsh).
  by rewrite (list_fmap_ext (λ d, shown_minutes db u d) (λ d, stored_minutes db u d)) by (intros; apply Hsh).
Qed.

(** C2: on a table with at most one row per (user, day), an
    authenticated weekly request whose window ends in the calendar
    sends one range query and answers the abstract [spec_week]: the
    seven days from [start] in ascending order as keys, each with the
    minutes stored for that day (0 when none), and their sum. *)
Theorem weekly_refines today token ws u db start :
  db_inv db → valid_date today = true → authenticate token = Ok u →
  resolve_start today ws = Ok start → toordinal start + 6 <= _MAXORDINAL →
  ∃ end_date, add_days start 6 = Ok end_date ∧
    get_study_logs_for_week today token ws db =
    (emit (SelectRange u start end_date) db,
     Ok (mkWeekResponse (isoformat start) (spec_week (stored_minutes db) u start)
                        (py_sum ((λ d, stored_minutes db u d) <$> window start)))).
Proof. apply weekly_run. Qed.
End WeekSpec.


Section SpecProperties.
Context `{V : TokenVerifier}.

(** C5: two calls for the same user on the same day accumulate: after
    them the stored minutes of the day have grown by [m1 + m2], the
    second response reports that total, and the table still has one
    row per (user, day). *)
Corollary add_study_time_additive today token m1 m2 u db :
  db_inv db → commit_ok db = true → fits db (stored_minutes db u today + m1) = true →
  fits db (stored_minutes db u today + m1 + m2) = true →
  valid_date today = true → authenticate token = Ok u →
  ∃ db1 db2 r1,
    add_study_time today token m1 db = (db1, Ok r1) ∧
    add_study_time today token m2 db1
    = (db2, Ok (mkAddResponse "Study time added" (isoformat today)
                              (stored_minutes db u today + m1 + m2))) ∧
    stored_minutes db2 u today = stored_minutes db u today + m1 + m2 ∧ db_inv db2.
Proof.
  intros Hinv Hok Hf1 Hf2 Ht Ha.
  destruct (add_study_time_step today token m1 u db Hinv Hok Hf1 Ht Ha) as (db1 & E1 & Hinv1 & Hs1).
  pose proof (add_study_time_schema today token m1 db) as Hsch. rewrite E1 in Hsch. cbn [fst] in Hsch.
  assert (Hok1 : commit_ok db1 = true) by (destruct Hsch as (_ & H & _); congruence).
  assert (H1 : stored_minutes db1 u today = stored_minutes db u today + m1).
  { rewrite Hs1. unfold spec_record. by rewrite decide_True. }
  assert (Hf : fits db1 (stored_minutes db1 u today + m2) = true)
    by (rewrite (fits_same_schema _ _ _ Hsch), H1, <- Z.add_assoc; by rewrite Z.add_assoc).
  destruct (add_study_time_step today token m2 u db1 Hinv1 Hok1 Hf Ht Ha) as (db2 & E2 & Hinv2 & Hs2).
  eexists db1, db2, _. split; [exact E1|].
  rewrite E2, Hs2. unfold spec_record. rewrite decide_True, H1 by done.
  split; [done|]. split; [lia|done].
Qed.

(** The default start is six days before today. *)
Lemma default_window today ws :
  truthy ws = None → valid_date today = true → 7 <= toordinal today →
  ∃ start, resolve_start today ws = Ok start ∧ add_days start 6 = Ok today.
Proof.
  intros Hw Ht H7. unfold resolve_start. rewrite Hw. unfold sub_days.
  pose proof (toordinal_range _ Ht).
  destruct (add_days_in_range today (-6) Ht) as (s & Es & Os & Vs); [lia|].
  exists s. split; [done|]. rewrite (add_days_compose today (-6) 6 s Ht Es).
  replace (-6 + 6) with 0 by lia. by apply add_days_0.
Qed.

(** C6: an add is visible in the week: after [add_study_time] of [m]
    minutes today, the default weekly view of the same user answers a
    total grown by exactly [m]. *)
Theorem add_visible_in_week today token m u db :
  db_inv db → commit_ok db = true → fits db (stored_minutes db u today + m) = true →
  valid_date today = true → 7 <= toordinal today → authenticate token = Ok u →
  ∃ w w', (get_study_logs_for_week today token None db).2 = Ok w ∧
    (get_study_logs_for_week today token None (add_study_time today token m db).1).2 = Ok w' ∧
    total_minutes w' = total_minutes w + m.
Proof.
  intros Hinv Hok Hf Ht H7 Ha.
  destruct (default_window today None eq_refl Ht H7) as (start & Hs & He).
  pose proof (resolve_start_valid _ _ _ Ht Hs) as Hv.
  destruct (add_days_toordinal start 6 today Hv He) as [_ Ho]. ord_bounds.
  destruct (add_study_time_step today token m u db Hinv Hok Hf Ht Ha) as (db' & E & Hinv' & Hsm).
  destruct (weekly_run today token None u db start Hinv Ht Ha Hs ltac:(lia)) as (e & _ & Ew).
  destruct (weekly_run today token None u db' start Hinv' Ht Ha Hs ltac:(lia)) as (e' & _ & Ew').
  rewrite E. cbn [fst]. rewrite Ew, Ew'. eexists _, _. split; [done|]. split; [done|]. simpl.
  apply py_sum_bump with (x := today).
  - eapply NoDup_fmap_1, window_NoDup; [done | lia].
  - apply elem_of_window; [done | lia | split; [done | lia]].
  - intros d _. rewrite Hsm. unfold spec_record.
    destruct (decide (d = today)) as [->|Hne]; [by rewrite decide_True|].
    rewrite decide_False; [done | congruence].
Qed.

(** C23: without a [week_start] (or with an empty one) the window is
    the seven days ending today. *)
Theorem weekly_default_window today ws :
  truthy ws = None → valid_date today = true → 7 <= toordinal today →
  ∃ start, resolve_start today ws = Ok start ∧ add_days start 6 = Ok today.
Proof. apply default_window. Qed.

(** The days of the window are consecutive: the [i]-th is the date
    [i] days after the start, for [i] in [0 .. 6]. *)
Lemma window_consecutive start :
  valid_date start = true → toordinal start + 6 <= _MAXORDINAL →
  length (window start) = 7%nat ∧
  ∀ i d, window start !! i = Some d → toordinal d = toordinal start + Z.of_nat i.
Proof.
  intros Hs Hmax. unfold window. rewrite py_range_7.
  destruct (add_days_in_window start Hs Hmax 0) as (d0 & E0 & O0 & _); [lia|].
  destruct (add_days_in_window start Hs Hmax 1) as (d1 & E1 & O1 & _); [lia|].
  destruct (add_days_in_window start Hs Hmax 2) as (d2 & E2 & O2 & _); [lia|].
  destruct (add_days_in_window start Hs Hmax 3) as (d3 & E3 & O3 & _); [lia|].
  destruct (add_days_in_window start Hs Hmax 4) as (d4 & E4 & O4 & _); [lia|].
  destruct (add_days_in_window start Hs Hmax 5) as (d5 & E5 & O5 & _); [lia|].
  destruct (add_days_in_window start Hs Hmax 6) as (d6 & E6 & O6 & _); [lia|].
  cbn [omap list_omap]. rewrite E0, E1, E2, E3, E4, E5, E6. cbn [ok_value].
  split; [done|]. intros i d Hi.
  do 7 (destruct i as [|i]; [injection Hi as <-; lia|]). discriminate.
Qed.

(** C24: lines 72-76: on a start whose window stays in the calendar,
    [for i in range(7): result[str(start_date + timedelta(days=i))] = 0]
    builds seven entries, all 0, the [i]-th keyed by the text of the
    date [i] days after the start. *)
Theorem zero_fill_consecutive start :
  valid_date start = true → toordinal start + 6 <= _MAXORDINAL →
  ∃ res, zero_fill start (py_range 7) [] = Ok res ∧ length res = 7%nat ∧
    ∀ i k v, res !! i = Some (k, v) →
      v = 0 ∧ ∃ d, k = isoformat d ∧ valid_date d = true ∧ toordinal d = toordinal start + Z.of_nat i.
Proof.
  intros Hs He. rewrite zero_fill_window by done. eexists. split; [reflexivity|].
  destruct (window_consecutive start Hs He) as [Hl Ho]. split; [by rewrite length_fmap|].
  intros i k v (d & [= -> ->] & Hd)%list_lookup_fmap_Some. split; [done|].
  exists d. split; [done|]. split; [|by apply Ho].
  apply (elem_of_window start Hs He d). by eapply list_elem_of_lookup_2.
Qed.
(** C19: an empty [week_start] is falsy ([if week_start:]): the request
    is served with the default window, as if the parameter were absent,
    and not answered 400 like other strings that are not dates. *)
Theorem weekly_empty_week_start today token db :
  get_study_logs_for_week today token (Some "") db = get_study_logs_for_week today token None db.
Proof. reflexivity. Qed.

(** C20: the request's minutes are not checked: on a day without a row,
    an add of a negative [m] succeeds, answers [m], and leaves a negative
    total stored, against the data model's non-negative minutes. *)
Theorem add_negative_minutes today token m u db :
  db_inv db → commit_ok db = true → valid_date today = true → authenticate token = Ok u →
  stored_minutes db u today = 0 → m < 0 → fits db m = true →
  ∃ db', add_study_time today token m db
         = (db', Ok (mkAddResponse "Study time added" (isoformat today) m)) ∧
    stored_minutes db' u today < 0.
Proof.
  intros Hinv Hok Ht Ha H0 Hm Hf.
  destruct (add_study_time_step today token m u db Hinv Hok ltac:(by rewrite H0) Ht Ha)
    as (db' & E & _ & Hs).
  exists db'. rewrite E, H0. split; [done|].
  rewrite Hs. unfold spec_record. rewrite decide_True, H0 by done. lia.
Qed.
(** C18: storage failure (spec section 7): on a database that refuses
    the commit, an authenticated add is answered 500 with the database's
    error, the transaction is rolled back (the table is as before the
    request), and no refresh is sent: the last statement is the
    rollback. *)
Theorem add_study_time_storage_failure today token m u db :
  authenticate token = Ok u → commit_ok db = false → fits db (stored_minutes db u today + m) = true →
  ∃ db', add_study_time today token m db = (db', Raise commit_error) ∧
    status_of commit_error = 500 ∧ rows db' = rows db ∧ last (sql_log db') = Some RollbackTx.
Proof.
  intros Ha Hok Hf. rewrite add_study_time_run, (add_select_run today token u db Ha).
  unfold stored_minutes in Hf.
  destruct (head (filter (is_key u today) (rows db))) as [l|] eqn:Hl.
  - rewrite add_commit_dirty_refused by (exact Hok || exact Hf). eexists. split; [done|].
    split; [done|]. split; [done|]. unfold rollback; cbn [sql_log]. by rewrite last_snoc.
  - rewrite add_commit_new_refused
      by (exact Hok || exact Hf || by apply violates_absent, (head_filter_key_None u today)).
    eexists. split; [done|]. split; [done|]. split; [done|]. unfold rollback; cbn [sql_log]. by rewrite last_snoc.
Qed.

(** C22: the bounds of the window: for an authenticated request, the
    default start raises [OverflowError] exactly when today is one of
    the first six days of year 1, and a resolved start makes the request
    raise [OverflowError] exactly when the window's last day would be
    after 9999-12-31; otherwise the request is answered. *)
Theorem weekly_window_bounds today token ws u db :
  authenticate token = Ok u → valid_date today = true →
  (truthy ws = None →
     (resolve_start today ws = Raise (OverflowError "result out of range") ↔ toordinal today < 7)) ∧
  (∀ start, resolve_start today ws = Ok start →
     ((get_study_logs_for_week today token ws db).2 = Raise (OverflowError "result out of range") ↔
      _MAXORDINAL < toordinal start + 6)).
Proof.
  intros Ha Ht. ord_bounds. split.
  - intros Hw. unfold resolve_start. rewrite Hw.
    destruct (decide (7 <= toordinal today)) as [H7|H7].
    + destruct (add_days_in_range today (-6) Ht) as (s & E & _); [lia|].
      assert (E' : sub_days today 6 = Ok s) by exact E. rewrite E'. split; [discriminate|lia].
    + assert (E' : sub_days today 6 = Raise (OverflowError "result out of range"))
        by (unfold sub_days; apply add_days_out_of_range; lia).
      rewrite E'. split; [lia|done].
  - intros start Hr. pose proof (resolve_start_valid _ _ _ Ht Hr) as Hs. ord_bounds.
    unfold get_study_logs_for_week. rewrite Ha, st_lift_Ok, Hr, st_lift_Ok.
    destruct (decide (toordinal start + 6 <= _MAXORDINAL)) as [Hm|Hm].
    + destruct (add_days_in_range start 6 Hs) as (e & Ee & _); [lia|]. rewrite Ee, st_lift_Ok.
      rewrite st_bind_run. cbn [query_range]. rewrite st_bind_run, (zero_fill_window start Hs Hm).
      cbn [st_lift]. split; [cbn; discriminate|lia].
    + rewrite add_days_out_of_range by lia. split; [lia|done].
Qed.

(** C9: the weekly view shows, for each day, the minutes of the user's
    last row of that day in storage order, on any table whose dates are
    valid: where a table holds several rows of one (user, day), which
    the race of spec section 5 produces, it reports the last one and
    drops the others instead of adding them up. *)
Theorem weekly_shows_last_row today token ws u db start :
  Forall (λ r, valid_date (log_date r) = true) (rows db) → valid_date today = true →
  authenticate token = Ok u →
  resolve_start today ws = Ok start → toordinal start + 6 <= _MAXORDINAL →
  ∃ end_date, add_days start 6 = Ok end_date ∧
    get_study_logs_for_week today token ws db =
    (emit (SelectRange u start end_date) db,
     Ok (mkWeekResponse (isoformat start) (spec_week (shown_minutes db) u start)
                        (py_sum ((λ d, shown_minutes db u d) <$> window start)))).
Proof. apply weekly_run_shown. Qed.

(** C21: [minutes] is stored in a column of [int_bits] bits: an add
    succeeds exactly when the day's new total is a signed integer of
    that width; past it the commit is refused with a 500 and the table
    keeps its rows. *)
Theorem add_study_time_column_bounds today token m u db :
  db_inv db → commit_ok db = true → valid_date today = true → authenticate token = Ok u →
  (- 2 ^ (int_bits db - 1) <= stored_minutes db u today + m < 2 ^ (int_bits db - 1) →
   ∃ db', add_study_time today token m db
          = (db', Ok (mkAddResponse "Study time added" (isoformat today) (stored_minutes db u today + m)))) ∧
  (¬ (- 2 ^ (int_bits db - 1) <= stored_minutes db u today + m < 2 ^ (int_bits db - 1)) →
   ∃ db', add_study_time today token m db = (db', Raise range_error) ∧
     status_of range_error = 500 ∧ rows db' = rows db).
Proof.
  intros Hinv Hok Ht Ha. split.
  - intros Hr. apply fits_spec in Hr.
    destruct (add_study_time_step today token m u db Hinv Hok Hr Ht Ha) as (db' & E & _).
    by exists db'.
  - intros Hr. assert (Hf : fits db (stored_minutes db u today + m) = false)
      by (apply not_true_iff_false; by rewrite fits_spec).
    destruct (add_study_time_range today token m u db Ha Hf) as (db' & E & Hrows). by exists db'.
Qed.

End SpecProperties.


(** ** Witnesses and examples *)

Lemma add_study_time_unauthorized_witness :
  @authenticate demo_verifier "forged" = Raise (HTTPException 401 "Could not validate credentials") ∧
  @add_study_time demo_verifier day_2024_03_12 "forged" 30 empty_db
    = (empty_db, Raise (HTTPException 401 "Could not validate credentials")) ∧
  status_of (HTTPException 401 "Could not validate credentials") = 401.
Proof.
  assert (H : @authenticate demo_verifier "forged"
              = Raise (HTTPException 401 "Could not validate credentials")) by reflexivity.
  split; [exact H|]. exact (add_study_time_unauthorized _ _ _ _ _ H).
Defined.

Lemma weekly_unauthorized_witness :
  @authenticate demo_verifier "tok-nosub" = Raise (HTTPException 401 "Invalid token") ∧
  @get_study_logs_for_week demo_verifier day_2024_03_12 "tok-nosub" None empty_db
    = (empty_db, Raise (HTTPException 401 "Invalid token")) ∧
  status_of (HTTPException 401 "Invalid token") = 401.
Proof.
  assert (H : @authenticate demo_verifier "tok-nosub" = Raise (HTTPException 401 "Invalid token"))
    by reflexivity.
  split; [exact H|]. exact (weekly_unauthorized _ _ _ _ _ H).
Defined.

Lemma weekly_bad_request_witness :
  @get_study_logs_for_week demo_verifier day_2024_03_12 "tok-alice" (Some "not-a-date"%string) empty_db
  = (empty_db, Raise (HTTPException 400 "Invalid week_start format. Use YYYY-MM-DD.")).
Proof.
  apply (weekly_bad_request _ _ _ "not-a-date" "alice" _
           (ValueError "time data does not match format")); reflexivity.
Defined.

Lemma weekly_end_overflow_witness :
  @get_study_logs_for_week demo_verifier day_2024_03_12 "tok-alice" (Some "9999-12-26"%string) empty_db
    = (empty_db, Raise (OverflowError "result out of range")) ∧
  status_of (OverflowError "result out of range") = 500.
Proof.
  apply (weekly_end_overflow _ _ _ "9999-12-26" (mkdate 9999 12 26) "alice");
    [reflexivity | reflexivity | reflexivity | vm_compute; reflexivity].
Defined.

Lemma empty_db_inv : db_inv empty_db.
Proof. constructor; simpl; constructor. Qed.

Lemma weekly_shows_last_row_witness :
  @get_study_logs_for_week demo_verifier day_2024_03_12 "tok-alice" None dup_db
  = (emit (SelectRange "alice" (mkdate 2024 3 6) (mkdate 2024 3 12)) dup_db,
     Ok (mkWeekResponse "2024-03-06"
           [("2024-03-06", 0); ("2024-03-07", 0); ("2024-03-08", 0); ("2024-03-09", 0);
            ("2024-03-10", 0); ("2024-03-11", 0); ("2024-03-12", 15)] 15)).
Proof.
  destruct (@weekly_shows_last_row demo_verifier day_2024_03_12 "tok-alice" None "alice" dup_db
              (mkdate 2024 3 6)) as (e & Ee & Hrun);
    [repeat constructor|reflexivity|reflexivity|reflexivity|apply Z.leb_le; vm_compute; reflexivity|].
  rewrite Hrun. vm_compute in Ee. injection Ee as <-. vm_compute. reflexivity.
Defined.

Lemma sample_db_inv : db_inv sample_db.
Proof. constructor; apply (bool_decide_unpack _); vm_compute; exact I. Qed.

Lemma add_study_time_refines_witness :
  ∃ db', @add_study_time demo_verifier day_2024_03_12 "tok-alice" 30 empty_db
         = (db', Ok (mkAddResponse "Study time added" (isoformat day_2024_03_12)
                                   (stored_minutes empty_db "alice" day_2024_03_12 + 30))) ∧
    db_inv db' ∧
    ∀ u' d', stored_minutes db' u' d'
             = spec_record (stored_minutes empty_db) "alice" day_2024_03_12 30 u' d'.
Proof. apply add_study_time_refines; [exact empty_db_inv | reflexivity..]. Defined.

Lemma add_study_time_additive_witness :
  ∃ db1 db2 r1,
    @add_study_time demo_verifier day_2024_03_12 "tok-alice" 30 empty_db = (db1, Ok r1) ∧
    @add_study_time demo_verifier day_2024_03_12 "tok-alice" 15 db1
    = (db2, Ok (mkAddResponse "Study time added" (isoformat day_2024_03_12)
                              (stored_minutes empty_db "alice" day_2024_03_12 + 30 + 15))) ∧
    stored_minutes db2 "alice" day_2024_03_12 = stored_minutes empty_db "alice" day_2024_03_12 + 30 + 15 ∧
    db_inv db2.
Proof. apply add_study_time_additive; [exact empty_db_inv | reflexivity..]. Defined.

Lemma weekly_refines_witness :
  ∃ end_date, add_days (mkdate 2024 3 10) 6 = Ok end_date ∧
    @get_study_logs_for_week demo_verifier day_2024_03_12 "tok-alice" (Some "2024-03-10"%string) empty_db =
    (emit (SelectRange "alice" (mkdate 2024 3 10) end_date) empty_db,
     Ok (mkWeekResponse (isoformat (mkdate 2024 3 10))
                        (spec_week (stored_minutes empty_db) "alice" (mkdate 2024 3 10))
                        (py_sum ((λ d, stored_minutes empty_db "alice" d) <$> window (mkdate 2024 3 10))))).
Proof.
  apply weekly_refines;
    [exact empty_db_inv | reflexivity | reflexivity | reflexivity | vm_compute; discriminate].
Defined.

Lemma weekly_default_window_witness :
  ∃ start, resolve_start day_2024_03_12 None = Ok start ∧ add_days start 6 = Ok day_2024_03_12.
Proof. apply weekly_default_window; [reflexivity | reflexivity | vm_compute; discriminate]. Defined.

Lemma zero_fill_consecutive_witness :
  ∃ res, zero_fill (mkdate 2024 3 10) (py_range 7) [] = Ok res ∧ length res = 7%nat ∧
    ∀ i k v, res !! i = Some (k, v) →
      v = 0 ∧ ∃ d, k = isoformat d ∧ valid_date d = true
                 ∧ toordinal d = toordinal (mkdate 2024 3 10) + Z.of_nat i.
Proof. apply zero_fill_consecutive; [reflexivity | vm_compute; discriminate]. Defined.

Lemma add_negative_minutes_witness :
  ∃ db', @add_study_time demo_verifier day_2024_03_12 "tok-alice" (-30) empty_db
         = (db', Ok (mkAddResponse "Study time added" (isoformat day_2024_03_12) (-30))) ∧
    stored_minutes db' "alice" day_2024_03_12 < 0.
Proof.
  apply add_negative_minutes;
    [exact empty_db_inv | reflexivity | reflexivity | reflexivity | reflexivity | lia | reflexivity].
Defined.

Lemma add_visible_in_week_witness :
  ∃ w w', (@get_study_logs_for_week demo_verifier day_2024_03_12 "tok-alice" None sample_db).2 = Ok w ∧
    (@get_study_logs_for_week demo_verifier day_2024_03_12 "tok-alice" None
       (@add_study_time demo_verifier day_2024_03_12 "tok-alice" 30 sample_db).1).2 = Ok w' ∧
    total_minutes w' = total_minutes w + 30.
Proof.
  apply (add_visible_in_week _ _ _ "alice");
    [constructor; cbn; repeat constructor; set_solver | reflexivity | reflexivity | reflexivity
    | vm_compute; discriminate | reflexivity].
Defined.

Lemma add_study_time_storage_failure_witness :
  ∃ db', @add_study_time demo_verifier day_2024_03_12 "tok-alice" 30 (mkDb [] 1 [] false false 64)
         = (db', Raise commit_error) ∧
    status_of commit_error = 500 ∧ rows db' = rows (mkDb [] 1 [] false false 64) ∧
    last (sql_log db') = Some RollbackTx.
Proof. apply (add_study_time_storage_failure _ _ _ "alice"); reflexivity. Defined.

Lemma add_study_time_column_bounds_witness :
  (∃ db', @add_study_time demo_verifier day_2024_03_12 "tok-alice" (2 ^ 31 - 1) (mkDb [] 1 [] false true 32)
          = (db', Ok (mkAddResponse "Study time added" "2024-03-12" (2 ^ 31 - 1)))) ∧
  (∃ db', @add_study_time demo_verifier day_2024_03_12 "tok-alice" (2 ^ 31) (mkDb [] 1 [] false true 32)
          = (db', Raise range_error) ∧ status_of range_error = 500 ∧ rows db' = []).
Proof.
  assert (Hinv : db_inv (mkDb [] 1 [] false true 32)) by (constructor; constructor).
  split.
  - apply (proj1 (@add_study_time_column_bounds demo_verifier day_2024_03_12 "tok-alice" (2 ^ 31 - 1)
                    "alice" _ Hinv eq_refl eq_refl eq_refl)).
    apply fits_spec. reflexivity.
  - apply (proj2 (@add_study_time_column_bounds demo_verifier day_2024_03_12 "tok-alice" (2 ^ 31)
                    "alice" _ Hinv eq_refl eq_refl eq_refl)).
    intros H. apply fits_spec in H. vm_compute in H. discriminate H.
Defined.

Lemma weekly_window_bounds_witness :
  (truthy None = None →
     (resolve_start (mkdate 1 1 3) None = Raise (OverflowError "result out of range") ↔
      toordinal (mkdate 1 1 3) < 7)) ∧
  (∀ start, resolve_start (mkdate 1 1 3) None = Ok start →
     ((@get_study_logs_for_week demo_verifier (mkdate 1 1 3) "tok-alice" None empty_db).2
      = Raise (OverflowError "result out of range") ↔ _MAXORDINAL < toordinal start + 6)).
Proof. apply (weekly_window_bounds _ _ _ "alice"); reflexivity. Defined.

End StudyRouter.
