(* ===== verification/Concurrency.v ===== *)
(** * Concurrency: interleaved [add_study_time] requests on one table

    FastAPI serves requests concurrently, each with its own session on
    the same table.  [add_study_time] (lines 29-39 of
    [src/routers/study_router.py]) reads today's row (line 30), then
    writes and commits (lines 32-38), then reloads the row (line 39):
    three statements that other requests' statements can interleave.
    A request in flight is a [req], the state between those phases, and
    [phase] runs one of them on the shared [Db] exactly as
    [StudyRouter.add_select], [add_commit] and [add_refresh] do, so that
    a request whose phases run with nothing in between is the handler
    ([phases_serial]).  [cstep] is
    the interleaving of any number of requests; [run] executes a
    schedule of it.  The commit writes what was read earlier, which is
    the race of spec section 5.  On any table, the schedule where two
    adds both read before either commits ([racy_schedule]) stores two
    rows for a first add of the day, loses the first increment on a
    day that has a row (the table ends as if only the second add had
    run, and both are answered the second's total), and under the
    UNIQUE constraint of spec section 9 answers the late request with
    the [IntegrityError] and drops its minutes.  Under every
    interleaving, ids stay unique and a request fails only at the gate,
    at the UNIQUE constraint, at a refused COMMIT or with the column's
    range error; every interleaving terminates and can be completed.
    The hardened design, where the handler runs atomically, keeps one
    row per (user, day) and the sum of all increments while the
    partial sums stay within the column. *)

From S2P Require Import Prelude PyDate DateText Auth Store StudyRouter.
From stdpp Require Import relations gmap.
From Stdlib Require Import Wf_nat Wellfounded.
Import PyDate DateText Auth Store StudyRouter.

Open Scope Z_scope.
Open Scope py_scope.

Module Concurrency.

(** Where a request of [add_study_time] stands. *)
Inductive req :=
| Arrived (token : string) (m : Z)                    (** before line 24 *)
| Selected (m : Z) (sel : string * option StudyLog)   (** after line 30 *)
| Committed (id : Z)                                  (** after line 38 *)
| Answered (r : result AddResponse).                  (** returned or raised *)

Section Interleaving.
Context `{V : TokenVerifier}.
Variable today : date.

(** Continue with [k] after a phase that returned, or answer with the
    exception it raised. *)
Definition resume {A} (k : A → req) (p : Db * result A) : Db * req :=
  match p with
  | (db', Ok a) => (db', k a)
  | (db', Raise e) => (db', Answered (Raise e))
  end.

(** One phase of one request on the shared table; [None] once the
    request is answered. *)
Definition phase (q : req) (db : Db) : option (Db * req) :=
  match q with
  | Arrived token m => Some (resume (Selected m) (add_select today token db))
  | Selected m sel => Some (resume Committed (add_commit today m sel db))
  | Committed id => Some (resume (λ r, Answered (Ok r)) (add_refresh today id db))
  | Answered _ => None
  end.

(** Any request in flight may take its next phase. *)
Inductive cstep : Db * list req → Db * list req → Prop :=
| cstep_phase db qs i q db' q' :
    qs !! i = Some q → phase q db = Some (db', q') →
    cstep (db, qs) (db', <[i := q']> qs).

(** A schedule: the index of the request that moves at each step; an
    index with nothing to do is skipped. *)
Fixpoint run (sched : list nat) (w : Db * list req) : Db * list req :=
  match sched with
  | [] => w
  | i :: sched' =>
      match w.2 !! i with
      | Some q =>
          match phase q w.1 with
          | Some (db', q') => run sched' (db', <[i := q']> w.2)
          | None => run sched' w
          end
      | None => run sched' w
      end
  end.

Definition answered (q : req) : bool :=
  match q with Answered _ => true | _ => false end.

Definition arrived (q : req) : bool :=
  match q with Arrived _ _ => true | _ => false end.

(** The primary keys in use. *)
Definition ids (db : Db) : list Z := log_id <$> rows db.

(** Distinct primary keys, all below the next one. *)
Definition ids_wf (db : Db) : Prop :=
  NoDup (ids db) ∧ Forall (λ r, log_id r < next_id db) (rows db).

(** What a request in flight relies on: the row it loaded or created
    is still there; a request answered with an exception was refused
    by the gate, or hit the constraint, or a refused commit. *)
Definition req_ok (db : Db) (q : req) : Prop :=
  match q with
  | Selected _ (_, Some l) => log_id l ∈ ids db
  | Committed id => id ∈ ids db
  | Answered (Raise e) =>
      status_of e = 401 ∨ (schema_unique db = true ∧ e = integrity_error) ∨
      (commit_ok db = false ∧ e = commit_error) ∨ e = range_error
  | _ => True
  end.

(** One row per (user, day). *)
Definition keys_ok (db : Db) : Prop := NoDup (key <$> rows db).

(** Phases still to run: three for a request that has just arrived. *)
Definition todo (q : req) : nat :=
  match q with Arrived _ _ => 3 | Selected _ _ => 2 | Committed _ => 1 | Answered _ => 0 end%nat.

Definition todo_all (qs : list req) : nat := foldr (λ q n, todo q + n)%nat 0%nat qs.

(** ** The hardened design of spec section 9 *)

(** Each request runs the whole handler in one step, as under a
    row lock or with an atomic increment-or-insert. *)
Inductive astep : Db * list req → Db * list req → Prop :=
| astep_run db qs i token m :
    qs !! i = Some (Arrived token m) →
    astep (db, qs) ((add_study_time today token m db).1,
                    <[i := Answered (add_study_time today token m db).2]> qs).

Fixpoint arun (sched : list nat) (w : Db * list req) : Db * list req :=
  match sched with
  | [] => w
  | i :: sched' =>
      match w.2 !! i with
      | Some (Arrived token m) =>
          arun sched' ((add_study_time today token m w.1).1,
                       <[i := Answered (add_study_time today token m w.1).2]> w.2)
      | _ => arun sched' w
      end
  end.

(** The minutes of the requests not yet served. *)
Fixpoint arrived_sum (f : Z → Z) (qs : list req) : Z :=
  match qs with
  | [] => 0
  | Arrived _ m :: qs' => f m + arrived_sum f qs'
  | _ :: qs' => arrived_sum f qs'
  end.

(** The minutes of the requests not yet served, and their absolute
    values: the most the day's total can move in any order. *)
Definition arrived_minutes : list req → Z := arrived_sum (λ m, m).
Definition arrived_abs : list req → Z := arrived_sum Z.abs.

(** A request of the user [u] that has not failed. *)
Definition by_user (u : string) (q : req) : Prop :=
  match q with
  | Arrived token _ => authenticate token = Ok u
  | Answered (Raise _) => False
  | _ => True
  end.

End Interleaving.

(** ** Concrete requests *)

(** A table where "alice" already has 10 minutes on 2024-03-12. *)
Definition alice_db : Db :=
  mkDb [mkLog 1 "alice" day_2024_03_12 10] 2 [] false true 64.

(** Two requests of "alice", of 30 and 15 minutes. *)
Definition two_adds : list req := [Arrived "tok-alice" 30; Arrived "tok-alice" 15].

(** An empty table with the [UNIQUE(user_id, date)] constraint. *)
Definition unique_empty_db : Db := mkDb [] 1 [] true true 64.

(** Both requests read before either commits. *)
Definition racy_schedule : list nat := [0; 1; 0; 1; 0; 1]%nat.

(** ** Schedules and the handler *)

Section Runs.
Context `{V : TokenVerifier}.
Variable today : date.

Lemma run_rtc sched w : rtc (cstep today) w (run today sched w).
Proof.
  revert w. induction sched as [|i sched IH]; intros [db qs]; simpl; [done|].
  destruct (qs !! i) as [q|] eqn:Hq; [|apply IH].
  destruct (phase today q db) as [[db' q']|] eqn:Hp; [|apply IH].
  eapply rtc_l; [by econstructor|]. apply IH.
Qed.

Lemma run_step i sched db qs q db' q' :
  qs !! i = Some q → phase today q db = Some (db', q') →
  run today (i :: sched) (db, qs) = run today sched (db', <[i := q']> qs).
Proof. intros Hi Hp. simpl. by rewrite Hi, Hp. Qed.

Lemma run_answered i sched db qs r :
  qs !! i = Some (Answered r) → run today (i :: sched) (db, qs) = run today sched (db, qs).
Proof. intros Hi. simpl. by rewrite Hi. Qed.

(** Take the phase of request [i] in a [run]. *)
Ltac run_phase E :=
  erewrite run_step; [| by rewrite ?list_lookup_insert_eq by (by rewrite ?length_insert)
                      | cbn [phase]; rewrite E; reflexivity].

(** A schedule of [k] indices takes at most [k] steps. *)
Lemma run_nsteps sched w : ∃ n, nsteps (cstep today) n w (run today sched w) ∧ (n <= length sched)%nat.
Proof.
  revert w. induction sched as [|i sched IH]; intros [db qs]; simpl; [exists 0%nat; by split; [constructor|]|].
  destruct (qs !! i) as [q|] eqn:Hq;
    [destruct (phase today q db) as [[db' q']|] eqn:Hp|];
    [destruct (IH (db', <[i := q']> qs)) as (n & Hn & Hl); exists (S n)
    |destruct (IH (db, qs)) as (n & Hn & Hl); exists n
    |destruct (IH (db, qs)) as (n & Hn & Hl); exists n];
    (split; [|lia]); [eapply nsteps_l; [by econstructor|] |..]; done.
Qed.

(** A request run through its three phases with no other request in
    between is [add_study_time]. *)
Lemma phases_serial qs i token m db :
  qs !! i = Some (Arrived token m) →
  run today [i; i; i] (db, qs)
  = ((add_study_time today token m db).1, <[i := Answered (add_study_time today token m db).2]> qs).
Proof.
  intros Hi. pose proof (lookup_lt_Some _ _ _ Hi) as Hlt. rewrite add_study_time_run.
  destruct (add_select today token db) as [db1 [sel|e]] eqn:E1; run_phase E1.
  - destruct (add_commit today m sel db1) as [db2 [id|e]] eqn:E2; run_phase E2.
    + destruct (add_refresh today id db2) as [db3 [r|e]] eqn:E3; run_phase E3;
        cbn [run]; by rewrite !list_insert_insert_eq.
    + erewrite run_answered by (by rewrite list_lookup_insert_eq by (by rewrite length_insert)).
      cbn [run]. by rewrite list_insert_insert_eq.
  - do 2 erewrite run_answered by (by rewrite list_lookup_insert_eq). done.
Qed.

End Runs.

(** ** What every interleaving keeps *)

Section Safety.
Context `{V : TokenVerifier}.
Variable today : date.

Lemma ids_emit s db : ids (emit s db) = ids db.
Proof. reflexivity. Qed.

Lemma ids_set_minutes id m db : ids (db_set_minutes id m db) = ids db.
Proof.
  unfold ids, db_set_minutes; simpl. rewrite <- list_fmap_compose.
  apply list_fmap_ext. intros i x _. apply log_id_set_minutes.
Qed.

Lemma ids_insert u d m db : ids (db_insert u d m db) = ids db ++ [next_id db].
Proof. unfold ids, db_insert; simpl. by rewrite fmap_app. Qed.

Lemma ids_wf_set_minutes id m db : ids_wf db → ids_wf (db_set_minutes id m db).
Proof.
  intros [Hnd Hf]. split; [by rewrite ids_set_minutes|].
  unfold db_set_minutes; simpl. apply Forall_fmap.
  eapply Forall_impl; [exact Hf|]. intros r Hr. simpl. by rewrite log_id_set_minutes.
Qed.

Lemma ids_wf_insert u d m db : ids_wf db → ids_wf (db_insert u d m db).
Proof.
  intros [Hnd Hf]. split.
  - rewrite ids_insert. apply NoDup_app. split; [done|]. split; [|apply NoDup_singleton].
    intros x Hx ->%list_elem_of_singleton.
    apply list_elem_of_fmap in Hx as (r & Er & Hr). rewrite Forall_forall in Hf.
    specialize (Hf r Hr). lia.
  - unfold db_insert; simpl. apply Forall_app. split; [|constructor; [simpl; lia | constructor]].
    eapply Forall_impl; [exact Hf|]. simpl. lia.
Qed.

(** The row [first()] returns is a row of the table. *)
Lemma first_in_ids u d db l :
  head (filter (is_key u d) (rows db)) = Some l → log_id l ∈ ids db.
Proof.
  intros Hl. apply head_Some_elem_of, list_elem_of_filter in Hl as [_ Hl].
  by apply list_elem_of_fmap_2.
Qed.

(** [db.refresh] of a key in use reads its row. *)
Lemma refresh_in_ids today' id db :
  NoDup (ids db) → id ∈ ids db →
  ∃ r, add_refresh today' id db
       = (emit (SelectById id) db, Ok (mkAddResponse "Study time added" (isoformat today') (minutes r))).
Proof.
  intros Hnd Hid. apply list_elem_of_fmap in Hid as (r & -> & Hr).
  exists r. by apply add_refresh_row.
Qed.

Lemma ids_wf_same_rows db db' :
  ids_wf db → rows db' = rows db → next_id db <= next_id db' → ids_wf db'.
Proof.
  intros [Hnd Hf] Er Hle. unfold ids_wf, ids. rewrite Er. split; [done|].
  eapply Forall_impl; [exact Hf|]. simpl. lia.
Qed.

(** A phase never changes the schema fields. *)
Lemma phase_schema q db db' q' : phase today q db = Some (db', q') → same_schema db db'.
Proof.
  destruct q as [token m|m sel|id|r]; cbn [phase]; intros Hp; try discriminate;
    [pose proof (add_select_schema today token db) as Hs; destruct (add_select today token db) as [? [?|?]]
    |pose proof (add_commit_schema today m sel db) as Hs; destruct (add_commit today m sel db) as [? [?|?]]
    |pose proof (add_refresh_schema today id db) as Hs; destruct (add_refresh today id db) as [? [?|?]]];
    cbn [resume] in Hp; injection Hp as <- <-; exact Hs.
Qed.

Lemma rtc_schema w w' : rtc (cstep today) w w' → same_schema w.1 w'.1.
Proof.
  induction 1 as [|w1 w2 w3 [db qs i q db' q' _ Hp] _ IH]; [done|].
  eapply same_schema_trans; [|exact IH]. exact (phase_schema _ _ _ _ Hp).
Qed.

Lemma req_ok_mono db db' q : same_schema db db' → ids db ⊆ ids db' → req_ok db q → req_ok db' q.
Proof.
  intros (Hu & Hc & _) Hs. destruct q as [t m|m [u [l|]]|id|[r|e]]; simpl; try done; try apply Hs.
  by rewrite Hu, Hc.
Qed.

(** One phase keeps the keys distinct and in use, and what the request
    relies on. *)
Lemma phase_ok q db db' q' :
  ids_wf db → req_ok db q → phase today q db = Some (db', q') →
  ids_wf db' ∧ req_ok db' q' ∧ ids db ⊆ ids db'.
Proof.
  intros Hwf Hq Hp. pose proof (phase_schema _ _ _ _ Hp) as (Hu & Hc & _).
  destruct q as [token m|m [u o]|id|r]; cbn [phase] in Hp; try discriminate.
  - destruct (authenticate token) as [u|e] eqn:Ha.
    + rewrite (add_select_run today token u db Ha) in Hp. cbn [resume] in Hp. injection Hp as <- <-.
      split; [done|]. split; [|done]. simpl.
      destruct (head _) as [l|] eqn:Hl; [|done]. by eapply first_in_ids.
    + unfold add_select in Hp. rewrite st_bind_run, Ha in Hp. cbn [resume] in Hp.
      injection Hp as <- <-. split; [done|]. split; [|done]. left. by eapply authenticate_401.
  - destruct (add_commit_cases today m u o db)
      as [(l & Eo & Hok & Hf & E2 & E1) | [(Eo & Hok & Hf & Hv & E2 & E1)
         | (Er & Hn & [[Hok E2] | [[Hv E2] | E2]])]];
      destruct (add_commit today m (u, o) db) as [db1 r1]; cbn [fst snd] in *; subst r1;
      try subst o; cbn [resume] in Hp; injection Hp as <- <-.
    + subst db1. simpl in Hq. split; [by apply ids_wf_set_minutes|].
      cbn [req_ok]. rewrite !ids_emit, ids_set_minutes. by split.
    + subst db1. split; [by apply ids_wf_insert|]. cbn [req_ok]. rewrite !ids_emit, ids_insert.
      split; [apply elem_of_app; right; by left | intros x Hx; apply elem_of_app; by left].
    + split; [by eapply ids_wf_same_rows|]. unfold ids. rewrite Er.
      split; [right; right; left; by split; [congruence|] | done].
    + apply andb_prop in Hv as [Hsu _]. split; [by eapply ids_wf_same_rows|]. unfold ids. rewrite Er.
      split; [right; left; by split; [congruence|] | done].
    + split; [by eapply ids_wf_same_rows|]. unfold ids. rewrite Er.
      split; [right; right; by right | done].
  - destruct (refresh_in_ids today id db) as [r E]; [apply Hwf | done |].
    rewrite E in Hp. cbn [resume] in Hp. injection Hp as <- <-. done.
Qed.

(** Under the constraint, one phase keeps one row per (user, day). *)
Lemma phase_keys q db db' q' :
  schema_unique db = true → keys_ok db → phase today q db = Some (db', q') → keys_ok db'.
Proof.
  intros Hu Hk Hp. unfold keys_ok.
  destruct q as [token m|m [u o]|id|r]; cbn [phase] in Hp; try discriminate.
  - pose proof (add_select_rows today token db) as Er.
    destruct (add_select today token db) as [db1 [?|?]]; cbn [resume] in Hp;
      injection Hp as <- <-; simpl in Er; by rewrite Er.
  - destruct (add_commit_cases today m u o db)
      as [(l & Eo & Hok & Hf & E2 & E1) | [(Eo & Hok & Hf & Hv & E2 & E1) | (Er & Hn & _)]];
      destruct (add_commit today m (u, o) db) as [db1 r1]; cbn [fst snd] in *; try subst o;
      try subst r1; try destruct r1; cbn [resume] in Hp; injection Hp as <- <-; try subst db1.
    + cbn [emit rows]. by rewrite keys_set_minutes.
    + cbn [emit rows db_insert]. rewrite fmap_app. apply NoDup_app. split; [done|].
      split; [|apply NoDup_singleton].
      intros x Hx ->%list_elem_of_singleton. by apply (violates_false_unique u today db).
    + by rewrite Er.
    + by rewrite Er.
  - pose proof (add_refresh_rows today id db) as Er.
    destruct (add_refresh today id db) as [db1 [?|?]]; cbn [resume] in Hp;
      injection Hp as <- <-; simpl in Er; by rewrite Er.
Qed.

Definition conc_inv (w : Db * list req) : Prop := ids_wf w.1 ∧ Forall (req_ok w.1) w.2.

Lemma cstep_inv w w' : cstep today w w' → conc_inv w → conc_inv w'.
Proof.
  intros [db qs i q db' q' Hi Hp] [Hwf Hqs].
  destruct (phase_ok q db db' q' Hwf (Forall_lookup_1 _ _ _ _ Hqs Hi) Hp) as (Hwf' & Hq' & Hs).
  split; [done|]. apply Forall_insert; [|done].
  eapply Forall_impl; [exact Hqs|]. intros q''. apply req_ok_mono; [exact (phase_schema _ _ _ _ Hp) | done].
Qed.

Lemma rtc_conc_inv w w' : rtc (cstep today) w w' → conc_inv w → conc_inv w'.
Proof. induction 1; eauto using cstep_inv. Qed.

Lemma arrived_req_ok db qs : Forall (λ q, arrived q = true) qs → Forall (req_ok db) qs.
Proof. intros H. eapply Forall_impl; [exact H|]. by intros [] ?. Qed.

(** C12: on the deployed table (no constraint, commits accepted), under
    every interleaving of concurrent adds, primary keys stay distinct
    and a request fails only at the gate, with status 401, or because
    the day's total leaves the range of the [minutes] column: the row a
    request loaded or created is always found again, so no interleaving
    makes [db.refresh] raise. *)
Theorem interleaving_safe db qs w :
  schema_unique db = false → commit_ok db = true →
  ids_wf db → Forall (λ q, arrived q = true) qs → rtc (cstep today) (db, qs) w →
  NoDup (ids w.1) ∧
  ∀ i e, w.2 !! i = Some (Answered (Raise e)) → status_of e = 401 ∨ e = range_error.
Proof.
  intros Hu Hc Hwf Har Hr. pose proof (rtc_schema _ _ Hr) as (Hu' & Hc' & _). simpl in Hu', Hc'.
  destruct (rtc_conc_inv _ _ Hr) as [[Hnd _] Hqs]; [split; [done|by apply arrived_req_ok]|].
  split; [done|]. intros i e Hi.
  destruct (Forall_lookup_1 _ _ _ _ Hqs Hi) as [H|[[H _]|[[H _]|H]]]; [by left|congruence|congruence|by right].
Qed.

Lemma rtc_keys w w' :
  rtc (cstep today) w w' → schema_unique w.1 = true → keys_ok w.1 → keys_ok w'.1.
Proof.
  induction 1 as [|w1 w2 w3 [db1 qs1 i q db' q' _ Hp] _ IH]; intros Hu Hk; [done|].
  simpl in *. apply IH; simpl; [destruct (phase_schema _ _ _ _ Hp) as (-> & _); done | by eapply phase_keys].
Qed.

(** With a [UNIQUE(user_id, date)] constraint, no interleaving of
    concurrent adds leaves two rows for one (user, day): the table keeps
    the data model's invariant whatever the order of statements. *)
Lemma unique_constraint_no_duplicates db qs w :
  schema_unique db = true → NoDup (key <$> rows db) → rtc (cstep today) (db, qs) w →
  NoDup (key <$> rows w.1).
Proof. intros Hu Hk Hr. exact (rtc_keys _ _ Hr Hu Hk). Qed.

(** ** Every interleaving ends, and every request can finish *)

Lemma phase_todo q db db' q' : phase today q db = Some (db', q') → (todo q' < todo q)%nat.
Proof.
  destruct q as [token m|m sel|id|r]; cbn [phase]; intros Hp; try discriminate;
    [destruct (add_select today token db) as [? [?|?]]
    |destruct (add_commit today m sel db) as [? [?|?]]
    |destruct (add_refresh today id db) as [? [?|?]]];
    cbn [resume] in Hp; injection Hp as <- <-; simpl; lia.
Qed.

Lemma phase_some q db : answered q = false → ∃ p, phase today q db = Some p.
Proof. destruct q; simpl; by eauto. Qed.

Lemma todo_all_insert qs i q q' :
  qs !! i = Some q → (todo_all (<[i := q']> qs) + todo q = todo_all qs + todo q')%nat.
Proof.
  revert i. induction qs as [|q0 qs IH]; intros [|i] Hi; simpl in *; try discriminate.
  - injection Hi as ->. lia.
  - specialize (IH i Hi). lia.
Qed.

Lemma cstep_todo w w' : cstep today w w' → (todo_all w'.2 < todo_all w.2)%nat.
Proof.
  intros [db qs i q db' q' Hi Hp]. simpl.
  pose proof (todo_all_insert qs i q q' Hi). pose proof (phase_todo _ _ _ _ Hp). lia.
Qed.

Lemma interleavings_wf : well_founded (λ w' w, cstep today w w').
Proof.
  apply (wf_incl _ _ (ltof _ (λ w, todo_all w.2))); [|apply well_founded_ltof].
  intros w' w H. exact (cstep_todo _ _ H).
Qed.

Lemma todo_all_le qs : (todo_all qs <= 3 * length qs)%nat.
Proof. induction qs as [|q qs IH]; simpl; [lia|]. destruct q; simpl; lia. Qed.

Lemma nsteps_todo n w w' : nsteps (cstep today) n w w' → (n + todo_all w'.2 <= todo_all w.2)%nat.
Proof. induction 1 as [|n w1 w2 w3 Hs _ IH]; [lia|]. pose proof (cstep_todo _ _ Hs). lia. Qed.

(** No interleaving of concurrent adds runs forever: [n] requests
    take at most [3 n] steps, whatever the order. *)
Lemma interleavings_terminate n w w' :
  nsteps (cstep today) n w w' → (n <= 3 * length w.2)%nat.
Proof. intros H. pose proof (nsteps_todo _ _ _ H). pose proof (todo_all_le w.2). lia. Qed.

(** A request not yet answered is a step away from its next phase. *)
Lemma cstep_progress db qs i q :
  qs !! i = Some q → answered q = false → ∃ w', cstep today (db, qs) w'.
Proof.
  intros Hi Hq. destruct (phase_some q db Hq) as [[db' q'] Hp]. eexists. by econstructor.
Qed.

(** Whatever has been interleaved so far, the requests in flight can
    all be run to an answer. *)
Lemma interleaving_completes w :
  ∃ w', rtc (cstep today) w w' ∧ Forall (λ q, answered q = true) w'.2.
Proof.
  induction w as [[db qs] IH] using (well_founded_induction interleavings_wf).
  destruct (decide (Forall (λ q, answered q = true) qs)) as [Hall|Hn]; [by exists (db, qs)|].
  apply not_Forall_Exists, Exists_exists in Hn as (q & Hq & Hna); [|apply _].
  apply list_elem_of_lookup_1 in Hq as [i Hi].
  destruct (cstep_progress db qs i q Hi) as [w' Hs]; [by apply not_true_is_false|].
  destruct (IH w' Hs) as (w'' & Hr & Hw''). exists w''. split; [|done]. by eapply rtc_l.
Qed.

End Safety.

(** ** The hardened design: atomic adds *)

Section Atomic.
Context `{V : TokenVerifier}.
Variable today : date.

Lemma arun_rtc sched w : rtc (astep today) w (arun today sched w).
Proof.
  revert w. induction sched as [|i sched IH]; intros [db qs]; simpl; [done|].
  destruct (qs !! i) as [[token m| | |]|] eqn:Hi; try apply IH.
  eapply rtc_l; [by econstructor|]. apply IH.
Qed.

Lemma arrived_sum_insert f qs i token m r :
  qs !! i = Some (Arrived token m) → arrived_sum f (<[i := Answered r]> qs) + f m = arrived_sum f qs.
Proof.
  revert i. induction qs as [|q qs IH]; intros [|i] Hi; simpl in *; try discriminate.
  - injection Hi as ->. lia.
  - specialize (IH i Hi). destruct q; lia.
Qed.

Lemma arrived_abs_nonneg qs : 0 <= arrived_abs qs.
Proof. induction qs as [|[] qs IH]; unfold arrived_abs in *; simpl; lia. Qed.

Lemma arrived_minutes_answered qs : Forall (λ q, answered q = true) qs → arrived_minutes qs = 0.
Proof. induction 1 as [|q qs Hq _ IH]; [done|]. by destruct q. Qed.

(** Besides the table invariant and the running sum, the column has
    room for the requests still to come, in any order. *)
Definition atomic_inv (u : string) (total : Z) (w : Db * list req) : Prop :=
  db_inv w.1 ∧ commit_ok w.1 = true ∧ Forall (by_user u) w.2 ∧
  stored_minutes w.1 u today + arrived_minutes w.2 = total ∧
  - 2 ^ (int_bits w.1 - 1) <= stored_minutes w.1 u today - arrived_abs w.2 ∧
  stored_minutes w.1 u today + arrived_abs w.2 < 2 ^ (int_bits w.1 - 1).

Lemma astep_inv u total w w' :
  valid_date today = true → astep today w w' → atomic_inv u total w → atomic_inv u total w'.
Proof.
  intros Ht [db qs i token m Hi] (Hinv & Hok & Hby & Hsum & Hlo & Hhi).
  pose proof (Forall_lookup_1 _ _ _ _ Hby Hi) as Ha. simpl in Ha.
  pose proof (arrived_sum_insert (λ m, m) qs i token m
                (Ok (mkAddResponse "Study time added" (isoformat today) (stored_minutes db u today + m))) Hi).
  pose proof (arrived_sum_insert Z.abs qs i token m
                (Ok (mkAddResponse "Study time added" (isoformat today) (stored_minutes db u today + m))) Hi).
  pose proof (arrived_abs_nonneg (<[i := Answered (Ok (mkAddResponse "Study time added" (isoformat today)
                                   (stored_minutes db u today + m)))]> qs)).
  unfold arrived_minutes, arrived_abs in *. cbn [fst snd] in *.
  assert (Hf : fits db (stored_minutes db u today + m) = true) by (apply fits_spec; lia).
  destruct (add_study_time_step today token m u db Hinv Hok Hf Ht Ha) as (db' & E & Hinv' & Hs).
  pose proof (add_study_time_schema today token m db) as (_ & Hc & Hb). rewrite E in Hc, Hb |- *.
  unfold atomic_inv. cbn [fst snd] in *. rewrite Hs. unfold spec_record. rewrite decide_True by done.
  split; [done|]. split; [congruence|]. split; [by apply Forall_insert|]. rewrite Hb. unfold arrived_minutes, arrived_abs. lia.
Qed.

Lemma rtc_atomic_inv u total w w' :
  valid_date today = true → rtc (astep today) w w' → atomic_inv u total w → atomic_inv u total w'.
Proof. intros Ht. induction 1; eauto using astep_inv. Qed.

(** C10: the hardened design of spec sections 5 and 9: when each add
    runs atomically and the [minutes] column has room for the requests
    in any order, concurrent adds of a user on a day all succeed, keep
    one row per (user, day), and once all are served the stored minutes
    are the initial ones plus the sum of all the requests. *)
Theorem atomic_adds_sum u db qs w :
  db_inv db → commit_ok db = true → valid_date today = true → Forall (by_user u) qs →
  - 2 ^ (int_bits db - 1) <= stored_minutes db u today - arrived_abs qs →
  stored_minutes db u today + arrived_abs qs < 2 ^ (int_bits db - 1) →
  rtc (astep today) (db, qs) w →
  db_inv w.1 ∧ Forall (by_user u) w.2 ∧
  (Forall (λ q, answered q = true) w.2 →
   stored_minutes w.1 u today = stored_minutes db u today + arrived_minutes qs).
Proof.
  intros Hinv Hok Ht Hby Hlo Hhi Hr.
  destruct (rtc_atomic_inv u (stored_minutes db u today + arrived_minutes qs) _ _ Ht Hr)
    as (Hinv' & _ & Hby' & Hsum & _); [done|].
  split; [done|]. split; [done|]. intros Hall. rewrite arrived_minutes_answered in Hsum by done.
  lia.
Qed.

(** A schedule that runs a request's three phases with no other
    request in between is one atomic step: the interleaving model
    refines to the hardened one exactly on serial schedules. *)
Lemma serial_refines_atomic db qs i token m :
  qs !! i = Some (Arrived token m) → astep today (db, qs) (run today [i; i; i] (db, qs)).
Proof. intros Hi. rewrite (phases_serial today qs i token m db Hi). by constructor. Qed.

End Atomic.

(** ** The race of spec section 5 *)

Section Race.
Context `{V : TokenVerifier}.
Variable today : date.

Lemma phase_arrived token m u db :
  authenticate token = Ok u →
  phase today (Arrived token m) db
  = Some (emit (SelectFirst u today) db, Selected m (u, head (filter (is_key u today) (rows db)))).
Proof. intros Ha. cbn [phase]. by rewrite (add_select_run today token u db Ha). Qed.

Lemma phase_selected m sel db db' id :
  add_commit today m sel db = (db', Ok id) → phase today (Selected m sel) db = Some (db', Committed id).
Proof. intros E. cbn [phase]. by rewrite E. Qed.

Lemma phase_selected_raise m sel db db' e :
  add_commit today m sel db = (db', Raise e) →
  phase today (Selected m sel) db = Some (db', Answered (Raise e)).
Proof. intros E. cbn [phase]. by rewrite E. Qed.

Lemma phase_committed db r :
  NoDup (log_id <$> rows db) → r ∈ rows db →
  phase today (Committed (log_id r)) db
  = Some (emit (SelectById (log_id r)) db,
          Answered (Ok (mkAddResponse "Study time added" (isoformat today) (minutes r)))).
Proof. intros Hnd Hr. cbn [phase]. by rewrite add_refresh_row. Qed.

(** One step of a [run] on a two-request list. *)
Ltac race_step H :=
  erewrite run_step; [| reflexivity | refine H]; cbn [list_insert insert].

(** The commit of a first add of the day: an [INSERT]. *)
Lemma add_commit_insert m u db :
  commit_ok db = true → fits db m = true → schema_unique db = false →
  add_commit today m (u, None) db
  = (emit CommitTx (emit (Insert (next_id db)) (db_insert u today m db)), Ok (next_id db)).
Proof.
  intros Hok Hf Hs. apply add_commit_new_run; [done..|]. unfold violates. by rewrite Hs.
Qed.

Lemma stored_set_minutes_id db r id m u' d' :
  db_inv db → r ∈ rows db → log_id r = id →
  stored_minutes (db_set_minutes id m db) u' d' =
  if decide (key r = (u', d')) then m else stored_minutes db u' d'.
Proof. intros Hinv Hr <-. by apply stored_set_minutes. Qed.

Lemma ids_wf_inv db : db_inv db → ids_wf db.
Proof. intros Hinv. split; [apply (inv_ids _ Hinv)|apply (inv_fresh _ Hinv)]. Qed.

(** The race of two first adds of the day without a constraint: the
    outcome of the schedule where both read before either commits. *)
Lemma racy_run_absent token m1 m2 u db :
  authenticate token = Ok u → db_inv db → commit_ok db = true → schema_unique db = false →
  (u, today) ∉ key <$> rows db → fits db m1 = true → fits db m2 = true →
  ∃ db', run today racy_schedule (db, [Arrived token m1; Arrived token m2])
         = (db', [Answered (Ok (mkAddResponse "Study time added" (isoformat today) m1));
                  Answered (Ok (mkAddResponse "Study time added" (isoformat today) m2))]) ∧
    rows db' = rows db ++ [mkLog (next_id db) u today m1; mkLog (next_id db + 1) u today m2].
Proof.
  intros Ha Hinv Hok Hs Hn Hf1 Hf2. unfold racy_schedule.
  pose proof (filter_key_none _ _ _ Hn) as Hnil.
  race_step uconstr:(phase_arrived token m1 u db Ha). rewrite Hnil.
  race_step uconstr:(phase_arrived token m2 u _ Ha). cbn [rows emit head]. rewrite Hnil.
  set (db1 := emit (SelectFirst u today) (emit (SelectFirst u today) db)).
  race_step uconstr:(phase_selected _ _ _ _ _ (add_commit_insert m1 u db1 Hok Hf1 Hs)).
  set (db1' := emit CommitTx (emit (Insert (next_id db)) (db_insert u today m1 db1))).
  race_step uconstr:(phase_selected _ _ _ _ _ (add_commit_insert m2 u db1' Hok Hf2 Hs)).
  set (db2 := emit CommitTx (emit (Insert (next_id db1')) (db_insert u today m2 db1'))).
  assert (Hwf : NoDup (log_id <$> rows db2))
    by (apply ids_wf_insert, ids_wf_insert, ids_wf_inv; unfold db1; auto with pydb).
  assert (Hr1 : mkLog (next_id db) u today m1 ∈ rows db2)
    by (cbn; rewrite <- app_assoc; apply elem_of_app; right; by left).
  race_step uconstr:(phase_committed db2 _ Hwf Hr1).
  race_step uconstr:(phase_committed (emit (SelectById (next_id db)) db2)
                       (mkLog (next_id db1') u today m2) Hwf (inserted_elem db1' u today m2)).
  eexists. split; [reflexivity|]. cbn. by rewrite <- app_assoc.
Qed.

(** The same race under the [UNIQUE(user_id, date)] constraint: the
    second [INSERT] violates it. *)
Lemma racy_run_unique token m1 m2 u db :
  authenticate token = Ok u → db_inv db → commit_ok db = true → schema_unique db = true →
  (u, today) ∉ key <$> rows db → fits db m1 = true → fits db m2 = true →
  ∃ db', run today racy_schedule (db, [Arrived token m1; Arrived token m2])
         = (db', [Answered (Ok (mkAddResponse "Study time added" (isoformat today) m1));
                  Answered (Raise integrity_error)]) ∧
    rows db' = rows db ++ [mkLog (next_id db) u today m1].
Proof.
  intros Ha Hinv Hok Hs Hn Hf1 Hf2. unfold racy_schedule.
  pose proof (filter_key_none _ _ _ Hn) as Hnil.
  race_step uconstr:(phase_arrived token m1 u db Ha). rewrite Hnil.
  race_step uconstr:(phase_arrived token m2 u _ Ha). cbn [rows emit head]. rewrite Hnil.
  set (db1 := emit (SelectFirst u today) (emit (SelectFirst u today) db)).
  race_step uconstr:(phase_selected _ _ _ _ _ (add_commit_new_run today m1 u db1 Hok Hf1 (violates_absent _ _ _ Hn))).
  set (db1' := emit CommitTx (emit (Insert (next_id db)) (db_insert u today m1 db1))).
  assert (Hv : violates u today db1' = true).
  { unfold violates. change (schema_unique db1') with (schema_unique db). rewrite Hs. apply bool_decide_eq_true.
    cbn. rewrite fmap_app. apply elem_of_app. right. by left. }
  race_step uconstr:(phase_selected_raise _ _ _ _ _ (add_commit_violation today m2 u db1' Hf2 Hv)).
  set (db2 := rollback db1' _).
  assert (Hwf : NoDup (log_id <$> rows db2))
    by (apply ids_wf_insert, ids_wf_inv; unfold db1; auto with pydb).
  race_step uconstr:(phase_committed db2 (mkLog (next_id db) u today m1) Hwf (inserted_elem db1 u today m1)).
  erewrite run_answered by reflexivity. by eexists.
Qed.

(** The race of two adds on a day that has a row: both write the value
    computed from the row as they loaded it. *)
Lemma racy_run_row token m1 m2 u db l :
  authenticate token = Ok u → db_inv db → commit_ok db = true → l ∈ rows db → key l = (u, today) →
  fits db (minutes l + m1) = true → fits db (minutes l + m2) = true →
  ∃ db', run today racy_schedule (db, [Arrived token m1; Arrived token m2])
         = (db', [Answered (Ok (mkAddResponse "Study time added" (isoformat today) (minutes l + m2)));
                  Answered (Ok (mkAddResponse "Study time added" (isoformat today) (minutes l + m2)))]) ∧
    db_inv db' ∧
    ∀ u' d', stored_minutes db' u' d' = spec_record (stored_minutes db) u today m2 u' d'.
Proof.
  intros Ha Hinv Hok Hl Hk Hf1 Hf2. unfold racy_schedule.
  pose proof (filter_key_unique _ _ _ _ (inv_keys _ Hinv) Hl Hk) as Hone.
  race_step uconstr:(phase_arrived token m1 u db Ha). rewrite Hone.
  race_step uconstr:(phase_arrived token m2 u _ Ha). cbn [rows emit head]. rewrite Hone.
  set (db1 := emit (SelectFirst u today) (emit (SelectFirst u today) db)).
  race_step uconstr:(phase_selected _ _ _ _ _ (add_commit_dirty_run today m1 u l db1 Hok Hf1)).
  set (db1' := emit CommitTx (emit (Update (log_id l)) (db_set_minutes (log_id l) (minutes l + m1) db1))).
  race_step uconstr:(phase_selected _ _ _ _ _ (add_commit_dirty_run today m2 u l db1' Hok Hf2)).
  set (db2 := emit CommitTx (emit (Update (log_id l)) (db_set_minutes (log_id l) (minutes l + m2) db1'))).
  assert (Hinv1 : db_inv db1) by (unfold db1; auto with pydb).
  assert (Hinv1' : db_inv db1') by (unfold db1'; auto with pydb).
  assert (Hinv2 : db_inv db2) by (unfold db2; auto with pydb).
  set (r1 := mkLog (log_id l) (user_id l) (log_date l) (minutes l + m1)).
  set (r2 := mkLog (log_id l) (user_id l) (log_date l) (minutes l + m2)).
  assert (Hr1 : r1 ∈ rows db1').
  { unfold r1. rewrite <- (set_minutes_self (log_id l) (minutes l + m1) l) by done.
    by apply set_minutes_elem. }
  assert (Hr2 : r2 ∈ rows db2).
  { unfold r2. change (mkLog (log_id r1) (user_id r1) (log_date r1) (minutes l + m2) ∈ rows db2).
    rewrite <- (set_minutes_self (log_id r1) (minutes l + m2) r1) by done.
    exact (set_minutes_elem db1' r1 (minutes l + m2) Hr1). }
  race_step uconstr:(phase_committed db2 r2 (inv_ids _ Hinv2) Hr2).
  race_step uconstr:(phase_committed (emit (SelectById (log_id l)) db2) r2 (inv_ids _ Hinv2) Hr2).
  eexists. split; [reflexivity|]. split; [by apply db_inv_emit_2, db_inv_emit_2|].
  intros u' d'. rewrite !stored_minutes_emit. unfold db2, spec_record.
  rewrite !stored_minutes_emit, (stored_set_minutes_id db1' r1) by done.
  unfold db1'. rewrite !stored_minutes_emit, (stored_set_minutes_id db1 l) by done.
  unfold db1. rewrite !stored_minutes_emit.
  assert (Hm : stored_minutes db u today = minutes l).
  { unfold key in Hk. injection Hk as <- <-. by apply stored_minutes_row. }
  rewrite Hm. change (key r1) with (key l). rewrite Hk.
  by destruct (decide ((u, today) = (u', d'))).
Qed.

(** C7: the race of spec section 5, duplicate rows.  On any table
    without a row for (u, today) and without the UNIQUE constraint, when
    two first adds of the day by u both read (line 30) before either
    commits (line 38), both take the [else] branch: both are answered
    with their own minutes, and the table ends with two rows for
    (u, today), against the data model's one row per (user, day). *)
Theorem race_duplicate_rows token m1 m2 u db :
  authenticate token = Ok u → db_inv db → commit_ok db = true → schema_unique db = false →
  (u, today) ∉ key <$> rows db → fits db m1 = true → fits db m2 = true →
  ∃ db', run today racy_schedule (db, [Arrived token m1; Arrived token m2])
         = (db', [Answered (Ok (mkAddResponse "Study time added" (isoformat today) m1));
                  Answered (Ok (mkAddResponse "Study time added" (isoformat today) m2))]) ∧
    filter (is_key u today) (rows db') = [mkLog (next_id db) u today m1; mkLog (next_id db + 1) u today m2].
Proof.
  intros Ha Hinv Hok Hs Hn Hf1 Hf2.
  destruct (racy_run_absent token m1 m2 u db Ha Hinv Hok Hs Hn Hf1 Hf2) as (db' & E & Hr).
  exists db'. split; [done|]. rewrite Hr, filter_app, (filter_key_none _ _ _ Hn), !filter_cons.
  by rewrite !decide_True by done.
Qed.

(** C8: the race of spec section 5, lost update.  On any well-formed
    table where u has a row for today, when two adds of [m1] and [m2]
    both read the row before either commits, each writes the total it
    computed from the row as loaded: both are answered with the second
    one's total, and the table is exactly as if only the add of [m2]
    had run ([spec_record] with [m2]); the [m1] minutes are lost. *)
Theorem race_lost_update token m1 m2 u db l :
  authenticate token = Ok u → db_inv db → commit_ok db = true → l ∈ rows db → key l = (u, today) →
  fits db (minutes l + m1) = true → fits db (minutes l + m2) = true →
  ∃ db', run today racy_schedule (db, [Arrived token m1; Arrived token m2])
         = (db', [Answered (Ok (mkAddResponse "Study time added" (isoformat today) (minutes l + m2)));
                  Answered (Ok (mkAddResponse "Study time added" (isoformat today) (minutes l + m2)))]) ∧
    db_inv db' ∧
    ∀ u' d', stored_minutes db' u' d' = spec_record (stored_minutes db) u today m2 u' d'.
Proof. apply racy_run_row. Qed.

(** C11: the race under the UNIQUE(user_id, date) constraint of spec
    section 9.  On any table without a row for (u, today), of two first
    adds of the day that both read before either commits, the one that
    commits second violates the constraint and is answered 500 with the
    [IntegrityError]; one row is added, with the first request's
    minutes, and the second request's minutes are not stored. *)
Theorem race_unique_constraint token m1 m2 u db :
  authenticate token = Ok u → db_inv db → commit_ok db = true → schema_unique db = true →
  (u, today) ∉ key <$> rows db → fits db m1 = true → fits db m2 = true →
  ∃ db', run today racy_schedule (db, [Arrived token m1; Arrived token m2])
         = (db', [Answered (Ok (mkAddResponse "Study time added" (isoformat today) m1));
                  Answered (Raise integrity_error)]) ∧
    rows db' = rows db ++ [mkLog (next_id db) u today m1] ∧ status_of integrity_error = 500.
Proof.
  intros Ha Hinv Hok Hs Hn Hf1 Hf2.
  destruct (racy_run_unique token m1 m2 u db Ha Hinv Hok Hs Hn Hf1 Hf2) as (db' & E & Hr).
  by exists db'.
Qed.

End Race.

(** ** Witnesses *)

Lemma alice_db_inv : db_inv alice_db.
Proof. constructor; cbn; repeat constructor; set_solver. Qed.

Lemma race_duplicate_rows_witness :
  ∃ db', @run demo_verifier day_2024_03_12 racy_schedule (empty_db, two_adds)
         = (db', [Answered (Ok (mkAddResponse "Study time added" (isoformat day_2024_03_12) 30));
                  Answered (Ok (mkAddResponse "Study time added" (isoformat day_2024_03_12) 15))]) ∧
    filter (is_key "alice" day_2024_03_12) (rows db')
    = [mkLog 1 "alice" day_2024_03_12 30; mkLog (1 + 1) "alice" day_2024_03_12 15].
Proof.
  apply (@race_duplicate_rows demo_verifier day_2024_03_12 "tok-alice" 30 15 "alice" empty_db);
    [reflexivity | exact empty_db_inv | reflexivity | reflexivity | apply not_elem_of_nil
    | reflexivity | reflexivity].
Defined.

Lemma race_lost_update_witness :
  ∃ db', @run demo_verifier day_2024_03_12 racy_schedule (alice_db, two_adds)
         = (db', [Answered (Ok (mkAddResponse "Study time added" (isoformat day_2024_03_12) (10 + 15)));
                  Answered (Ok (mkAddResponse "Study time added" (isoformat day_2024_03_12) (10 + 15)))]) ∧
    db_inv db' ∧
    ∀ u' d', stored_minutes db' u' d'
             = spec_record (stored_minutes alice_db) "alice" day_2024_03_12 15 u' d'.
Proof.
  apply (@race_lost_update demo_verifier day_2024_03_12 "tok-alice" 30 15 "alice" alice_db
           (mkLog 1 "alice" day_2024_03_12 10));
    [reflexivity | exact alice_db_inv | reflexivity | by left | reflexivity | reflexivity | reflexivity].
Defined.

Lemma race_unique_constraint_witness :
  ∃ db', @run demo_verifier day_2024_03_12 racy_schedule (unique_empty_db, two_adds)
         = (db', [Answered (Ok (mkAddResponse "Study time added" (isoformat day_2024_03_12) 30));
                  Answered (Raise integrity_error)]) ∧
    rows db' = rows unique_empty_db ++ [mkLog 1 "alice" day_2024_03_12 30] ∧ status_of integrity_error = 500.
Proof.
  apply (@race_unique_constraint demo_verifier day_2024_03_12 "tok-alice" 30 15 "alice" unique_empty_db);
    [reflexivity | split; cbn; repeat constructor | reflexivity | reflexivity | apply not_elem_of_nil
    | reflexivity | reflexivity].
Defined.

Lemma interleaving_safe_witness :
  NoDup (ids (@run demo_verifier day_2024_03_12 racy_schedule (empty_db, two_adds)).1) ∧
  ∀ i e, (@run demo_verifier day_2024_03_12 racy_schedule (empty_db, two_adds)).2 !! i
         = Some (Answered (Raise e)) → status_of e = 401 ∨ e = range_error.
Proof.
  apply (@interleaving_safe demo_verifier day_2024_03_12 empty_db two_adds).
  - reflexivity.
  - reflexivity.
  - split; constructor.
  - repeat constructor.
  - apply run_rtc.
Defined.

Lemma atomic_adds_sum_witness :
  db_inv (@arun demo_verifier day_2024_03_12 [0; 1]%nat (alice_db, two_adds)).1 ∧
  Forall (@by_user demo_verifier "alice") (@arun demo_verifier day_2024_03_12 [0; 1]%nat (alice_db, two_adds)).2 ∧
  (Forall (λ q, answered q = true) (@arun demo_verifier day_2024_03_12 [0; 1]%nat (alice_db, two_adds)).2 →
   stored_minutes (@arun demo_verifier day_2024_03_12 [0; 1]%nat (alice_db, two_adds)).1 "alice" day_2024_03_12
   = stored_minutes alice_db "alice" day_2024_03_12 + arrived_minutes two_adds).
Proof.
  apply (@atomic_adds_sum demo_verifier day_2024_03_12 "alice" alice_db two_adds).
  - exact alice_db_inv.
  - reflexivity.
  - reflexivity.
  - repeat constructor.
  - vm_compute. discriminate.
  - reflexivity.
  - apply arun_rtc.
Defined.

End Concurrency.
