(* ===== verification/App.v ===== *)
(** * App: what FastAPI does around the two handlers

    Lines 12-16 of [src/routers/study_router.py] are what the framework
    runs before a handler: the [APIRouter] with its two routes (lines
    12, 18, 43), the dependency [bearer_scheme = HTTPBearer()] (line
    13) and the body model [StudyTimeRequest] (lines 15-16).  For a
    request, FastAPI (on Starlette) picks the route by path and method
    (405 when only the path matches, 404 or a slash redirect
    otherwise), decodes a JSON body (422 if it is not JSON), solves the
    dependencies in parameter order ([HTTPBearer] answers a missing or
    non-Bearer [Authorization] header itself), validates the body
    against [StudyTimeRequest] (422), then calls the handler, and turns
    an exception that leaves it into a response ([HTTPException] with
    its code, anything else 500).  [app] is that pipeline, composed
    with [StudyRouter]'s handlers.  The status [HTTPBearer] answers is
    a parameter [bearer_status]: 403 in the FastAPI releases this
    router was written for, 401 in later ones.  pydantic's lax [int]
    coercion is an interface [IntValidator] whose laws are the cases
    every pydantic release agrees on. *)

From S2P Require Import Prelude PyDate DateText Auth Store StudyRouter.
From stdpp Require Import gmap.
From Stdlib Require Import Ascii.
Import PyDate DateText Auth Store StudyRouter.

Open Scope Z_scope.
Open Scope py_scope.

Module App.

(** ** Data of the HTTP layer *)

(** JSON values as Python's [json] module decodes them: an integer
    literal is an [int], a literal with a fraction or an exponent a
    finite [float], here [mant * 2 ^ exp]; objects keep their pairs in
    the order of the text.  No proof inducts on JSON values. *)
#[local] Unset Elimination Schemes.
Inductive json :=
| JNull
| JBool (b : bool)
| JInt (z : Z)
| JFloat (mant exp : Z)
| JStr (s : string)
| JArr (xs : list json)
| JObj (kvs : list (string * json)).
#[local] Set Elimination Schemes.

(** The body as FastAPI reads it: empty, bytes that do not decode as
    JSON, or a decoded value. *)
Inductive body_in := NoBody | BadJSON | JSONBody (j : json).

(** An ASGI request: header names arrive lower-cased (ASGI requires
    it), in the order sent. *)
Record request := mkRequest {
  method : string; path : string;
  headers : list (string * string); query : list (string * string);
  body : body_in }.

Inductive payload :=
| PAdd (r : AddResponse)
| PWeek (r : WeekResponse)
| PDetail (detail : string)
| PValidationError.

Record response := mkResponse { status : Z; payload_of : payload }.

(** ** Strings *)

Definition ascii_lower (c : ascii) : ascii :=
  let n := nat_of_ascii c in
  if (65 <=? n)%nat && (n <=? 90)%nat then ascii_of_nat (n + 32) else c.

(** [str.lower()] on ASCII text. *)
Fixpoint str_lower (s : string) : string :=
  match s with
  | EmptyString => EmptyString
  | String c s' => String (ascii_lower c) (str_lower s')
  end.

(** [s.partition(" ")] without the separator: the text before the
    first space and the text after it ([(s, "")] without a space). *)
Fixpoint partition_space (s : string) : string * string :=
  match s with
  | EmptyString => (EmptyString, EmptyString)
  | String c s' =>
      if decide (c = " "%char) then (EmptyString, s')
      else let '(a, b) := partition_space s' in (String c a, b)
  end.

(** Starlette's [Headers.get]: the first header of that name. *)
Fixpoint header_get (k : string) (hs : list (string * string)) : option string :=
  match hs with
  | [] => None
  | (n, v) :: hs' => if decide (n = str_lower k) then Some v else header_get k hs'
  end.

(** A lookup where the last pair of the key wins: Python's [json] on
    duplicate object keys, Starlette's [QueryParams.get]. *)
Definition last_value {A} (k : string) (kvs : list (string * A)) : option A :=
  foldl (λ acc kv, if decide (kv.1 = k) then Some kv.2 else acc) None kvs.

(** ** Routing (lines 12, 18, 43) *)

Inductive endpoint := AddStudyTime | GetWeek.

(** [router = APIRouter()] with [@router.post("/api/study_logs")] and
    [@router.get("/api/study_logs")], in declaration order. *)
Definition routes : list (string * string * endpoint) :=
  [("/api/study_logs", "POST", AddStudyTime); ("/api/study_logs", "GET", GetWeek)].

Inductive route_match := Full (e : endpoint) | Partial | NoMatch.

(** Starlette's [Router]: the first route matching path and method; a
    route matching the path only is remembered for a 405. *)
Fixpoint match_routes (m p : string) (rs : list (string * string * endpoint))
    (partial : bool) : route_match :=
  match rs with
  | [] => if partial then Partial else NoMatch
  | (p', m', e) :: rs' =>
      if decide (p' = p) then
        if decide (m' = m) then Full e else match_routes m p rs' true
      else match_routes m p rs' partial
  end.

(** [path.rstrip("/")]. *)
Fixpoint rstrip_slash (s : string) : string :=
  match s with
  | EmptyString => EmptyString
  | String c s' =>
      let r := rstrip_slash s' in
      if bool_decide (r = EmptyString) && bool_decide (c = "/"%char) then EmptyString else String c r
  end.

Definition ends_with_slash (s : string) : bool :=
  bool_decide (rstrip_slash s ≠ s).

(** With [redirect_slashes], a path that matches no route is retried
    without its trailing slashes, or with one added. *)
Definition slash_variant (p : string) : string :=
  if ends_with_slash p then rstrip_slash p else (p +:+ "/")%string.

(** ** The dependency [HTTPBearer()] (line 13) *)

Record credentials := mkCredentials { scheme : string; cred : string }.

(** [fastapi.security.utils.get_authorization_scheme_param]. *)
Definition get_authorization_scheme_param (v : option string) : string * string :=
  match v with
  | None | Some EmptyString => (EmptyString, EmptyString)
  | Some s => partition_space s
  end.

Section Framework.
(** The status [HTTPBearer] answers a request it rejects with. *)
Context (bearer_status : Z).

(** [HTTPBearer.__call__] with [auto_error=True]. *)
Definition bearer_scheme (hs : list (string * string)) : result credentials :=
  let authorization := header_get "Authorization" hs in
  let '(sch, cr) := get_authorization_scheme_param authorization in
  if decide (authorization = None ∨ sch = EmptyString ∨ cr = EmptyString) then
    raise (HTTPException bearer_status "Not authenticated")
  else if decide (str_lower sch ≠ "bearer") then
    raise (HTTPException bearer_status "Invalid authentication credentials")
  else mret (mkCredentials sch cr).

End Framework.

(** ** The body model [StudyTimeRequest] (lines 15-16) *)

(** pydantic's validation of an [int] field from JSON.  Releases differ
    on the lax coercions (booleans, integral floats, numeric strings);
    all take an integer as itself and refuse null, arrays and objects. *)
Class IntValidator := {
  validate_int : json → option Z;
  validate_int_int : ∀ z, validate_int (JInt z) = Some z;
  validate_int_null : validate_int JNull = None;
  validate_int_arr : ∀ xs, validate_int (JArr xs) = None;
  validate_int_obj : ∀ kvs, validate_int (JObj kvs) = None
}.

(** The strict mode of pydantic: integers only. *)
#[export] Instance strict_int : IntValidator.
Proof.
  refine {| validate_int := λ j, match j with JInt z => Some z | _ => None end |};
    done.
Defined.

Section Pipeline.
Context `{V : TokenVerifier} `{I : IntValidator} (bearer_status : Z).

(** [StudyTimeRequest] of the decoded body: an object with an [int] field
    [minutes]; other keys are ignored (pydantic's default). *)
Definition parse_StudyTimeRequest (b : body_in) : option Z :=
  match b with
  | JSONBody (JObj kvs) => last_value "minutes" kvs ≫= validate_int
  | _ => None
  end.

(** FastAPI's answer to an exception that leaves the handler. *)
Definition error_response (e : exn) : response :=
  match e with
  | HTTPException c d => mkResponse c (PDetail d)
  | _ => mkResponse 500 (PDetail "Internal Server Error")
  end.

Definition validation_error : response := mkResponse 422 PValidationError.

(** Runs a handler and serialises what it returns or raises. *)
Definition respond {A} (wrap : A → payload) (h : st Db A) (db : Db) : Db * response :=
  match h db with
  | (db', Ok a) => (db', mkResponse 200 (wrap a))
  | (db', Raise e) => (db', error_response e)
  end.

(** POST: the JSON body is decoded first, then the dependencies
    (the bearer, then [get_db], which sends no statement), then the
    body is validated, then [add_study_time] runs. *)
Definition run_add (today : date) (rq : request) (db : Db) : Db * response :=
  match body rq with
  | BadJSON => (db, validation_error)
  | b =>
      match bearer_scheme bearer_status (headers rq) with
      | Raise e => (db, error_response e)
      | Ok c =>
          match parse_StudyTimeRequest b with
          | None => (db, validation_error)
          | Some m => respond PAdd (add_study_time today (cred c) m) db
          end
      end
  end.

(** GET: the body is not read; [week_start = Query(None)] is the last
    value of the query parameter. *)
Definition run_week (today : date) (rq : request) (db : Db) : Db * response :=
  match bearer_scheme bearer_status (headers rq) with
  | Raise e => (db, error_response e)
  | Ok c => respond PWeek (get_study_logs_for_week today (cred c) (last_value "week_start" (query rq))) db
  end.

(** The application: routing, then the endpoint. *)
Definition app (today : date) (rq : request) (db : Db) : Db * response :=
  match match_routes (method rq) (path rq) routes false with
  | Full AddStudyTime => run_add today rq db
  | Full GetWeek => run_week today rq db
  | Partial => (db, mkResponse 405 (PDetail "Method Not Allowed"))
  | NoMatch =>
      if decide (path rq ≠ "/") then
        match match_routes (method rq) (slash_variant (path rq)) routes false with
        | NoMatch => (db, mkResponse 404 (PDetail "Not Found"))
        | _ => (db, mkResponse 307 (PDetail (slash_variant (path rq))))
        end
      else (db, mkResponse 404 (PDetail "Not Found"))
  end.

End Pipeline.

(** ** Lemmas *)

Lemma routes_post : match_routes "POST" "/api/study_logs" routes false = Full AddStudyTime.
Proof. reflexivity. Qed.

Lemma routes_get : match_routes "GET" "/api/study_logs" routes false = Full GetWeek.
Proof. reflexivity. Qed.

Lemma routes_other m :
  m ≠ "POST"%string → m ≠ "GET"%string → match_routes m "/api/study_logs" routes false = Partial.
Proof.
  intros Hp Hg. cbn -[decide]. rewrite decide_True by done.
  rewrite decide_False by congruence. rewrite decide_True by done. by rewrite decide_False by congruence.
Qed.

Lemma bearer_scheme_bearer bs hs t :
  header_get "Authorization" hs = Some ("Bearer " +:+ t)%string → t ≠ EmptyString →
  bearer_scheme bs hs = Ok (mkCredentials "Bearer" t).
Proof.
  intros H Ht. unfold bearer_scheme. rewrite H. simpl.
  change (("" +:+ t)%string) with t. by rewrite decide_False by (intros [?|[?|?]]; congruence).
Qed.

Lemma bearer_scheme_missing bs hs :
  header_get "Authorization" hs = None →
  bearer_scheme bs hs = Raise (HTTPException bs "Not authenticated").
Proof. intros H. unfold bearer_scheme. rewrite H. cbn -[decide]. by rewrite decide_True by auto. Qed.

Lemma bearer_scheme_status bs hs e : bearer_scheme bs hs = Raise e → status_of e = bs.
Proof.
  unfold bearer_scheme. destruct (get_authorization_scheme_param _).
  intros He. repeat case_decide; by inversion He.
Qed.

Lemma error_response_status e : status (error_response e) = status_of e.
Proof. by destruct e. Qed.

Lemma parse_minutes `{IntValidator} kvs m :
  last_value "minutes" kvs = Some (JInt m) → parse_StudyTimeRequest (JSONBody (JObj kvs)) = Some m.
Proof. intros Hk. cbn. rewrite Hk. apply validate_int_int. Qed.

Section Properties.
Context `{V : TokenVerifier} `{I : IntValidator} (bearer_status : Z).

(** C3: End to end, a POST to [/api/study_logs] with a bearer token of
    user [u] and a JSON body whose [minutes] is the integer [m], on a
    well-formed table whose database accepts commits and whose column
    holds the day's new total, is answered 200
    with today's date and the day's new total; the table stays
    well-formed and its minutes are those of [spec_record]. *)
Theorem app_add_end_to_end today hs q kvs t m u db :
  header_get "Authorization" hs = Some ("Bearer " +:+ t)%string → t ≠ EmptyString →
  authenticate t = Ok u → last_value "minutes" kvs = Some (JInt m) →
  db_inv db → commit_ok db = true → fits db (stored_minutes db u today + m) = true →
  valid_date today = true →
  ∃ db', app bearer_status today (mkRequest "POST" "/api/study_logs" hs q (JSONBody (JObj kvs))) db
         = (db', mkResponse 200 (PAdd (mkAddResponse "Study time added" (isoformat today)
                                                     (stored_minutes db u today + m)))) ∧
    db_inv db' ∧
    ∀ u' d', stored_minutes db' u' d' = spec_record (stored_minutes db) u today m u' d'.
Proof.
  intros Hh Ht Ha Hm Hinv Hok Hfit Hv.
  destruct (add_study_time_step today t m u db Hinv Hok Hfit Hv Ha) as (db' & Hrun & Hinv' & Hspec).
  exists db'. split; [|done].
  unfold app, run_add. cbn [method path body headers]. rewrite routes_post.
  rewrite (bearer_scheme_bearer _ _ _ Hh Ht), (parse_minutes _ _ Hm).
  unfold respond. cbn [cred]. by rewrite Hrun.
Qed.

(** C4: End to end, a GET of [/api/study_logs] with a bearer token of
    user [u], whatever its body, whose [week_start] (the last value of
    the query parameter) resolves to a start whose window stays in the
    calendar, on a well-formed table, sends one range query and is
    answered 200 with the seven days of [spec_week] and their sum. *)
Theorem app_week_end_to_end today hs q b t u db start :
  header_get "Authorization" hs = Some ("Bearer " +:+ t)%string → t ≠ EmptyString →
  authenticate t = Ok u → db_inv db → valid_date today = true →
  resolve_start today (last_value "week_start" q) = Ok start → toordinal start + 6 <= _MAXORDINAL →
  ∃ end_date, add_days start 6 = Ok end_date ∧
    app bearer_status today (mkRequest "GET" "/api/study_logs" hs q b) db
    = (emit (SelectRange u start end_date) db,
       mkResponse 200 (PWeek (mkWeekResponse (isoformat start) (spec_week (stored_minutes db) u start)
                                (py_sum ((λ d, stored_minutes db u d) <$> window start))))).
Proof.
  intros Hh Ht Ha Hinv Hv Hr Hmax.
  destruct (weekly_run today t _ u db start Hinv Hv Ha Hr Hmax) as (e & Ee & Hrun).
  exists e. split; [done|]. unfold app, run_week. cbn [method path headers query].
  rewrite routes_get, (bearer_scheme_bearer _ _ _ Hh Ht). unfold respond. cbn [cred].
  by rewrite Hrun.
Qed.

(** C13: What the framework answers before the handler runs, with no
    statement sent (the table is returned as it was): a request to
    [/api/study_logs] without an [Authorization] header is answered
    [bearer_status] "Not authenticated" by [HTTPBearer], not the 401 of
    [verify_token]; a POST whose body is not JSON is a 422 whatever its
    headers; a POST with a well-formed bearer header whose body is not
    a [StudyTimeRequest] is a 422 whatever the token, even one the
    verifier rejects; any other method is a 405. *)
Theorem app_rejects_before_handler today hs q b db :
  (header_get "Authorization" hs = None → b ≠ BadJSON →
     app bearer_status today (mkRequest "POST" "/api/study_logs" hs q b) db
       = (db, mkResponse bearer_status (PDetail "Not authenticated")) ∧
     app bearer_status today (mkRequest "GET" "/api/study_logs" hs q b) db
       = (db, mkResponse bearer_status (PDetail "Not authenticated"))) ∧
  app bearer_status today (mkRequest "POST" "/api/study_logs" hs q BadJSON) db = (db, validation_error) ∧
  (∀ c, bearer_scheme bearer_status hs = Ok c → parse_StudyTimeRequest b = None →
     app bearer_status today (mkRequest "POST" "/api/study_logs" hs q b) db = (db, validation_error)) ∧
  (∀ m, m ≠ "POST"%string → m ≠ "GET"%string →
     app bearer_status today (mkRequest m "/api/study_logs" hs q b) db
       = (db, mkResponse 405 (PDetail "Method Not Allowed"))).
Proof.
  split; [|split; [done|split]].
  - intros Hh Hb. unfold app, run_add, run_week. cbn [method path body headers].
    rewrite routes_post, routes_get, (bearer_scheme_missing _ _ Hh).
    split; [by destruct b|done].
  - intros c Hc Hp. unfold app, run_add. cbn [method path body headers].
    rewrite routes_post, Hc. destruct b; [by rewrite Hp|done|by rewrite Hp].
  - intros m Hp Hg. unfold app. cbn [method path]. by rewrite routes_other.
Qed.

End Properties.

(** ** Witnesses *)

Lemma app_add_end_to_end_witness :
  ∃ db', @app demo_verifier strict_int 403 day_2024_03_12
           (mkRequest "POST" "/api/study_logs" [("authorization", "Bearer tok-alice")] []
              (JSONBody (JObj [("minutes", JInt 30)]))) empty_db
         = (db', mkResponse 200 (PAdd (mkAddResponse "Study time added" "2024-03-12" 30))) ∧
    db_inv db'.
Proof.
  destruct (@app_add_end_to_end demo_verifier strict_int 403 day_2024_03_12
              [("authorization", "Bearer tok-alice")] [] [("minutes", JInt 30)]
              "tok-alice" 30 "alice" empty_db)
    as (db' & Happ & Hinv & _);
    [reflexivity|discriminate|reflexivity|reflexivity|exact empty_db_inv|reflexivity|reflexivity
    |reflexivity|].
  exists db'. split; [|exact Hinv]. rewrite Happ. reflexivity.
Defined.

Lemma app_week_end_to_end_witness :
  @app demo_verifier strict_int 403 day_2024_03_12
    (mkRequest "GET" "/api/study_logs" [("authorization", "Bearer tok-alice")]
       [("week_start", "2024-03-10")] NoBody) sample_db
  = (emit (SelectRange "alice" (mkdate 2024 3 10) (mkdate 2024 3 16)) sample_db,
     mkResponse 200 (PWeek (mkWeekResponse "2024-03-10"
       [("2024-03-10", 0); ("2024-03-11", 40); ("2024-03-12", 0); ("2024-03-13", 0);
        ("2024-03-14", 0); ("2024-03-15", 0); ("2024-03-16", 20)] 60))).
Proof.
  destruct (@app_week_end_to_end demo_verifier strict_int 403 day_2024_03_12
              [("authorization", "Bearer tok-alice")] [("week_start", "2024-03-10")] NoBody
              "tok-alice" "alice" sample_db (mkdate 2024 3 10))
    as (e & Ee & Happ);
    [reflexivity|discriminate|reflexivity|exact sample_db_inv|reflexivity|reflexivity
    |apply Z.leb_le; vm_compute; reflexivity|].
  rewrite Happ. vm_compute in Ee. injection Ee as <-. vm_compute. reflexivity.
Defined.

Lemma app_rejects_before_handler_witness :
  @authenticate demo_verifier "forged" = Raise (HTTPException 401 "Could not validate credentials") ∧
  @app demo_verifier strict_int 403 day_2024_03_12
    (mkRequest "POST" "/api/study_logs" [("authorization", "Bearer forged")] []
       (JSONBody (JObj [("minutes", JStr "thirty")]))) empty_db = (empty_db, validation_error) ∧
  @app demo_verifier strict_int 403 day_2024_03_12
    (mkRequest "GET" "/api/study_logs" [] [] NoBody) empty_db
    = (empty_db, mkResponse 403 (PDetail "Not authenticated")).
Proof.
  split; [reflexivity|split].
  - apply (proj1 (proj2 (proj2 (@app_rejects_before_handler demo_verifier strict_int 403
             day_2024_03_12 [("authorization", "Bearer forged")] []
             (JSONBody (JObj [("minutes", JStr "thirty")])) empty_db)))
             (mkCredentials "Bearer" "forged")); reflexivity.
  - apply (proj1 (@app_rejects_before_handler demo_verifier strict_int 403
             day_2024_03_12 [] [] NoBody empty_db)); [reflexivity|discriminate].
Defined.

End App.
